(** * MathMotion: a shallow embedding of the job repository, the rate
    limiter, the prompt cache, the renderer and the code validator, with
    the properties of the specification checked against them. *)

From Stdlib Require Import ZArith Ascii String List Bool Lia.
From stdpp Require Import base gmap strings list.
Import ListNotations.
Open Scope string_scope.
Set Warnings "-register-all".

(* ================================================================== *)
(** ** JavaScript values *)
(* ================================================================== *)

Module Js.

(** The values the repository stores and returns.  Objects are lists of
    properties in insertion order; a missing property reads as
    [JUndefined]. *)
Inductive jsval : Type :=
| JUndefined
| JNull
| JBool (b : bool)
| JNum (n : Z)
| JNaN
| JStr (s : string)
| JObj (props : list (string * jsval)).

Fixpoint assoc_get {A} (ps : list (string * A)) (k : string) : option A :=
  match ps with
  | [] => None
  | (k', v) :: r => if String.eqb k k' then Some v else assoc_get r k
  end.

(** Property write: replaces the property in place, or appends it. *)
Fixpoint assoc_set {A} (ps : list (string * A)) (k : string) (v : A)
  : list (string * A) :=
  match ps with
  | [] => [(k, v)]
  | (k', v') :: r =>
      if String.eqb k k' then (k, v) :: r else (k', v') :: assoc_set r k v
  end.

Fixpoint assoc_delete {A} (ps : list (string * A)) (k : string)
  : list (string * A) :=
  match ps with
  | [] => []
  | (k', v') :: r =>
      if String.eqb k k' then r else (k', v') :: assoc_delete r k
  end.

(** [obj.k] *)
Definition js_get (v : jsval) (k : string) : jsval :=
  match v with
  | JObj ps => match assoc_get ps k with Some x => x | None => JUndefined end
  | _ => JUndefined
  end.

Definition js_keys (v : jsval) : list string :=
  match v with JObj ps => map fst ps | _ => [] end.

(** Decimal rendering of an integer, as [String(n)] does. *)
Fixpoint digits_of_pos (fuel : nat) (n : Z) (acc : string) : string :=
  match fuel with
  | O => acc
  | S f =>
      let d := Z.modulo n 10 in
      let acc' := String (ascii_of_nat (48 + Z.to_nat d)) acc in
      if Z.ltb n 10 then acc' else digits_of_pos f (Z.div n 10) acc'
  end.

Definition Z_to_string (n : Z) : string :=
  if Z.ltb n 0 then "-" ++ digits_of_pos 64 (- n) ""
  else digits_of_pos 64 n "".

(** [`${v}`] for the values that reach a template literal. *)
Definition js_template (v : jsval) : string :=
  match v with
  | JUndefined => "undefined"
  | JNull => "null"
  | JBool b => if b then "true" else "false"
  | JNum n => Z_to_string n
  | JNaN => "NaN"
  | JStr s => s
  | JObj _ => "[object Object]"
  end.

(** [a || b] on an optional string argument: the empty string is falsy. *)
Definition or_default (a : option string) (d : string) : string :=
  match a with
  | Some s => if String.eqb s "" then d else s
  | None => d
  end.

(** [v >= n] for a number literal [n]: [undefined] converts to NaN, so the
    comparison is false; [null] converts to 0. *)
Definition js_ge (v : jsval) (n : Z) : bool :=
  match v with
  | JNum m => Z.geb m n
  | JNull => Z.geb 0 n
  | JBool b => Z.geb (if b then 1 else 0) n
  | _ => false
  end.

(** [v + 1] for the numeric addition in the source. *)
Definition js_plus1 (v : jsval) : jsval :=
  match v with
  | JNum m => JNum (m + 1)
  | JNull => JNum 1
  | JBool b => JNum ((if b then 1 else 0) + 1)
  | JStr s => JStr (s ++ "1")
  | _ => JNaN
  end.

(** JavaScript truthiness. *)
Definition js_truthy (v : jsval) : bool :=
  match v with
  | JUndefined | JNull | JNaN => false
  | JBool b => b
  | JNum n => negb (Z.eqb n 0)
  | JStr s => negb (String.eqb s "")
  | JObj _ => true
  end.

End Js.
Import Js.

(* ================================================================== *)
(** ** The job collection (MongoDB) and [JobRepository] *)
(* ================================================================== *)

Module Repo.

(** The collection: documents keyed by the lower-case hex of their
    [_id]; the stored value holds the other fields of the document. *)
Abbreviation store := (gmap string jsval).

(** Outcome of an async repository call: a value, or a thrown error. *)
Inductive outcome (A : Type) : Type :=
| Ok (a : A)
| Throw (msg : string).
Arguments Ok {A} a.
Arguments Throw {A} msg.

Definition is_hex (c : ascii) : bool :=
  let n := nat_of_ascii c in
  (Nat.leb 48 n && Nat.leb n 57) || (Nat.leb 97 n && Nat.leb n 102)
  || (Nat.leb 65 n && Nat.leb n 70).

Definition lower (c : ascii) : ascii :=
  let n := nat_of_ascii c in
  if Nat.leb 65 n && Nat.leb n 90 then ascii_of_nat (n + 32) else c.

Fixpoint string_forall (p : ascii -> bool) (s : string) : bool :=
  match s with
  | EmptyString => true
  | String c r => p c && string_forall p r
  end.

Fixpoint string_map (f : ascii -> ascii) (s : string) : string :=
  match s with
  | EmptyString => EmptyString
  | String c r => String (f c) (string_map f r)
  end.

(** [ObjectId.isValid(id)] for a string: 24 hexadecimal digits. *)
Definition objectId_isValid (id : string) : bool :=
  Nat.eqb (String.length id) 24 && string_forall is_hex id.

(** [new ObjectId(id).toString()]: the lower-case hex. *)
Definition objectId_hex (id : string) : string := string_map lower id.

(** Mongo dotted paths: ['output.code'] is [["output"; "code"]]. *)
Fixpoint split_dots_aux (s : string) (cur : string) : list string :=
  match s with
  | EmptyString => [cur]
  | String c r =>
      if Ascii.eqb c "." then cur :: split_dots_aux r ""
      else split_dots_aux r (cur ++ String c EmptyString)
  end.

Definition split_dots (s : string) : list string := split_dots_aux s "".

(** One [$set] entry on a document's property list; [None] is Mongo's
    "Cannot create field" error on a non-object intermediate value. *)
Fixpoint set_path (ps : list (string * jsval)) (path : list string)
  (x : jsval) : option (list (string * jsval)) :=
  match path with
  | [] => None
  | [k] => Some (assoc_set ps k x)
  | k :: rest =>
      match assoc_get ps k with
      | None => sub ← set_path [] rest x; Some (assoc_set ps k (JObj sub))
      | Some (JObj inner) =>
          sub ← set_path inner rest x; Some (assoc_set ps k (JObj sub))
      | Some _ => None
      end
  end.

Fixpoint apply_sets (ps : list (string * jsval))
  (sets : list (string * jsval)) : option (list (string * jsval)) :=
  match sets with
  | [] => Some ps
  | (path, x) :: r =>
      ps' ← set_path ps (split_dots path) x; apply_sets ps' r
  end.

(** [collection.findOneAndUpdate({_id}, {$set}, {returnDocument:'after'})],
    with the document returned as [documentToJob] sees it. *)
Definition findOneAndUpdate (db : store) (key : string)
  (sets : list (string * jsval)) : outcome (option jsval) * store :=
  match db !! key with
  | None => (Ok None, db)
  | Some (JObj ps) =>
      match apply_sets ps sets with
      | Some ps' => (Ok (Some (JObj ps')), <[key := JObj ps']> db)
      | None => (Throw "Cannot create field", db)
      end
  | Some _ => (Throw "Cannot create field", db)
  end.

(** [documentToJob]: the [Job] built from a document; [doc._id.toString()]
    is the key of the document. *)
Definition documentToJob (oid : string) (doc : jsval) : jsval :=
  JObj [("id", JStr oid);
        ("status", js_get doc "status");
        ("prompt", js_get doc "prompt");
        ("stylePreset", js_get doc "stylePreset");
        ("createdAt", js_get doc "createdAt");
        ("updatedAt", js_get doc "updatedAt");
        ("output", js_get doc "output");
        ("error", js_get doc "error");
        ("progress", js_get doc "progress");
        ("progressMessage", js_get doc "progressMessage")].

Definition findJobById (db : store) (jobId : string) : outcome (option jsval) :=
  if negb (objectId_isValid jobId) then Ok None
  else
    let key := objectId_hex jobId in
    match db !! key with
    | None => Ok None
    | Some doc => Ok (Some (documentToJob key doc))
    end.

(** The table of [isValidTransition], as written. *)
Definition validTransitions : list (string * list string) :=
  [("queued", ["generating"; "failed"]);
   ("generating", ["rendering"; "failed"]);
   ("rendering", ["done"; "failed"]);
   ("done", []);
   ("failed", [])].

(** [validTransitions[currentStatus]?.includes(newStatus) ?? false] *)
Definition isValidTransition (currentStatus : jsval) (newStatus : string)
  : bool :=
  match currentStatus with
  | JStr s =>
      match assoc_get validTransitions s with
      | Some targets => existsb (String.eqb newStatus) targets
      | None => false
      end
  | _ => false
  end.

Definition opt_set {A} (k : string) (f : A -> jsval) (o : option A)
  : list (string * jsval) :=
  match o with Some a => [(k, f a)] | None => [] end.

(** [updateJobStatus(jobId, status, progress?, progressMessage?)];
    [now] is [new Date().toISOString()]. *)
Definition updateJobStatus (db : store) (jobId : string) (status : string)
  (progress : option Z) (progressMessage : option string) (now : string)
  : outcome (option jsval) * store :=
  if negb (objectId_isValid jobId) then (Ok None, db)
  else
    match findJobById db jobId with
    | Throw m => (Throw m, db)
    | Ok None => (Ok None, db)
    | Ok (Some currentJob) =>
        if negb (isValidTransition (js_get currentJob "status") status) then
          (Throw ("Invalid status transition from "
                  ++ js_template (js_get currentJob "status")
                  ++ " to " ++ status), db)
        else
          let updateData :=
            ([("status", JStr status); ("updatedAt", JStr now)]
             ++ opt_set "progress" JNum progress
             ++ opt_set "progressMessage" JStr progressMessage)%list in
          match findOneAndUpdate db (objectId_hex jobId) updateData with
          | (Ok (Some d), db') => (Ok (Some (documentToJob (objectId_hex jobId) d)), db')
          | r => r
          end
    end.

Definition updateJobWithCode (db : store) (jobId : string) (code : string)
  (now : string) : outcome (option jsval) * store :=
  if negb (objectId_isValid jobId) then (Ok None, db)
  else
    match findJobById db jobId with
    | Throw m => (Throw m, db)
    | Ok None => (Ok None, db)
    | Ok (Some currentJob) =>
        match js_get currentJob "status" with
        | JStr "generating" =>
            match findOneAndUpdate db (objectId_hex jobId)
                    [("output.code", JStr code); ("updatedAt", JStr now)] with
            | (Ok (Some d), db') => (Ok (Some (documentToJob (objectId_hex jobId) d)), db')
            | r => r
            end
        | _ => (Ok None, db)
        end
    end.

Definition completeJobWithVideo (db : store) (jobId : string)
  (videoUrl : string) (now : string) : outcome (option jsval) * store :=
  if negb (objectId_isValid jobId) then (Ok None, db)
  else
    match findOneAndUpdate db (objectId_hex jobId)
            [("status", JStr "done"); ("updatedAt", JStr now);
             ("output.videoUrl", JStr videoUrl); ("progress", JNum 100)] with
    | (Ok (Some d), db') => (Ok (Some (documentToJob (objectId_hex jobId) d)), db')
    | r => r
    end.

Definition default_error_message : string :=
  "Animation generation failed. Please check your prompt and try again.".
Definition default_error_logs : string :=
  "Manim encountered an error during rendering. This could be due to invalid mathematical syntax or unsupported operations.".

(** [failJob(jobId, errorMessage?, errorLogs?, errorStage?)]: the method
    declares four parameters; a fifth argument passed by a caller is
    dropped, as JavaScript does with extra arguments. *)
Definition failJob (db : store) (jobId : string) (errorMessage : option string)
  (errorLogs : option string) (errorStage : option string) (now : string)
  : outcome (option jsval) * store :=
  if negb (objectId_isValid jobId) then (Ok None, db)
  else
    match findOneAndUpdate db (objectId_hex jobId)
            [("status", JStr "failed"); ("updatedAt", JStr now);
             ("error", JObj [("message", JStr (or_default errorMessage default_error_message));
                             ("logs", JStr (or_default errorLogs default_error_logs));
                             ("stage", JStr (or_default errorStage "rendering"));
                             ("timestamp", JStr now)]);
             ("progress", JNum 0)] with
    | (Ok (Some d), db') => (Ok (Some (documentToJob (objectId_hex jobId) d)), db')
    | r => r
    end.

(** The call made by the job-status route and the submission pipeline:
    [jobRepository.failJob(id, message, logs, stage, type)]. *)
Definition failJob_call (db : store) (jobId : string) (errorMessage : option string)
  (errorLogs : option string) (errorStage : option string)
  (errorType : option string) (now : string) : outcome (option jsval) * store :=
  failJob db jobId errorMessage errorLogs errorStage now.

(** [createJob(jobData)]: [insertOne] under a fresh ObjectId; a key
    already present is a duplicate-key error. *)
Definition createJob (db : store) (newId : string) (jobData : list (string * jsval))
  : outcome jsval * store :=
  match db !! newId with
  | Some _ => (Throw "E11000 duplicate key error", db)
  | None => (Ok (JObj (jobData ++ [("id", JStr newId)])%list), <[newId := JObj jobData]> db)
  end.

End Repo.

(* ================================================================== *)
(** ** [RateLimiter] *)
(* ================================================================== *)

Module RateLimit.

Record RequestRecord := mkRecord { count : Z; resetTime : Z }.

Record RateLimiter := mkLimiter {
  rl_store : gmap string RequestRecord;
  lastCleanup : Z
}.

(** [RATE_LIMIT_CONFIGS.jobSubmission] and [CLEANUP_INTERVAL_MS]. *)
Definition maxRequests : Z := 10.
Definition windowMs : Z := 5 * 60 * 1000.
Definition CLEANUP_INTERVAL_MS : Z := 10 * 60 * 1000.

Record CheckResult := mkCheck {
  allowed : bool;
  remaining : Z;
  cr_resetTime : Z;
  retryAfter : option Z
}.

(** [Math.ceil(d / 1000)] for an integer number of milliseconds [d]. *)
Definition ceil_div1000 (d : Z) : Z := - ((- d) / 1000).

(** [cleanup(now)]: drop the expired records. *)
Definition cleanup (now : Z) (rl : RateLimiter) : RateLimiter :=
  mkLimiter (filter (fun kv => (now < (kv.2).(resetTime))%Z) rl.(rl_store)) now.

Definition limit_key (ip : string) : string := ip ++ ":" ++ "jobSubmission".

(** [checkLimit(ip, 'jobSubmission')] at time [now] ([Date.now()]).  The
    record is mutated in place ([record.count++]), which is the map entry
    being overwritten. *)
Definition checkLimit (rl : RateLimiter) (ip : string) (now : Z)
  : CheckResult * RateLimiter :=
  let rl1 := if Z.ltb CLEANUP_INTERVAL_MS (now - rl.(lastCleanup))
             then cleanup now rl else rl in
  let key := limit_key ip in
  let record :=
    match rl1.(rl_store) !! key with
    | Some r => if Z.leb r.(resetTime) now then mkRecord 0 (now + windowMs) else r
    | None => mkRecord 0 (now + windowMs)
    end in
  let st1 := <[key := record]> rl1.(rl_store) in
  if Z.leb maxRequests record.(count) then
    (mkCheck false 0 record.(resetTime)
       (Some (ceil_div1000 (record.(resetTime) - now))),
     mkLimiter st1 rl1.(lastCleanup))
  else
    let record' := mkRecord (record.(count) + 1) record.(resetTime) in
    (mkCheck true (Z.max 0 (maxRequests - record'.(count))) record'.(resetTime) None,
     mkLimiter (<[key := record']> st1) rl1.(lastCleanup)).

(** Successive calls from one address at the given times. *)
Fixpoint run_calls (rl : RateLimiter) (ip : string) (ts : list Z)
  : list CheckResult * RateLimiter :=
  match ts with
  | [] => ([], rl)
  | t :: rest =>
      let '(r, rl') := checkLimit rl ip t in
      let '(rs, rl'') := run_calls rl' ip rest in
      (r :: rs, rl'')
  end.

End RateLimit.

(* ================================================================== *)
(** ** The job submission route: [POST] with an [autoFixJobId] *)
(* ================================================================== *)

Module Submit.
Import Repo RateLimit.

Definition hex_char (d : nat) : ascii :=
  if Nat.ltb d 10 then ascii_of_nat (48 + d) else ascii_of_nat (87 + d).

Fixpoint hex_pad (k n : nat) : string :=
  match k with
  | O => ""
  | S k' => hex_pad k' (Nat.div n 16) ++ String (hex_char (Nat.modulo n 16)) ""
  end.

(** The ObjectId the driver assigns to the [n]-th insert. *)
Definition oid_of_nat (n : nat) : string := hex_pad 24 n.

(** BSON serialisation as the driver does it by default
    ([ignoreUndefined: false]): an [undefined] property is stored as
    [null]. *)
Fixpoint to_bson (v : jsval) : jsval :=
  match v with
  | JUndefined => JNull
  | JObj ps => JObj (map (fun kv => (kv.1, to_bson kv.2)) ps)
  | _ => v
  end.

(** The server state the route touches. *)
Record Server := mkServer {
  db : store;
  limiter : RateLimiter;
  nextOid : nat
}.

(** The job record the auto-fix branch passes to [createJob]. *)
Definition autoFixJobData (originalJob : jsval) (autoFixJobId now : string)
  : list (string * jsval) :=
  [("status", JStr "queued");
   ("prompt", js_get originalJob "prompt");
   ("stylePreset", js_get originalJob "stylePreset");
   ("createdAt", JStr now);
   ("updatedAt", JStr now);
   ("queuedAt", JStr now);
   ("attemptNumber", js_get originalJob "attemptNumber");
   ("parentJobId", js_get originalJob "parentJobId");
   ("maxAttempts", js_get originalJob "maxAttempts");
   ("autoFixAttemptCount", js_plus1 (js_get originalJob "autoFixAttemptCount"));
   ("isAutoFixJob", JBool true);
   ("originalFailedJobId", JStr autoFixJobId);
   ("lastFailedCode", js_get (js_get originalJob "output") "code");
   ("lastErrorLogs", js_get (js_get originalJob "error") "logs");
   ("progress", JNum 0)].

(** [POST] on a body [{ autoFixJobId }] from client [ip] at time [now]
    ([nowIso] is its ISO form): the rate-limit check, the missing-fields
    check, then the auto-fix branch; the prompt-cache and regular
    branches are not reached for such a body.  The result is the HTTP
    status.  The asynchronous [processAutoFixJob] it dispatches writes
    only under the new job's id. *)
Definition POST_autoFix (s : Server) (ip : string) (now : Z) (nowIso : string)
  (autoFixJobId : string) : Z * Server :=
  let '(limitCheck, rl') := checkLimit s.(limiter) ip now in
  let s1 := mkServer s.(db) rl' s.(nextOid) in
  if negb limitCheck.(allowed) then (429%Z, s1)
  else if String.eqb autoFixJobId "" then (400%Z, s1)
  else
    match findJobById s1.(db) autoFixJobId with
    | Throw _ => (500%Z, s1)
    | Ok None => (404%Z, s1)
    | Ok (Some originalJob) =>
        if js_ge (js_get originalJob "autoFixAttemptCount") 2 then (400%Z, s1)
        else if negb (js_truthy (js_get originalJob "error"))
                || negb (js_truthy (js_get (js_get originalJob "output") "code"))
        then (400%Z, s1)
        else
          let data := map (fun kv => (kv.1, to_bson kv.2))
                        (autoFixJobData originalJob autoFixJobId nowIso) in
          match createJob s1.(db) (oid_of_nat s.(nextOid)) data with
          | (Throw _, db') => (500%Z, mkServer db' rl' (S s.(nextOid)))
          | (Ok _, db') => (201%Z, mkServer db' rl' (S s.(nextOid)))
          end
    end.

(** The 404/400 checks of the auto-fix branch, on what [findJobById]
    returned for the referenced id. *)
Definition autoFix_gate (found : outcome (option jsval)) : option Z :=
  match found with
  | Throw _ => Some 500%Z
  | Ok None => Some 404%Z
  | Ok (Some originalJob) =>
      if js_ge (js_get originalJob "autoFixAttemptCount") 2 then Some 400%Z
      else if negb (js_truthy (js_get originalJob "error"))
              || negb (js_truthy (js_get (js_get originalJob "output") "code"))
      then Some 400%Z
      else None
  end.

End Submit.

(* ================================================================== *)
(** ** SHA-256 ([crypto.createHash('sha256').update(s).digest('hex')]) *)
(* ================================================================== *)

Module Sha256.
Local Open Scope Z_scope.

Definition w32 (x : Z) : Z := Z.land x 0xffffffff.
Definition add32 (x y : Z) : Z := w32 (x + y).
Definition rotr (n x : Z) : Z := Z.lor (Z.shiftr x n) (w32 (Z.shiftl x (32 - n))).

Definition Ch (x y z : Z) : Z := Z.lxor (Z.land x y) (Z.land (Z.lxor x 0xffffffff) z).
Definition Maj (x y z : Z) : Z :=
  Z.lxor (Z.lxor (Z.land x y) (Z.land x z)) (Z.land y z).
Definition Sigma0 (x : Z) : Z := Z.lxor (Z.lxor (rotr 2 x) (rotr 13 x)) (rotr 22 x).
Definition Sigma1 (x : Z) : Z := Z.lxor (Z.lxor (rotr 6 x) (rotr 11 x)) (rotr 25 x).
Definition sigma0 (x : Z) : Z := Z.lxor (Z.lxor (rotr 7 x) (rotr 18 x)) (Z.shiftr x 3).
Definition sigma1 (x : Z) : Z := Z.lxor (Z.lxor (rotr 17 x) (rotr 19 x)) (Z.shiftr x 10).

(** The constants are the first 32 bits of the fractional parts of the
    cube roots (round constants) and square roots (initial hash value) of
    the first primes (FIPS 180-4, 4.2.2 and 5.3.3). *)
Definition is_prime (n : Z) : bool :=
  (2 <=? n) && forallb (fun d => negb (n mod d =? 0))
                       (map Z.of_nat (seq 2 (Z.to_nat (Z.sqrt n) - 1))).

Definition first_primes (k : nat) : list Z :=
  firstn k (filter is_prime (map Z.of_nat (seq 2 400))).

(** The integer cube root, by bisection on [[lo, hi)]. *)
Fixpoint icbrt_go (fuel : nat) (n lo hi : Z) : Z :=
  match fuel with
  | O => lo
  | S f =>
      if hi - lo <=? 1 then lo
      else let mid := (lo + hi) / 2 in
           if mid * mid * mid <=? n then icbrt_go f n mid hi else icbrt_go f n lo mid
  end.

Definition icbrt (n : Z) : Z := icbrt_go 128 n 0 (2 ^ (Z.log2 n / 3 + 1) + 1).

Definition frac_bits_cbrt (p : Z) : Z := icbrt (p * 2 ^ 96) mod 2 ^ 32.
Definition frac_bits_sqrt (p : Z) : Z := Z.sqrt (p * 2 ^ 64) mod 2 ^ 32.

Definition K : list Z := Eval vm_compute in map frac_bits_cbrt (first_primes 64).
Definition H0 : list Z := Eval vm_compute in map frac_bits_sqrt (first_primes 8).

(** The message schedule, built newest-first: [r] holds W[t-1], W[t-2], ... *)
Fixpoint schedule (n : nat) (r : list Z) : list Z :=
  match n with
  | O => r
  | S n' =>
      let w := add32 (add32 (sigma1 (nth 1 r 0)) (nth 6 r 0))
                     (add32 (sigma0 (nth 14 r 0)) (nth 15 r 0)) in
      schedule n' (w :: r)
  end.

Fixpoint words_of_bytes (l : list Z) : list Z :=
  match l with
  | a :: b :: c :: d :: r =>
      (a * 16777216 + b * 65536 + c * 256 + d) :: words_of_bytes r
  | _ => []
  end.

(** One round on the working variables [a; b; c; d; e; f; g; h]. *)
Definition round (st : list Z) (kw : Z * Z) : list Z :=
  match st with
  | [a; b; c; d; e; f; g; h] =>
      let t1 := add32 (add32 (add32 h (Sigma1 e)) (add32 (Ch e f g) kw.1)) kw.2 in
      let t2 := add32 (Sigma0 a) (Maj a b c) in
      [add32 t1 t2; a; b; c; add32 d t1; e; f; g]
  | _ => st
  end.

Definition compress (hs : list Z) (block : list Z) : list Z :=
  let ws := rev (schedule 48 (rev (words_of_bytes block))) in
  let st := fold_left round (combine K ws) hs in
  map (fun p => add32 p.1 p.2) (combine hs st).

Fixpoint process (n : nat) (hs : list Z) (bytes : list Z) : list Z :=
  match n with
  | O => hs
  | S n' => process n' (compress hs (firstn 64 bytes)) (skipn 64 bytes)
  end.

Fixpoint be_bytes (k : nat) (x : Z) : list Z :=
  match k with
  | O => []
  | S k' => be_bytes k' (Z.shiftr x 8) ++ [Z.land x 255]
  end.

Definition pad (bytes : list Z) : list Z :=
  let L := Z.of_nat (length bytes) in
  bytes ++ [128] ++ repeat 0 (Z.to_nat ((55 - L) mod 64)) ++ be_bytes 8 (8 * L).

Definition hex_digit (d : Z) : ascii :=
  if Z.ltb d 10 then ascii_of_nat (48 + Z.to_nat d) else ascii_of_nat (87 + Z.to_nat d).

Fixpoint hex_word (k : nat) (x : Z) (acc : string) : string :=
  match k with
  | O => acc
  | S k' => hex_word k' (Z.shiftr x 4) (String (hex_digit (Z.land x 15)) acc)
  end.

Definition sha256_hex_bytes (bytes : list Z) : string :=
  let p := pad bytes in
  let hs := process (Nat.div (length p) 64) H0 p in
  fold_right (fun w acc => hex_word 8 w EmptyString ++ acc)%string EmptyString hs.

(** [update(s)] encodes the string as UTF-8; the code units modelled
    here are those below 256. *)
Fixpoint utf8 (s : string) : list Z :=
  match s with
  | EmptyString => []
  | String c r =>
      let n := Z.of_nat (nat_of_ascii c) in
      (if Z.ltb n 128 then [n]
       else [Z.lor 192 (Z.shiftr n 6); Z.lor 128 (Z.land n 63)]) ++ utf8 r
  end.

Definition sha256_hex (s : string) : string := sha256_hex_bytes (utf8 s).

End Sha256.

(* ================================================================== *)
(** ** [PromptCache] *)
(* ================================================================== *)

Module PromptCache.

(** [String.prototype.trim]: the white space and line terminators among
    the code units below 256 are 9-13, 32 and 160. *)
Definition is_js_space (c : ascii) : bool :=
  let n := nat_of_ascii c in
  (Nat.leb 9 n && Nat.leb n 13) || Nat.eqb n 32 || Nat.eqb n 160.

Fixpoint drop_spaces (l : list ascii) : list ascii :=
  match l with
  | c :: r => if is_js_space c then drop_spaces r else l
  | [] => []
  end.

Definition trim (s : string) : string :=
  string_of_list_ascii
    (rev (drop_spaces (rev (drop_spaces (list_ascii_of_string s))))).

Record CachedPromptResult := mkEntry {
  hash : string;
  cp_prompt : string;
  cp_stylePreset : string;
  jobId : jsval;
  job : jsval;
  cachedAt : Z;
  hitCount : Z
}.

(** The [Map]: entries in insertion order. *)
Abbreviation cache := (list (string * CachedPromptResult)).

Definition MAX_CACHE_SIZE : nat := 1000.
Definition CACHE_DURATION_MS : Z := 30 * 24 * 60 * 60 * 1000.

Definition generateHash (prompt stylePreset : string) : string :=
  Sha256.sha256_hex (trim prompt ++ "|" ++ stylePreset).

(** [getCachedJob(prompt, stylePreset)] at time [now]. *)
Definition getCachedJob (c : cache) (prompt stylePreset : string) (now : Z)
  : option jsval * cache :=
  let h := generateHash prompt stylePreset in
  match assoc_get c h with
  | None => (None, c)
  | Some cached =>
      if Z.ltb CACHE_DURATION_MS (now - cached.(cachedAt)) then
        (None, assoc_delete c h)
      else
        (Some cached.(job),
         assoc_set c h (mkEntry cached.(hash) cached.(cp_prompt)
                          cached.(cp_stylePreset) cached.(jobId) cached.(job)
                          cached.(cachedAt) (cached.(hitCount) + 1)))
  end.

Definition is_done (job : jsval) : bool :=
  match js_get job "status" with JStr s => String.eqb s "done" | _ => false end.

(** The eviction scan: [oldestKey] starts at [null] and [oldestTime] at
    [Date.now()]; an entry replaces the candidate when strictly older. *)
Definition scan_oldest (c : cache) (now : Z) : option string * Z :=
  fold_left (fun acc kv =>
               if Z.ltb (kv.2).(cachedAt) acc.2 then (Some kv.1, (kv.2).(cachedAt))
               else acc) c (None, now).

(** [setCachedJob(prompt, stylePreset, job)]; [Date.now()] is read twice,
    for the scan ([nowScan]) and for [cachedAt] ([nowCached]). *)
Definition setCachedJob (c : cache) (prompt stylePreset : string) (job : jsval)
  (nowScan nowCached : Z) : cache :=
  if negb (is_done job) || negb (js_truthy (js_get job "output")) then c
  else
    let h := generateHash prompt stylePreset in
    match assoc_get c h with
    | Some _ => c
    | None =>
        let c1 :=
          if Nat.leb MAX_CACHE_SIZE (length c) then
            match (scan_oldest c nowScan).1 with
            | Some oldestKey => assoc_delete c oldestKey
            | None => c
            end
          else c in
        assoc_set c1 h (mkEntry h (trim prompt) stylePreset (js_get job "id") job
                          nowCached 0)
    end.

End PromptCache.

(* ================================================================== *)
(** ** JavaScript regular expressions *)
(* ================================================================== *)

(** A backtracking matcher with the semantics of ECMAScript [RegExp] on
    code units below 256, and a parser for the pattern syntax the
    sources use, so that each pattern below is written as in the code
    (a double quote is written [\x22], which denotes the same character). *)
Module Regex.

Definition cu (c : ascii) : nat := nat_of_ascii c.

Definition is_space (c : ascii) : bool :=
  let n := cu c in (Nat.leb 9 n && Nat.leb n 13) || Nat.eqb n 32 || Nat.eqb n 160.
Definition is_digit (c : ascii) : bool := Nat.leb 48 (cu c) && Nat.leb (cu c) 57.
Definition is_word (c : ascii) : bool :=
  let n := cu c in
  (Nat.leb 65 n && Nat.leb n 90) || (Nat.leb 97 n && Nat.leb n 122)
  || is_digit c || Nat.eqb n 95.
Definition is_line_terminator (c : ascii) : bool := Nat.eqb (cu c) 10 || Nat.eqb (cu c) 13.
Definition fold_case (c : ascii) : ascii :=
  if Nat.leb 97 (cu c) && Nat.leb (cu c) 122 then ascii_of_nat (cu c - 32) else c.

Inductive regex : Type :=
| RSet (p : ascii -> bool)
| REps
| RSeq (r1 r2 : regex)
| RAlt (r1 r2 : regex)
| RStar (greedy : bool) (r : regex)
| RGroup (n : nat) (r : regex)
| RBol
| REol
| RWordB.

Fixpoint rsize (r : regex) : nat :=
  match r with
  | RSeq r1 r2 | RAlt r1 r2 => S (rsize r1 + rsize r2)
  | RStar _ r1 | RGroup _ r1 => S (rsize r1)
  | _ => 1
  end.

(** Matcher state: position, the input from there on, the previous
    code unit, and the captures. *)
Record mstate := mkM {
  pos : nat;
  rest : list ascii;
  prev : option ascii;
  caps : list (nat * (nat * nat))
}.

Definition word_at (o : option ascii) : bool :=
  match o with Some c => is_word c | None => false end.

Definition head_opt (l : list ascii) : option ascii :=
  match l with c :: _ => Some c | [] => None end.

Fixpoint set_cap (cs : list (nat * (nat * nat))) (n : nat) (v : nat * nat)
  : list (nat * (nat * nat)) :=
  match cs with
  | [] => [(n, v)]
  | (m, w) :: r => if Nat.eqb n m then (n, v) :: r else (m, w) :: set_cap r n v
  end.

(** Continuation-passing backtracking: [k] is the rest of the pattern.
    An iteration of a quantifier that consumes nothing fails, as in
    ECMAScript.  [fuel] bounds the nesting of calls; [exec] supplies
    (length of input + 2) * (size of pattern + 2), more than a match
    ever nests. *)
Fixpoint mt (fuel : nat) (ml : bool) (r : regex) (st : mstate)
  (k : mstate -> option mstate) {struct fuel} : option mstate :=
  match fuel with
  | O => None
  | S f =>
      match r with
      | RSet p =>
          match rest st with
          | c :: tl => if p c then k (mkM (S (pos st)) tl (Some c) (caps st)) else None
          | [] => None
          end
      | REps => k st
      | RSeq r1 r2 => mt f ml r1 st (fun st' => mt f ml r2 st' k)
      | RAlt r1 r2 =>
          match mt f ml r1 st k with
          | Some x => Some x
          | None => mt f ml r2 st k
          end
      | RStar greedy r1 =>
          let iter := fun (_ : unit) =>
            mt f ml r1 st (fun st' =>
              if Nat.eqb (pos st') (pos st) then None else mt f ml (RStar greedy r1) st' k) in
          if greedy then
            match iter tt with Some x => Some x | None => k st end
          else
            match k st with Some x => Some x | None => iter tt end
      | RGroup n r1 =>
          mt f ml r1 st (fun st' =>
            k (mkM (pos st') (rest st') (prev st') (set_cap (caps st') n (pos st, pos st'))))
      | RBol =>
          let ok := match prev st with
                    | None => true
                    | Some c => ml && is_line_terminator c
                    end in
          if ok then k st else None
      | REol =>
          let ok := match rest st with
                    | [] => true
                    | c :: _ => ml && is_line_terminator c
                    end in
          if ok then k st else None
      | RWordB =>
          if xorb (word_at (prev st)) (word_at (head_opt (rest st))) then k st else None
      end
  end.

(** A compiled [RegExp]: the pattern and its [m] flag. *)
Record RegExp := mkRegExp { pattern : regex; multiline : bool }.

Record rmatch := mkMatch { m_start : nat; m_end : nat; m_caps : list (nat * (nat * nat)) }.

(** The first match starting at or after position [i]. *)
Fixpoint search (fuel : nat) (ml : bool) (r : regex) (i : nat) (l : list ascii)
  (pv : option ascii) : option rmatch :=
  match mt fuel ml r (mkM i l pv []) Some with
  | Some st => Some (mkMatch i (pos st) (caps st))
  | None =>
      match l with
      | c :: tl => search fuel ml r (S i) tl (Some c)
      | [] => None
      end
  end.

Definition exec_from (R : RegExp) (s : string) (i : nat) : option rmatch :=
  let l := list_ascii_of_string s in
  let fuel := (length l + 2) * (rsize (pattern R) + 2) in
  search fuel (multiline R) (pattern R) i (skipn i l)
    (match i with O => None | S j => nth_error l j end).

(** [R.test(s)] for a pattern without the [g] flag. *)
Definition test (R : RegExp) (s : string) : bool :=
  match exec_from R s 0 with Some _ => true | None => false end.

(** The successive matches of a [g] pattern, as [s.match(R)],
    [s.matchAll(R)] and an [R.exec] loop find them. *)
Fixpoint matches_from (fuel : nat) (R : RegExp) (s : string) (i : nat) : list rmatch :=
  match fuel with
  | O => []
  | S f =>
      match exec_from R s i with
      | None => []
      | Some m =>
          m :: matches_from f R s
                 (if Nat.eqb (m_end m) (m_start m) then S (m_end m) else m_end m)
      end
  end.

Definition all_matches (R : RegExp) (s : string) : list rmatch :=
  matches_from (S (String.length s)) R s 0.

Definition substring_at (s : string) (i j : nat) : string :=
  String.substring i (j - i) s.

Definition matched_text (s : string) (m : rmatch) : string :=
  substring_at s (m_start m) (m_end m).

Fixpoint assoc_nat (n : nat) (l : list (nat * (nat * nat))) : option (nat * nat) :=
  match l with
  | [] => None
  | (m, v) :: r => if Nat.eqb n m then Some v else assoc_nat n r
  end.

(** [m[n]]: the text of group [n], or [undefined]. *)
Definition group (s : string) (m : rmatch) (n : nat) : option string :=
  match assoc_nat n (m_caps m) with
  | Some (a, b) => Some (substring_at s a b)
  | None => None
  end.

(** *** Pattern syntax *)

Definition hex_val (c : ascii) : nat :=
  let n := cu c in
  if Nat.leb 48 n && Nat.leb n 57 then n - 48
  else if Nat.leb 97 n && Nat.leb n 102 then n - 87
  else if Nat.leb 65 n && Nat.leb n 70 then n - 55 else 0.

Definition lit (ic : bool) (c : ascii) : ascii -> bool :=
  if ic then fun x => Ascii.eqb (fold_case x) (fold_case c) else fun x => Ascii.eqb x c.

Definition range (ic : bool) (a b : ascii) : ascii -> bool :=
  fun x => (Nat.leb (cu a) (cu x) && Nat.leb (cu x) (cu b))
           || (ic && Nat.leb (cu a) (cu (fold_case x)) && Nat.leb (cu (fold_case x)) (cu b)).

(** A character-class escape [\s \S \w \W \d \D]. *)
Definition class_escape (e : ascii) : option (ascii -> bool) :=
  match e with
  | "s"%char => Some is_space
  | "S"%char => Some (fun x => negb (is_space x))
  | "w"%char => Some is_word
  | "W"%char => Some (fun x => negb (is_word x))
  | "d"%char => Some is_digit
  | "D"%char => Some (fun x => negb (is_digit x))
  | _ => None
  end.

(** A single character written in the pattern, possibly escaped:
    [\n], [\t], [\xHH] or an escaped punctuator. *)
Definition p_char (s : list ascii) : option (ascii * list ascii) :=
  match s with
  | "\"%char :: "n"%char :: r => Some (ascii_of_nat 10, r)
  | "\"%char :: "t"%char :: r => Some (ascii_of_nat 9, r)
  | "\"%char :: "x"%char :: h1 :: h2 :: r => Some (ascii_of_nat (hex_val h1 * 16 + hex_val h2), r)
  | "\"%char :: c :: r => Some (c, r)
  | c :: r => Some (c, r)
  | [] => None
  end.

Fixpoint p_class (fuel : nat) (ic : bool) (s : list ascii) (acc : ascii -> bool)
  : option ((ascii -> bool) * list ascii) :=
  match fuel with
  | O => None
  | S f =>
      match s with
      | "]"%char :: r => Some (acc, r)
      | "\"%char :: e :: r =>
          match class_escape e with
          | Some p => p_class f ic r (fun x => acc x || p x)
          | None =>
              match p_char s with
              | Some (c, r') => p_class f ic r' (fun x => acc x || lit ic c x)
              | None => None
              end
          end
      | a :: "-"%char :: b :: r =>
          if Ascii.eqb b "]"%char then p_class f ic ("-"%char :: b :: r) (fun x => acc x || lit ic a x)
          else p_class f ic r (fun x => acc x || range ic a b x)
      | c :: r => p_class f ic r (fun x => acc x || lit ic c x)
      | [] => None
      end
  end.

(** One atom: a group, a class, an escape, [.], [^], [$] or a character. *)
Inductive atom_kind := AtomQ (r : regex) | AtomA (r : regex).

Definition p_quant (a : regex) (s : list ascii) : regex * list ascii :=
  match s with
  | "*"%char :: "?"%char :: r => (RStar false a, r)
  | "*"%char :: r => (RStar true a, r)
  | "+"%char :: "?"%char :: r => (RSeq a (RStar false a), r)
  | "+"%char :: r => (RSeq a (RStar true a), r)
  | "?"%char :: "?"%char :: r => (RAlt REps a, r)
  | "?"%char :: r => (RAlt a REps, r)
  | _ => (a, s)
  end.

Fixpoint p_alt (fuel : nat) (ic : bool) (s : list ascii) (g : nat)
  : option (regex * list ascii * nat) :=
  match fuel with
  | O => None
  | S f =>
      match p_seq f ic s g with
      | Some (r1, "|"%char :: s1, g1) =>
          match p_alt f ic s1 g1 with
          | Some (r2, s2, g2) => Some (RAlt r1 r2, s2, g2)
          | None => None
          end
      | res => res
      end
  end
with p_seq (fuel : nat) (ic : bool) (s : list ascii) (g : nat)
  : option (regex * list ascii * nat) :=
  match fuel with
  | O => None
  | S f =>
      match s with
      | [] => Some (REps, s, g)
      | "|"%char :: _ | ")"%char :: _ => Some (REps, s, g)
      | _ =>
          match p_atom f ic s g with
          | Some (AtomQ a, s1, g1) =>
              let '(q, s2) := p_quant a s1 in
              match p_seq f ic s2 g1 with
              | Some (r, s3, g2) => Some (RSeq q r, s3, g2)
              | None => None
              end
          | Some (AtomA a, s1, g1) =>
              match p_seq f ic s1 g1 with
              | Some (r, s3, g2) => Some (RSeq a r, s3, g2)
              | None => None
              end
          | None => None
          end
      end
  end
with p_atom (fuel : nat) (ic : bool) (s : list ascii) (g : nat)
  : option (atom_kind * list ascii * nat) :=
  match fuel with
  | O => None
  | S f =>
      match s with
      | "("%char :: "?"%char :: ":"%char :: r =>
          match p_alt f ic r g with
          | Some (a, ")"%char :: r', g') => Some (AtomQ a, r', g')
          | _ => None
          end
      | "("%char :: r =>
          match p_alt f ic r (S g) with
          | Some (a, ")"%char :: r', g') => Some (AtomQ (RGroup (S g) a), r', g')
          | _ => None
          end
      | "["%char :: "^"%char :: r =>
          match p_class f ic r (fun _ => false) with
          | Some (p, r') => Some (AtomQ (RSet (fun x => negb (p x))), r', g)
          | None => None
          end
      | "["%char :: r =>
          match p_class f ic r (fun _ => false) with
          | Some (p, r') => Some (AtomQ (RSet p), r', g)
          | None => None
          end
      | "."%char :: r => Some (AtomQ (RSet (fun x => negb (is_line_terminator x))), r, g)
      | "^"%char :: r => Some (AtomA RBol, r, g)
      | "$"%char :: r => Some (AtomA REol, r, g)
      | "\"%char :: "b"%char :: r => Some (AtomA RWordB, r, g)
      | "\"%char :: e :: r =>
          match class_escape e with
          | Some p => Some (AtomQ (RSet p), r, g)
          | None =>
              match p_char s with
              | Some (c, r') => Some (AtomQ (RSet (lit ic c)), r', g)
              | None => None
              end
          end
      | c :: r => Some (AtomQ (RSet (lit ic c)), r, g)
      | [] => None
      end
  end.

Definition parse (src : string) (ic : bool) : option regex :=
  let l := list_ascii_of_string src in
  match p_alt (3 * length l + 3) ic l 0 with
  | Some (r, [], _) => Some r
  | _ => None
  end.

(** [new RegExp(src, flags)]; a pattern that does not parse matches
    nothing (every pattern of the sources parses, see [patterns_parse]). *)
Definition rx (src : string) (flags : string) : RegExp :=
  let has c := existsb (fun x => Ascii.eqb x c) (list_ascii_of_string flags) in
  mkRegExp (match parse src (has "i"%char) with Some r => r | None => RSet (fun _ => false) end)
           (has "m"%char).

Definition parses (src : string) : bool :=
  match parse src false with Some _ => true | None => false end.

End Regex.

(* ================================================================== *)
(** ** Code validation: [ManimCodeGeneratorService.validateAndCleanCode] *)
(* ================================================================== *)

Module Validator.
Import Regex.

Definition dq : string := String (ascii_of_nat 34) EmptyString.

(** [String.prototype.includes]. *)
Definition includes (s sub : string) : bool :=
  match String.index 0 sub s with Some _ => true | None => false end.

(** [{ isValid, reason }] of the three helper validators. *)
Inductive Validation := Valid | Invalid (reason : string).

Record GenError := mkGenError { etype : string; emessage : string; edetails : string }.

(** [ManimCodeGenerationResult] as [validateAndCleanCode] builds it. *)
Inductive GenResult := GenOk (code : string) | GenErr (e : GenError).

(** [Array.prototype.join]. *)
Fixpoint join (sep : string) (l : list string) : string :=
  match l with
  | [] => ""
  | [x] => x
  | x :: r => x ++ sep ++ join sep r
  end.

(** JavaScript numbers: IEEE 754 doubles.  [Finite m e] is the
    non-negative double [m * 2^e], in the canonical form [to_double]
    gives (0 as [Finite 0 0]; [2^52 <= m < 2^53] for a normal number,
    [e = -1074] for a subnormal one); [Inf] is [Infinity]. *)
Inductive number := Finite (m e : Z) | Inf.

Definition number_eqb (x y : number) : bool :=
  match x, y with
  | Finite m e, Finite m' e' => (m =? m')%Z && (e =? e')%Z
  | Inf, Inf => true
  | _, _ => false
  end.

(** [num / den] rounded to an integer, ties to even ([num >= 0], [den > 0]). *)
Definition round_half_even (num den : Z) : Z :=
  let q := (num / den)%Z in
  let r := (num mod den)%Z in
  if (2 * r <? den)%Z then q
  else if (den <? 2 * r)%Z then (q + 1)%Z
  else if Z.even q then q else (q + 1)%Z.

(** [num / den >= b^c], for [num, den > 0]. *)
Definition ge_pow (b num den c : Z) : bool :=
  if (0 <=? c)%Z then (den * b ^ c <=? num)%Z else (den <=? num * b ^ (- c))%Z.

(** [floor(log2(num / den))], for [num, den > 0]. *)
Definition floor_log2 (num den : Z) : Z :=
  let c := (Z.log2 num - Z.log2 den)%Z in
  if ge_pow 2 num den c then c else (c - 1)%Z.

(** The number of decimal digits of [z > 0]. *)
Fixpoint ndigits_fuel (fuel : nat) (z : Z) : Z :=
  match fuel with
  | O => 0
  | S f => if (z <? 10)%Z then 1 else (1 + ndigits_fuel f (z / 10))%Z
  end.

Definition ndigits (z : Z) : Z := ndigits_fuel (Z.to_nat (Z.log2 z + 1)) z.

(** [floor(log10(num / den))], for [num, den > 0]. *)
Definition floor_log10 (num den : Z) : Z :=
  let c := (ndigits num - ndigits den)%Z in
  if ge_pow 10 num den c then c else (c - 1)%Z.

(** The double nearest to the exact value [num / den] ([num >= 0],
    [den > 0]), ties to even, [Infinity] from [2^1024 - 2^970] on: the
    rounding of IEEE 754 that [parseFloat] and [/] apply. *)
Definition to_double (num den : Z) : number :=
  if (num =? 0)%Z then Finite 0 0 else
  let e := Z.max (floor_log2 num den - 52) (-1074) in
  let m := if (0 <=? e)%Z then round_half_even num (den * 2 ^ e)
           else round_half_even (num * 2 ^ (- e)) den in
  let '(m, e) := if (m =? 2 ^ 53)%Z then (2 ^ 52, e + 1)%Z else (m, e) in
  if (m =? 0)%Z then Finite 0 0
  else if (1024 <=? e + 52)%Z then Inf
  else Finite m e.

(** The exact value of a finite double as [(num, den)]. *)
Definition finite_value (m e : Z) : Z * Z :=
  if (0 <=? e)%Z then (m * 2 ^ e, 1)%Z else (m, 2 ^ (- e))%Z.

(** [s * 10^p] as [(num, den)]. *)
Definition dec_value (s p : Z) : Z * Z :=
  if (0 <=? p)%Z then (s * 10 ^ p, 1)%Z else (s, 10 ^ (- p))%Z.

Definition round_trips (x : number) (s p : Z) : bool :=
  let '(num, den) := dec_value s p in number_eqb (to_double num den) x.

(** Step 5 of [Number::toString] for [k] digits, in the form the
    standard recommends: the [k]-digit [s] with [s * 10^(n-k)] the
    double [x = xn / xd] (where [10^(n-1) <= x < 10^n]), the one closest
    to [x] when two qualify, the even one on a tie.  Only the two
    [k]-digit neighbours of [x] can be closest. *)
Definition digits_at (x : number) (xn xd n k : Z) (last : bool) : option (Z * Z * Z) :=
  let p := (n - k)%Z in
  let '(N, D) := if (0 <=? p)%Z then (xn, xd * 10 ^ p)%Z else (xn * 10 ^ (- p), xd)%Z in
  let s := (N / D)%Z in
  let r := (N mod D)%Z in
  let lo_ok := last || round_trips x s p in
  let hi_ok := (0 <? r)%Z && (last || round_trips x (s + 1) p) in
  let lo := Some (s, k, n) in
  let hi := Some ((s + 1)%Z, k, n) in
  match lo_ok, hi_ok with
  | true, true =>
      if (2 * r <? D)%Z then lo
      else if (D <? 2 * r)%Z then hi
      else if Z.even s then lo else hi
  | true, false => lo
  | false, true => hi
  | false, false => None
  end.

(** The smallest [k] from [k0] on; 17 digits always identify a double. *)
Fixpoint shortest_digits (fuel : nat) (x : number) (xn xd n k : Z) : option (Z * Z * Z) :=
  match fuel with
  | O => digits_at x xn xd n k true
  | S f =>
      match digits_at x xn xd n k false with
      | Some r => Some r
      | None => shortest_digits f x xn xd n (k + 1)
      end
  end.

(** [s] with its trailing zeros removed, and its number of digits [k]. *)
Fixpoint strip_zeros (fuel : nat) (s k : Z) : Z * Z :=
  match fuel with
  | O => (s, k)
  | S f => if (1 <? k)%Z && (s mod 10 =? 0)%Z then strip_zeros f (s / 10) (k - 1) else (s, k)
  end.

Fixpoint zeros (n : nat) : string :=
  match n with O => "" | S n' => "0" ++ zeros n' end.

(** Steps 6 to 10 of [Number::toString] for the digits [s] ([k] of them)
    and the exponent [n]: [x = s * 10^(n-k)]. *)
Definition format_digits (s k n : Z) : string :=
  let '(s, k, n) := if (s =? 10 ^ k)%Z then (10 ^ (k - 1), k, n + 1)%Z else (s, k, n) in
  let '(s, k) := strip_zeros (Z.to_nat k) s k in
  let ds := Z_to_string s in
  if (k <=? n)%Z && (n <=? 21)%Z then ds ++ zeros (Z.to_nat (n - k))
  else if (0 <? n)%Z && (n <=? 21)%Z then
    String.substring 0 (Z.to_nat n) ds ++ "." ++ String.substring (Z.to_nat n) (Z.to_nat (k - n)) ds
  else if (-6 <? n)%Z && (n <=? 0)%Z then "0." ++ zeros (Z.to_nat (- n)) ++ ds
  else
    let e := (n - 1)%Z in
    let exp := "e" ++ (if (e <? 0)%Z then "-" else "+") ++ Z_to_string (Z.abs e) in
    if (k =? 1)%Z then ds ++ exp
    else String.substring 0 1 ds ++ "." ++ String.substring 1 (Z.to_nat (k - 1)) ds ++ exp.

(** [Number::toString(x)], i.e. [`${x}`], for a non-negative double. *)
Definition number_to_string (x : number) : string :=
  match x with
  | Inf => "Infinity"
  | Finite m e =>
      if (m =? 0)%Z then "0"
      else
        let '(xn, xd) := finite_value m e in
        let n := (floor_log10 xn xd + 1)%Z in
        match shortest_digits 16 x xn xd n 1 with
        | Some (s, k, n') => format_digits s k n'
        | None => "0"  (* not reached: the 17-digit step always answers *)
        end
  end.

(** [parseFloat] on a match of [[0-9]+(?:\.[0-9]+)?]: the exact decimal
    [mantissa / 10^exponent] rounded to the nearest double (V8 rounds
    every digit string correctly). *)
Fixpoint dec_digits (l : list ascii) (acc : Z) (e : nat) (frac : bool) : Z * nat :=
  match l with
  | [] => (acc, e)
  | c :: r =>
      if Ascii.eqb c "."%char then dec_digits r acc e true
      else dec_digits r (acc * 10 + Z.of_nat (cu c - 48))%Z (if frac then S e else e) frac
  end.

Definition parseFloat (s : string) : number :=
  let '(m, e) := dec_digits (list_ascii_of_string s) 0 O false in
  to_double m (10 ^ Z.of_nat e).

(** [runTime > 5]. *)
Definition gt5 (v : number) : bool :=
  match v with
  | Inf => true
  | Finite m e => if (0 <=? e)%Z then (5 <? m * 2 ^ e)%Z else (5 * 2 ^ (- e) <? m)%Z
  end.

Definition markdownRegex := rx "^```(?:python)?\n?([\s\S]*?)\n?```$" "".
Definition manimImportRegex := rx "from\s+manim\s+import\s+\*" "m".
Definition sceneClassRegex := rx "class\s+(\w+)\s*\(\s*Scene\s*\)\s*:" "g".
Definition constructRegex := rx "def\s+construct\s*\(\s*self\s*\)\s*:" "m".
Definition openParenRegex := rx "\(" "g".
Definition closeParenRegex := rx "\)" "g".

Definition allowedImports : list RegExp :=
  [rx "^from\s+manim\s+import\s+\*" "m";
   rx "^import\s+manim" "m";
   rx "^from\s+manim\.\w+\s+import" "m"].

Definition forbiddenImports : list (RegExp * string) :=
  [(rx "import\s+os\b" "", "os module (file system access)");
   (rx "from\s+os\s+import" "", "os module (file system access)");
   (rx "import\s+sys\b" "", "sys module (system access)");
   (rx "from\s+sys\s+import" "", "sys module (system access)");
   (rx "import\s+subprocess\b" "", "subprocess module (command execution)");
   (rx "from\s+subprocess\s+import" "", "subprocess module (command execution)");
   (rx "import\s+socket\b" "", "socket module (network access)");
   (rx "from\s+socket\s+import" "", "socket module (network access)");
   (rx "import\s+requests\b" "", "requests module (network access)");
   (rx "import\s+urllib" "", "urllib module (network access)");
   (rx "import\s+pickle\b" "", "pickle module (arbitrary code execution)");
   (rx "import\s+marshal\b" "", "marshal module (arbitrary code execution)");
   (rx "import\s+ctypes\b" "", "ctypes module (low-level system access)");
   (rx "import\s+__builtin" "", "__builtin module (builtin overrides)");
   (rx "import\s+builtins\b" "", "builtins module (builtin overrides)")].

Definition importRegex := rx "^(?:from\s+[\w.]+\s+)?import\s+[\w.,\s*]+" "gm".

Definition validateImports (code : string) : Validation :=
  match find (fun fp => test fp.1 code) forbiddenImports with
  | Some (_, message) =>
      Invalid ("Forbidden import detected: " ++ message ++ ". Only Manim imports are allowed.")
  | None =>
      let imports := map (matched_text code) (all_matches importRegex code) in
      match find (fun importStmt =>
                    negb (existsb (fun pattern => test pattern importStmt) allowedImports)
                    && negb (test (rx "manim" "i") importStmt)) imports with
      | Some importStmt =>
          Invalid ("Unauthorized import detected: " ++ dq ++ importStmt ++ dq
                   ++ ". Only Manim library imports are permitted.")
      | None => Valid
      end
  end.

Definition forbiddenCalls : list (RegExp * string) :=
  [(rx "\beval\s*\(" "", "eval() - arbitrary code execution");
   (rx "\bexec\s*\(" "", "exec() - arbitrary code execution");
   (rx "\bcompile\s*\(" "", "compile() - dynamic code compilation");
   (rx "\b__import__\s*\(" "", "__import__() - dynamic imports");
   (rx "\bopen\s*\(" "", "open() - file system access");
   (rx "\bfile\s*\(" "", "file() - file system access");
   (rx "\binput\s*\(" "", "input() - user input not supported");
   (rx "\braw_input\s*\(" "", "raw_input() - user input not supported");
   (rx "\bglobals\s*\(" "", "globals() - namespace manipulation");
   (rx "\blocals\s*\(" "", "locals() - namespace manipulation");
   (rx "\bvars\s*\(" "", "vars() - namespace manipulation");
   (rx "\bdir\s*\(" "", "dir() - introspection not needed");
   (rx "\bgetattr\s*\(" "", "getattr() - dynamic attribute access");
   (rx "\bsetattr\s*\(" "", "setattr() - dynamic attribute modification");
   (rx "\bdelattr\s*\(" "", "delattr() - dynamic attribute deletion");
   (rx "\b__dict__\b" "", "__dict__ - object introspection");
   (rx "\b__class__\b" "", "__class__ - class manipulation");
   (rx "\b__bases__\b" "", "__bases__ - inheritance manipulation")].

Definition validateForbiddenCalls (code : string) : Validation :=
  match find (fun fp => test fp.1 code) forbiddenCalls with
  | Some (_, message) =>
      Invalid ("Forbidden function call detected: " ++ message
               ++ ". This operation is not allowed in animation code.")
  | None => Valid
  end.

Definition dangerousPatterns : list (RegExp * string) :=
  [(rx "(os|sys|subprocess)\.\w+" "", "Direct module method calls on restricted modules");
   (rx "with\s+open\s*\(" "", "File context managers (with open)");
   (rx "\bwith\s+file\s*\(" "", "File context managers (with file)");
   (rx "lambda.*(?:eval|exec|__import__|compile)" "", "Lambda functions with dangerous operations");
   (rx "\[.*for.*in.*\].*(?:eval|exec)" "", "List comprehensions with code execution")].

Definition validateDangerousPatterns (code : string) : Validation :=
  match find (fun dp => test dp.1 code) dangerousPatterns with
  | Some (_, message) =>
      Invalid ("Potentially unsafe pattern detected: " ++ message ++ ". Please revise your prompt.")
  | None => Valid
  end.

Definition forbiddenCameraPatterns : list (RegExp * string) :=
  [(rx "\.camera\.frame" "", "camera.frame manipulation not allowed");
   (rx "\.camera\.animate" "", "camera.animate not allowed");
   (rx "camera\.add" "", "camera configuration not allowed");
   (rx "self\.camera\s*=" "", "camera assignment not allowed")].

Definition qualityOverridePatterns : list (RegExp * string) :=
  [(rx "-qm" "", "Medium quality (-qm) not allowed, use -ql");
   (rx "-qh" "", "High quality (-qh) not allowed, use -ql");
   (rx "quality\s*=\s*\x22[^\x22]*[mh]" "", "Quality override not allowed");
   (rx "frame_rate\s*=" "", "Frame rate modification not allowed");
   (rx "pixel_height" "", "Resolution modification not allowed");
   (rx "pixel_width" "", "Resolution modification not allowed")].

Definition largeRunTimePattern := rx "run_time\s*=\s*([0-9]+(?:\.[0-9]+)?)" "g".

(** [match[1]] of a [largeRunTimePattern] match; the group always takes part. *)
Definition run_time_text (code : string) (m : rmatch) : string :=
  match group code m 1 with Some t => t | None => "" end.

Definition runtime_reason (runTime : number) : string :=
  "Animation step duration (" ++ number_to_string runTime
  ++ "s) exceeds maximum of 5 seconds per step. Keep animations short and keep total under 12 seconds.".

Definition validateOutputConstraints (code : string) : Validation :=
  match find (fun p => test p.1 code) forbiddenCameraPatterns with
  | Some (_, message) =>
      Invalid (message ++ ". Do not use camera manipulation in your prompt.")
  | None =>
      match find (fun p => test p.1 code) qualityOverridePatterns with
      | Some (_, message) => Invalid (message ++ ". Resolution is fixed at 480p 15fps.")
      | None =>
          (* the [exec] loop stops at the first value above 5 *)
          match find (fun m => gt5 (parseFloat (run_time_text code m)))
                     (all_matches largeRunTimePattern code) with
          | Some m => Invalid (runtime_reason (parseFloat (run_time_text code m)))
          | None => Valid
          end
      end
  end.

(** Step 1: [rawCode.trim()], then the body of a markdown fence, trimmed. *)
Definition clean_code (rawCode : string) : string :=
  let cleanCode := PromptCache.trim rawCode in
  match exec_from markdownRegex cleanCode 0 with
  | Some markdownMatch =>
      match group cleanCode markdownMatch 1 with
      | Some body => PromptCache.trim body
      | None => cleanCode
      end
  | None => cleanCode
  end.

Definition scene_class_name (code : string) (m : rmatch) : string :=
  match group code m 1 with Some n => n | None => "" end.

Definition validation_error (message details : string) : GenResult :=
  GenErr (mkGenError "validation" message details).

Definition validateAndCleanCode (rawCode : string) : GenResult :=
  let cleanCode := clean_code rawCode in
  if negb (test manimImportRegex cleanCode) then
    validation_error ("Generated code missing required " ++ dq ++ "from manim import *" ++ dq ++ " import")
      "The LLM did not include the mandatory Manim import statement"
  else
  let matches := all_matches sceneClassRegex cleanCode in
  if Nat.eqb (length matches) 0 then
    validation_error "No Scene class found in generated code"
      "The code must contain exactly one class that inherits from Scene"
  else if Nat.ltb 1 (length matches) then
    validation_error
      ("Multiple Scene classes found (" ++ Z_to_string (Z.of_nat (length matches)) ++ "). Expected exactly one.")
      ("Found classes: " ++ join ", " (map (scene_class_name cleanCode) matches))
  else if negb (test constructRegex cleanCode) then
    validation_error "Scene class missing required construct(self) method"
      "Every Manim Scene must have a construct method"
  else
  let openParens := length (all_matches openParenRegex cleanCode) in
  let closeParens := length (all_matches closeParenRegex cleanCode) in
  if negb (Nat.eqb openParens closeParens) then
    validation_error "Syntax error: Unbalanced parentheses in generated code"
      ("Found " ++ Z_to_string (Z.of_nat openParens) ++ " opening and "
       ++ Z_to_string (Z.of_nat closeParens) ++ " closing parentheses")
  else
  match validateImports cleanCode with
  | Invalid reason => validation_error "Code contains forbidden imports" reason
  | Valid =>
  match validateForbiddenCalls cleanCode with
  | Invalid reason => validation_error "Code contains forbidden operations" reason
  | Valid =>
  match validateDangerousPatterns cleanCode with
  | Invalid reason => validation_error "Code contains potentially unsafe patterns" reason
  | Valid =>
  match validateOutputConstraints cleanCode with
  | Invalid reason => validation_error "Code violates output constraints" reason
  | Valid => GenOk cleanCode
  end end end end.

(** Steps 2 to 5 of [validateAndCleanCode] pass on [cleanCode]. *)
Definition structure_ok (cleanCode : string) : bool :=
  test manimImportRegex cleanCode
  && Nat.eqb (length (all_matches sceneClassRegex cleanCode)) 1
  && test constructRegex cleanCode
  && Nat.eqb (length (all_matches openParenRegex cleanCode))
             (length (all_matches closeParenRegex cleanCode)).

End Validator.

(* ================================================================== *)
(** ** Rendering: [ManimRendererService.renderCode] *)
(* ================================================================== *)

(** The file system is the set of existing paths.  What the outside
    world does (whether [mkdirSync], [writeFileSync], [copyFileSync] or
    [rmSync] throw, how the Docker process ends, which paths the
    container writes into the mounted directory) is an input. *)
Module Renderer.
Import Regex Validator.

Record ManimRenderConfig := mkConfig {
  dockerImage : string;
  timeoutMs : Z;
  tempDir : string
}.

Record ManimRenderRequest := mkRequest { jobId : string; code : string }.

Record RenderError := mkRenderError { rtype : string; rmessage : string; rdetails : string }.

Record ManimRenderResult := mkRenderResult {
  success : bool;
  videoUrl : option string;
  logs : option string;
  error : option RenderError
}.

(** How the Docker process ends: its [close] event with an exit code
    ([null] when killed by a signal), its [error] event, or the timer. *)
Inductive DockerOutcome :=
| DockerClose (exitCode : option Z) (stdout stderr : string)
| DockerSpawnError (message : string)
| DockerTimeout.

Record World := mkWorld {
  cwd : string;
  mkdir_error : option string;
  write_error : option string;
  docker : DockerOutcome;
  container_writes : list string;  (* relative paths, in directory-walk order *)
  copy_error : option string;
  rm_error : option string
}.

Definition fs_state := gset string.

Definition nl : string := String (ascii_of_nat 10) EmptyString.

(** [path.join] of a directory and relative segments. *)
Definition path_join (a b : string) : string := a ++ "/" ++ b.

Definition ends_with (suffix s : string) : bool :=
  String.eqb (String.substring (String.length s - String.length suffix) (String.length suffix) s) suffix
  && Nat.leb (String.length suffix) (String.length s).

(** [`${ms / 1000}`]: the double nearest to [ms / 1000], printed by
    [Number::toString] (a negative number prints as [-] and its
    magnitude).  [ms] is the integer [parseInt] gave. *)
Definition seconds_string (ms : Z) : string :=
  (if (ms <? 0)%Z then "-" else "") ++ number_to_string (to_double (Z.abs ms) 1000).

(** A step that may throw an [Error] with the given message. *)
Inductive step (A : Type) := Done (a : A) (fs : fs_state) | Thrown (message : string) (fs : fs_state).
Arguments Done {A}. Arguments Thrown {A}.

Definition mkdirSync (w : World) (fs : fs_state) (d : string) : step unit :=
  match mkdir_error w with
  | Some e => Thrown e fs
  | None => Done tt ({[d]} ∪ fs)
  end.

Definition createTempDirectory (cfg : ManimRenderConfig) (w : World) (fs : fs_state)
  (jobId : string) : step string :=
  let tempBaseDir := tempDir cfg in
  let jobTempDir := path_join tempBaseDir ("mathmotion-" ++ jobId) in
  match (if bool_decide (tempBaseDir ∈ fs) then Done tt fs else mkdirSync w fs tempBaseDir) with
  | Thrown e fs1 => Thrown e fs1
  | Done _ fs1 =>
      match (if bool_decide (jobTempDir ∈ fs1) then Done tt fs1 else mkdirSync w fs1 jobTempDir) with
      | Thrown e fs2 => Thrown e fs2
      | Done _ fs2 => Done jobTempDir fs2
      end
  end.

Definition writeCodeFile (w : World) (fs : fs_state) (dir : string) : step string :=
  let codeFilePath := path_join dir "scene.py" in
  match write_error w with
  | Some e => Thrown e fs
  | None => Done codeFilePath ({[codeFilePath]} ∪ fs)
  end.

Definition extractSceneName (code : string) : option string :=
  match exec_from (rx "class\s+(\w+)\s*\(\s*Scene\s*\)" "") code 0 with
  | Some m => group code m 1
  | None => None
  end.

Definition executeDocker (cfg : ManimRenderConfig) (w : World) (fs : fs_state) (dir : string)
  (sceneName : string) : step (string * string) :=
  let fs' := list_to_set (map (path_join dir) (container_writes w)) ∪ fs in
  match docker w with
  | DockerClose (Some 0%Z) stdout stderr => Done (stdout, stderr) fs'
  | DockerClose c _ stderr =>
      Thrown ("docker: Process exited with code "
              ++ match c with Some n => Z_to_string n | None => "null" end ++ nl ++ stderr) fs'
  | DockerSpawnError m => Thrown ("docker: Failed to spawn process: " ++ m) fs'
  | DockerTimeout =>
      Thrown ("timeout: Docker execution exceeded " ++ seconds_string (timeoutMs cfg) ++ " seconds") fs'
  end.

(** The first [.mp4] under [media/videos] in the walk of [findMp4]. *)
Definition findRenderedVideo (w : World) (fs : fs_state) (dir : string) : option string :=
  let mediaDir := path_join (path_join dir "media") "videos" in
  if bool_decide (mediaDir ∈ fs) then
    find (fun p => String.prefix (mediaDir ++ "/") p && ends_with ".mp4" p)
         (filter (fun p => bool_decide (p ∈ fs)) (map (path_join dir) (container_writes w)))
  else None.

Definition copyVideoToPublic (w : World) (fs : fs_state) (jobId : string) : step string :=
  let videosDir := path_join (path_join (cwd w) "public") "videos" in
  match (if bool_decide (videosDir ∈ fs) then Done tt fs else mkdirSync w fs videosDir) with
  | Thrown e fs1 => Thrown e fs1
  | Done _ fs1 =>
      match copy_error w with
      | Some e => Thrown e fs1
      | None => Done ("/videos/" ++ jobId ++ ".mp4")
                     ({[path_join videosDir (jobId ++ ".mp4")]} ∪ fs1)
      end
  end.

(** [fs.rmSync(dir, { recursive: true, force: true })]. *)
Definition remove_tree (dir : string) (fs : fs_state) : fs_state :=
  filter (fun p => p <> dir /\ String.prefix (dir ++ "/") p = false) fs.

(** [cleanup]: an error of [rmSync] is logged with [console.error]. *)
Definition cleanup (w : World) (fs : fs_state) (dir : string) : fs_state * list string :=
  if bool_decide (dir ∈ fs) then
    match rm_error w with
    | Some e => (fs, ["Failed to cleanup temp directory " ++ dir ++ ": " ++ e])
    | None => (remove_tree dir fs, [])
    end
  else (fs, []).

Definition failure (t m d : string) (logs : option string) : ManimRenderResult :=
  mkRenderResult false None logs (Some (mkRenderError t m d)).

(** The [catch] block: clean up when [tempDir] was set, then classify. *)
Definition on_error (cfg : ManimRenderConfig) (w : World) (fs : fs_state)
  (tempDir : option string) (errorMessage : string)
  : ManimRenderResult * fs_state * list string :=
  let '(fs', log) := match tempDir with Some d => cleanup w fs d | None => (fs, []) end in
  let result :=
    if includes errorMessage "timeout" then
      failure "timeout" "Rendering took too long and was cancelled"
        ("Execution exceeded " ++ seconds_string (timeoutMs cfg) ++ "-second timeout limit") None
    else if includes errorMessage "docker" then
      failure "docker_error" "Docker execution failed" errorMessage None
    else if includes errorMessage "ENOENT" || includes errorMessage "no such file" then
      failure "file_error" "File operation failed" errorMessage None
    else failure "runtime_error" "Rendering failed with an error" errorMessage None in
  (result, fs', log).

(** [renderCode]: the result, the file system afterwards and the lines
    written with [console.error]. *)
Definition renderCode (cfg : ManimRenderConfig) (w : World) (fs : fs_state)
  (request : ManimRenderRequest) : ManimRenderResult * fs_state * list string :=
  let jobId := jobId request in
  let code := code request in
  match createTempDirectory cfg w fs jobId with
  | Thrown e fs1 => on_error cfg w fs1 None e
  | Done tempDir fs1 =>
  match writeCodeFile w fs1 tempDir with
  | Thrown e fs2 => on_error cfg w fs2 (Some tempDir) e
  | Done _ fs2 =>
  match extractSceneName code with
  | None | Some "" =>
      (failure "runtime_error" "Could not find Scene class in code"
         "Scene class name extraction failed" None, fs2, [])
  | Some sceneName =>
  match executeDocker cfg w fs2 tempDir sceneName with
  | Thrown e fs3 => on_error cfg w fs3 (Some tempDir) e
  | Done (stdout, stderr) fs3 =>
  match findRenderedVideo w fs3 tempDir with
  | None =>
      (failure "runtime_error" "Video file not found after rendering"
         "Manim execution completed but no MP4 file was produced" (Some (stdout ++ nl ++ stderr)),
       fs3, [])
  | Some videoPath =>
  match copyVideoToPublic w fs3 jobId with
  | Thrown e fs4 => on_error cfg w fs4 (Some tempDir) e
  | Done publicVideoUrl fs4 =>
      let '(fs5, log) := cleanup w fs4 tempDir in
      (mkRenderResult true (Some publicVideoUrl) (Some stdout) None, fs5, log)
  end end end end end end.

(** The per-job directory [renderCode] creates. *)
Definition job_temp_dir (cfg : ManimRenderConfig) (jobId : string) : string :=
  path_join (tempDir cfg) ("mathmotion-" ++ jobId).

End Renderer.

(* ================================================================== *)
(** ** The rest of [rateLimiter.ts]: [getStatus], [resetLimit] and
    [getClientIP] *)
(* ================================================================== *)

Module RateLimitOps.
Import RateLimit.

Record LimitStatus := mkStatus { used : Z; limit : Z; st_resetTime : Z }.

(** [getStatus(ip, 'jobSubmission')] at time [now]. *)
Definition getStatus (rl : RateLimiter) (ip : string) (now : Z) : LimitStatus :=
  match rl.(rl_store) !! limit_key ip with
  | Some r =>
      if Z.leb r.(resetTime) now then mkStatus 0 maxRequests (now + windowMs)%Z
      else mkStatus r.(count) maxRequests r.(resetTime)
  | None => mkStatus 0 maxRequests (now + windowMs)%Z
  end.

(** [resetLimit(ip, 'jobSubmission')]: [this.store.delete(key)]. *)
Definition resetLimit (rl : RateLimiter) (ip : string) : RateLimiter :=
  mkLimiter (delete (limit_key ip) rl.(rl_store)) rl.(lastCleanup).

(** [s.split(',')[0]]: the text before the first comma. *)
Fixpoint first_field (s : string) : string :=
  match s with
  | EmptyString => EmptyString
  | String c r => if Ascii.eqb c ","%char then EmptyString else String c (first_field r)
  end.

(** [request.headers.get(name)] is [headers name]; [null] is [None]. *)
Definition truthy_header (h : option string) : option string :=
  match h with
  | Some v => if String.eqb v "" then None else Some v
  | None => None
  end.

(** [getClientIP(request)]. *)
Definition getClientIP (headers : string -> option string) : string :=
  match truthy_header (headers "x-forwarded-for") with
  | Some forwardedFor => PromptCache.trim (first_field forwardedFor)
  | None =>
      match truthy_header (headers "cf-connecting-ip") with
      | Some cfConnectingIP => cfConnectingIP
      | None =>
          match truthy_header (headers "x-real-ip") with
          | Some xRealIP => xRealIP
          | None => "127.0.0.1"
          end
      end
  end.

End RateLimitOps.

(* ================================================================== *)
(** ** [timeoutDetector.ts]: [checkForTimeout] and [validatePrompt], and
    the job-status route that calls [checkForTimeout] *)
(* ================================================================== *)

Module Detector.
Import Repo.

(** [JOB_TIMEOUT_MS] and [TERMINAL_JOB_STATES] of the constants module. *)
Definition JOB_TIMEOUT_MS_queued : Z := 30 * 1000.
Definition JOB_TIMEOUT_MS_generating_code : Z := 3 * 60 * 1000.
Definition JOB_TIMEOUT_MS_rendering : Z := 90 * 1000.

Definition TERMINAL_JOB_STATES : list string := ["done"; "failed"].

(** [TERMINAL_JOB_STATES.includes(job.status)] *)
Definition is_terminal (status : jsval) : bool :=
  match status with
  | JStr s => existsb (String.eqb s) TERMINAL_JOB_STATES
  | _ => false
  end.

Record TimeoutError := mkTimeoutError {
  tmessage : string; tlogs : string; tstage : string; ttype : string
}.

Definition nl : string := String (ascii_of_nat 10) EmptyString.

Definition timeout_logs (status : string) (started : jsval) (elapsed : Z)
  (threshold : string) : string :=
  "Timeout detected:" ++ nl ++ "- Status: " ++ status ++ nl
  ++ "- Started: " ++ js_template started ++ nl
  ++ "- Duration: " ++ Z_to_string (elapsed / 1000)%Z ++ "s" ++ nl
  ++ "- Threshold: " ++ threshold.

Section Clock.

(** [new Date(v).getTime()]: the milliseconds of the instant [v] denotes,
    [None] for an invalid date (NaN, for which [elapsed > threshold] is
    false). *)
Variable date_of : jsval -> option Z.

(** One [case] of the switch: [if (started) { elapsed = now - ...;
    if (elapsed > threshold) return ... }]. *)
Definition check_stage (now : Z) (started : jsval) (threshold : Z)
  (err : Z -> TimeoutError) : option TimeoutError :=
  if js_truthy started then
    match date_of started with
    | Some t => if Z.ltb threshold (now - t)%Z then Some (err (now - t)%Z) else None
    | None => None
    end
  else None.

(** [checkForTimeout(job)] at time [now]; [None] is [{ isTimedOut: false }]. *)
Definition checkForTimeout (job : jsval) (now : Z) : option TimeoutError :=
  match js_get job "status" with
  | JStr s =>
      if String.eqb s "queued" then
        check_stage now (js_get job "queuedAt") JOB_TIMEOUT_MS_queued
          (fun elapsed => mkTimeoutError
             "Job failed to start processing. The system may be experiencing issues. Please try again."
             (timeout_logs "queued" (js_get job "queuedAt") elapsed "30s")
             "code_generation" "timeout")
      else if String.eqb s "generating_code" then
        check_stage now (js_get job "codeGenerationStartedAt") JOB_TIMEOUT_MS_generating_code
          (fun elapsed => mkTimeoutError
             "Code generation took too long and was cancelled. The AI service may be slow or unresponsive. Please try again."
             (timeout_logs "generating_code" (js_get job "codeGenerationStartedAt") elapsed "180s")
             "code_generation" "timeout")
      else if String.eqb s "rendering" then
        check_stage now (js_get job "renderingStartedAt") JOB_TIMEOUT_MS_rendering
          (fun elapsed => mkTimeoutError
             "Rendering took too long and was cancelled. Try simplifying your animation or reducing the duration."
             (timeout_logs "rendering" (js_get job "renderingStartedAt") elapsed "90s")
             "rendering" "timeout")
      else None
  | _ => None
  end.

(** The [GET] job-status route for [jobId] at time [now] ([nowIso] in ISO
    form): the HTTP status, the JSON body and the collection afterwards. *)
Definition GET (db : store) (jobId : string) (now : Z) (nowIso : string)
  : Z * jsval * store :=
  let internal := JObj [("error", JStr "Internal server error")] in
  match findJobById db jobId with
  | Throw _ => (500%Z, internal, db)
  | Ok None => (404%Z, JObj [("error", JStr "Job not found")], db)
  | Ok (Some job) =>
      if negb (is_terminal (js_get job "status")) then
        match checkForTimeout job now with
        | Some e =>
            match failJob_call db jobId (Some e.(tmessage)) (Some e.(tlogs))
                    (Some e.(tstage)) (Some e.(ttype)) nowIso with
            | (Throw _, db') => (500%Z, internal, db')
            | (Ok _, db') =>
                match findJobById db' jobId with
                | Throw _ => (500%Z, internal, db')
                | Ok updatedJob =>
                    (200%Z, JObj [("job", match updatedJob with Some j => j | None => JNull end)], db')
                end
            end
        | None => (200%Z, JObj [("job", job)], db)
        end
      else (200%Z, JObj [("job", job)], db)
  end.

End Clock.

Inductive ValidationResult := PromptValid | PromptInvalid (error : string).

(** [validatePrompt(prompt)]; [length] counts code units. *)
Definition validatePrompt (prompt : string) : ValidationResult :=
  let trimmedPrompt := PromptCache.trim prompt in
  if Nat.eqb (String.length trimmedPrompt) 0 then
    PromptInvalid "Please enter a prompt to generate an animation"
  else if Nat.ltb 1000 (String.length trimmedPrompt) then
    PromptInvalid "Prompt must be less than 1000 characters"
  else PromptValid.

End Detector.

(* ================================================================== *)
(** ** The background pipelines of the submission route:
    [processJob] and [processAutoFixJob] *)
(* ================================================================== *)

Module Pipeline.
Import Repo Validator Renderer.

(** [a || b] on an optional string. *)
Definition truthy_opt (o : option string) : bool :=
  match o with Some s => negb (String.eqb s "") | None => false end.

(** [completeJobWithVideo(jobId, renderResult.videoUrl!)]: a missing URL
    is [undefined], which the driver stores as [null]. *)
Definition complete_with_url (db : store) (jobId : string) (url : option string)
  (now : string) : outcome (option jsval) * store :=
  match url with
  | Some u => completeJobWithVideo db jobId u now
  | None =>
      if negb (objectId_isValid jobId) then (Ok None, db)
      else
        match findOneAndUpdate db (objectId_hex jobId)
                [("status", JStr "done"); ("updatedAt", JStr now);
                 ("output.videoUrl", JNull); ("progress", JNum 100)] with
        | (Ok (Some d), db') => (Ok (Some (documentToJob (objectId_hex jobId) d)), db')
        | r => r
        end
  end.

(** The user message [processJob] stores for a failed generation. *)
Definition gen_failure_message (e : GenError) : string :=
  if String.eqb e.(etype) "rate_limit" then
    "Rate limit exceeded. Please try again in a few moments."
  else if String.eqb e.(etype) "api_error" then
    "Service configuration error. Please contact support."
  else if String.eqb e.(etype) "network" then
    "Network error. Please check your connection and try again."
  else if String.eqb e.(etype) "validation" then
    if includes e.(edetails) "Forbidden" || includes e.(edetails) "unsafe"
       || includes e.(edetails) "not allowed"
    then "Code contains unauthorized operations. The generated code was blocked for security reasons."
    else "Generated code failed validation. Please try rephrasing your prompt."
  else e.(emessage).

(** The message and type [processJob] stores for a failed render. *)
Definition render_failure (e : RenderError) : string * string :=
  if String.eqb e.(rtype) "timeout" then
    ("Rendering took too long and was cancelled. Try simplifying your animation.", "timeout")
  else if String.eqb e.(rtype) "runtime_error" then
    ("Manim encountered an error while rendering. Check your code syntax.", "runtime_error")
  else if String.eqb e.(rtype) "docker_error" then
    ("Rendering system error. Please try again.", "unknown")
  else if String.eqb e.(rtype) "file_error" then
    ("Failed to save video file. Please try again.", "unknown")
  else ("Rendering failed. Please try again.", "unknown").

(** The message and type [processAutoFixJob] stores for a failed fix. *)
Definition fix_failure (e : GenError) : string * string :=
  if String.eqb e.(etype) "validation" then
    ("Generated code failed validation. Try using regular retry and modifying your prompt.", "validation")
  else if String.eqb e.(etype) "rate_limit" then
    ("Auto-fix failed. Code could not be automatically repaired.", "api_error")
  else if String.eqb e.(etype) "network" then
    ("Auto-fix failed. Code could not be automatically repaired.", "network_error")
  else ("Auto-fix failed. Code could not be automatically repaired.", "unknown").

(** The message and type [processAutoFixJob] stores for a failed render. *)
Definition fix_render_failure (e : RenderError) : string * string :=
  if String.eqb e.(rtype) "timeout" then
    ("Rendering took too long. Try simplifying your animation or modifying your prompt.", "timeout")
  else if String.eqb e.(rtype) "runtime_error" then
    ("Manim encountered an error. Try regular retry with a different approach.", "runtime_error")
  else ("Rendering failed. Try regular retry and modify your prompt.", "unknown").

(** [currentJob?.output?.code] *)
Definition current_code (currentJob : option jsval) : jsval :=
  match currentJob with Some j => js_get (js_get j "output") "code" | None => JUndefined end.

(** [promptCache.setCachedJob(originalPrompt, originalStylePreset, job)]
    on the values read from the original job: [prompt.trim()] throws when
    the prompt is not a string. *)
Definition cache_with (c : PromptCache.cache) (prompt stylePreset : jsval) (job : jsval)
  (now : Z) : outcome PromptCache.cache :=
  if negb (PromptCache.is_done job) || negb (js_truthy (js_get job "output")) then Ok c
  else
    match prompt with
    | JStr p => Ok (PromptCache.setCachedJob c p (js_template stylePreset) job now now)
    | JUndefined => Throw "Cannot read properties of undefined (reading 'trim')"
    | JNull => Throw "Cannot read properties of null (reading 'trim')"
    | _ => Throw "prompt.trim is not a function"
    end.

Section Services.

(** [manimCodeGenerator.generateCode({ prompt, stylePreset })],
    [manimRenderer.renderCode({ jobId, code })] and
    [autoFixGenerator.generateFixedCode({ previousCode, errorLogs })], as
    the results they resolve to. *)
Variable generate : string -> string -> GenResult.
Variable render : string -> jsval -> ManimRenderResult.
Variable generateFixed : jsval -> jsval -> GenResult.

(** [processJob(jobId, prompt, stylePreset, parentJobId)] on the
    collection [db] and the prompt cache [c]; repository writes are
    stamped [nowIso] and the cache entry [nowMs].  The result is the
    collection, the cache, and whether the returned promise rejects (the
    route then logs "Fatal error in processJob"). *)
Definition processJob (db : store) (c : PromptCache.cache) (jobId prompt stylePreset : string)
  (parentJobId : option string) (nowIso : string) (nowMs : Z)
  : store * PromptCache.cache * bool :=
  let on_catch (m : string) (db0 : store) :=
    match failJob_call db0 jobId (Some "An unexpected error occurred. Please try again.")
            (Some m) (Some "code_generation") (Some "unknown") nowIso with
    | (Throw _, db1) => (db1, c, true)
    | (Ok _, db1) => (db1, c, false)
    end in
  match updateJobStatus db jobId "generating_code" (Some 25%Z)
          (Some "Analyzing prompt and generating Manim code...") nowIso with
  | (Throw m, db1) => on_catch m db1
  | (Ok _, db1) =>
  match generate prompt stylePreset with
  | GenErr e =>
      match failJob_call db1 jobId (Some (gen_failure_message e)) (Some e.(edetails))
              (Some "code_generation") (Some e.(etype)) nowIso with
      | (Throw m, db2) => on_catch m db2
      | (Ok _, db2) => (db2, c, false)
      end
  | GenOk code =>
  match updateJobWithCode db1 jobId code nowIso with
  | (Throw m, db2) => on_catch m db2
  | (Ok _, db2) =>
  match updateJobStatus db2 jobId "rendering" (Some 50%Z)
          (Some "Rendering 3D scene in sandbox...") nowIso with
  | (Throw m, db3) => on_catch m db3
  | (Ok _, db3) =>
  match findJobById db3 jobId with
  | Throw m => on_catch m db3
  | Ok currentJob =>
      if negb (js_truthy (current_code currentJob)) then
        match failJob_call db3 jobId (Some "Rendering failed: no code found")
                (Some "Job code missing or not persisted") (Some "rendering") (Some "unknown") nowIso with
        | (Throw m, db4) => on_catch m db4
        | (Ok _, db4) => (db4, c, false)
        end
      else
        let renderResult := render jobId (current_code currentJob) in
        if renderResult.(success) then
          match complete_with_url db3 jobId renderResult.(videoUrl) nowIso with
          | (Throw m, db4) => on_catch m db4
          | (Ok (Some completedJob), db4) =>
              if truthy_opt parentJobId then (db4, c, false)
              else (db4, PromptCache.setCachedJob c prompt stylePreset completedJob nowMs nowMs, false)
          | (Ok None, db4) => (db4, c, false)
          end
        else
          match renderResult.(error) with
          | None => on_catch "Cannot read properties of undefined (reading 'type')" db3
          | Some e =>
              let '(errorMessage, errorType) := render_failure e in
              match failJob_call db3 jobId (Some errorMessage)
                      (Some (or_default renderResult.(logs) e.(rdetails)))
                      (Some "rendering") (Some errorType) nowIso with
              | (Throw m, db4) => on_catch m db4
              | (Ok _, db4) => (db4, c, false)
              end
          end
  end end end end end.

(** [processAutoFixJob(jobId, failedCode, errorLogs, originalPrompt,
    originalStylePreset)], in the same terms. *)
Definition processAutoFixJob (db : store) (c : PromptCache.cache) (jobId : string)
  (failedCode errorLogs originalPrompt originalStylePreset : jsval)
  (nowIso : string) (nowMs : Z) : store * PromptCache.cache * bool :=
  let on_catch (m : string) (db0 : store) :=
    match failJob_call db0 jobId
            (Some "An unexpected error occurred during auto-fix. Please try regular retry.")
            (Some m) (Some "code_generation") (Some "unknown") nowIso with
    | (Throw _, db1) => (db1, c, true)
    | (Ok _, db1) => (db1, c, false)
    end in
  match updateJobStatus db jobId "generating_code" (Some 25%Z)
          (Some "Attempting to fix the code using error logs...") nowIso with
  | (Throw m, db1) => on_catch m db1
  | (Ok _, db1) =>
  match generateFixed failedCode errorLogs with
  | GenErr e =>
      let '(errorMessage, errorType) := fix_failure e in
      match failJob_call db1 jobId (Some errorMessage) (Some e.(edetails))
              (Some "code_generation") (Some errorType) nowIso with
      | (Throw m, db2) => on_catch m db2
      | (Ok _, db2) => (db2, c, false)
      end
  | GenOk code =>
  match updateJobWithCode db1 jobId code nowIso with
  | (Throw m, db2) => on_catch m db2
  | (Ok _, db2) =>
  match updateJobStatus db2 jobId "rendering" (Some 50%Z)
          (Some "Rendering fixed 3D scene in sandbox...") nowIso with
  | (Throw m, db3) => on_catch m db3
  | (Ok _, db3) =>
  match findJobById db3 jobId with
  | Throw m => on_catch m db3
  | Ok currentJob =>
      if negb (js_truthy (current_code currentJob)) then
        match failJob_call db3 jobId (Some "Rendering failed: no code found")
                (Some "Job code missing or not persisted") (Some "rendering") (Some "unknown") nowIso with
        | (Throw m, db4) => on_catch m db4
        | (Ok _, db4) => (db4, c, false)
        end
      else
        let renderResult := render jobId (current_code currentJob) in
        if renderResult.(success) then
          match complete_with_url db3 jobId renderResult.(videoUrl) nowIso with
          | (Throw m, db4) => on_catch m db4
          | (Ok (Some completedJob), db4) =>
              match cache_with c originalPrompt originalStylePreset completedJob nowMs with
              | Ok c' => (db4, c', false)
              | Throw m => on_catch m db4
              end
          | (Ok None, db4) => (db4, c, false)
          end
        else
          match renderResult.(error) with
          | None => on_catch "Cannot read properties of undefined (reading 'type')" db3
          | Some e =>
              let '(errorMessage, errorType) := fix_render_failure e in
              match failJob_call db3 jobId (Some errorMessage)
                      (Some (or_default renderResult.(logs) e.(rdetails)))
                      (Some "rendering") (Some errorType) nowIso with
              | (Throw m, db4) => on_catch m db4
              | (Ok _, db4) => (db4, c, false)
              end
          end
  end end end end end.

End Services.

End Pipeline.

(* ================================================================== *)
(** ** The job submission route [POST], all branches *)
(* ================================================================== *)

Module Route.
Import Repo RateLimit Submit RateLimitOps Pipeline.

(** What the route keeps between requests. *)
Record AppState := mkApp {
  st_db : store;
  st_limiter : RateLimiter;
  st_next : nat;
  st_cache : PromptCache.cache
}.

(** The fields the route destructures from the JSON body; a field is a
    string or absent. *)
Record Body := mkBody {
  b_prompt : option string;
  b_stylePreset : option string;
  b_parentJobId : option string;
  b_autoFixJobId : option string
}.

(** A request: its headers ([request.headers.get]) and its body, [None]
    when [request.json()] rejects or gives [null]. *)
Record HttpRequest := mkHttpRequest {
  headers : string -> option string;
  body : option Body
}.

(** The background call the route starts without awaiting it. *)
Inductive Task :=
| RunProcessJob (jobId prompt stylePreset : string) (parentJobId : option string)
| RunProcessAutoFixJob (jobId : string)
    (failedCode errorLogs originalPrompt originalStylePreset : jsval).

Definition task_jobId (t : Task) : string :=
  match t with RunProcessJob j _ _ _ => j | RunProcessAutoFixJob j _ _ _ _ => j end.

Definition opt_js (o : option string) : jsval :=
  match o with Some s => JStr s | None => JUndefined end.

(** The record of a cache-hit job. *)
Definition cacheHitJobData (cachedJob : jsval) (now : string) : list (string * jsval) :=
  [("status", JStr "done");
   ("prompt", js_get cachedJob "prompt");
   ("stylePreset", js_get cachedJob "stylePreset");
   ("createdAt", JStr now);
   ("updatedAt", JStr now);
   ("attemptNumber", JNum 1);
   ("maxAttempts", JNum 3);
   ("autoFixAttemptCount", JNum 0);
   ("output", js_get cachedJob "output");
   ("isCacheHit", JBool true);
   ("cachedFromJobId", js_get cachedJob "id");
   ("progress", JNum 100)].

(** The record of a regular job. *)
Definition regularJobData (prompt stylePreset : string) (parentJobId : option string)
  (attemptNumber : Z) (now : string) : list (string * jsval) :=
  [("status", JStr "queued");
   ("prompt", JStr prompt);
   ("stylePreset", JStr stylePreset);
   ("createdAt", JStr now);
   ("updatedAt", JStr now);
   ("queuedAt", JStr now);
   ("attemptNumber", JNum attemptNumber);
   ("parentJobId", if truthy_opt parentJobId then opt_js parentJobId else JUndefined);
   ("maxAttempts", JNum 3);
   ("autoFixAttemptCount", JNum 0);
   ("progress", JNum 0)].

Definition bson_data (data : list (string * jsval)) : list (string * jsval) :=
  map (fun kv => (kv.1, to_bson kv.2)) data.

(** The state after an insert attempt under [oid_of_nat s.(st_next)]. *)
Definition created (s : AppState) (db' : store) : AppState :=
  mkApp db' s.(st_limiter) (S s.(st_next)) s.(st_cache).

(** The cache-hit branch: a new [done] job pointing to the cached one. *)
Definition cacheHit_branch (s : AppState) (cachedJob : jsval) (nowIso : string)
  : Z * AppState * option Task :=
  match createJob s.(st_db) (oid_of_nat s.(st_next))
          (bson_data (cacheHitJobData cachedJob nowIso)) with
  | (Throw _, db') => (500%Z, created s db', None)
  | (Ok _, db') => (201%Z, created s db', None)
  end.

(** The auto-fix branch. *)
Definition autoFix_branch (s : AppState) (autoFixJobId : string) (nowIso : string)
  : Z * AppState * option Task :=
  match findJobById s.(st_db) autoFixJobId with
  | Throw _ => (500%Z, s, None)
  | Ok None => (404%Z, s, None)
  | Ok (Some originalJob) =>
      if js_ge (js_get originalJob "autoFixAttemptCount") 2 then (400%Z, s, None)
      else if negb (js_truthy (js_get originalJob "error"))
              || negb (js_truthy (js_get (js_get originalJob "output") "code"))
      then (400%Z, s, None)
      else
        let newId := oid_of_nat s.(st_next) in
        match createJob s.(st_db) newId
                (bson_data (autoFixJobData originalJob autoFixJobId nowIso)) with
        | (Throw _, db') => (500%Z, created s db', None)
        | (Ok _, db') =>
            let errorLogs := js_get (js_get originalJob "error") "logs" in
            (201%Z, created s db',
             Some (RunProcessAutoFixJob newId
                     (js_get (js_get originalJob "output") "code")
                     (if js_truthy errorLogs then errorLogs
                      else JStr "No error logs available")
                     (js_get originalJob "prompt") (js_get originalJob "stylePreset")))
        end
  end.

(** The regular and retry branch. *)
Definition regular_branch (s : AppState) (b : Body) (nowIso : string)
  : Z * AppState * option Task :=
  let create :=
    match b.(b_prompt), b.(b_stylePreset) with
    | Some prompt, Some stylePreset =>
        let newId := oid_of_nat s.(st_next) in
        (* [attemptNumber] is 1: the retry path below never gets here *)
        match createJob s.(st_db) newId
                (bson_data (regularJobData prompt stylePreset b.(b_parentJobId) 1 nowIso)) with
        | (Throw _, db') => (500%Z, created s db', None)
        | (Ok _, db') =>
            (201%Z, created s db', Some (RunProcessJob newId prompt stylePreset b.(b_parentJobId)))
        end
    | _, _ => (400%Z, s, None) (* not reached: answered by the missing-fields check *)
    end in
  match b.(b_parentJobId) with
  | Some parentJobId =>
      if truthy_opt (Some parentJobId) then
        match findJobById s.(st_db) parentJobId with
        | Throw _ => (500%Z, s, None)
        | Ok None => (404%Z, s, None)
        (* [jobRepository.canRetry] is not a method of [JobRepository]:
           the call throws a [TypeError], answered with 500 *)
        | Ok (Some _) => (500%Z, s, None)
        end
      else create
  | None => create
  end.

(** [POST(request)] from the state [s] at time [now] ([nowIso] is its ISO
    form): the HTTP status, the state afterwards, and the background call
    it starts.  A job the route creates gets the id
    [oid_of_nat s.(st_next)]. *)
Definition POST (s : AppState) (req : HttpRequest) (now : Z) (nowIso : string)
  : Z * AppState * option Task :=
  let clientIP := getClientIP req.(headers) in
  let '(limitCheck, rl') := checkLimit s.(st_limiter) clientIP now in
  let s1 := mkApp s.(st_db) rl' s.(st_next) s.(st_cache) in
  if negb limitCheck.(allowed) then (429%Z, s1, None)
  else
  match req.(body) with
  | None => (500%Z, s1, None)
  | Some b =>
      let autoFix := truthy_opt b.(b_autoFixJobId) in
      let parent := truthy_opt b.(b_parentJobId) in
      if negb autoFix && (negb (truthy_opt b.(b_prompt)) || negb (truthy_opt b.(b_stylePreset)))
      then (400%Z, s1, None)
      else
        let '(cachedJob, c1) :=
          match negb autoFix && negb parent, b.(b_prompt), b.(b_stylePreset) with
          | true, Some prompt, Some stylePreset =>
              PromptCache.getCachedJob s.(st_cache) prompt stylePreset now
          | _, _, _ => (None, s.(st_cache))
          end in
        let s2 := mkApp s.(st_db) rl' s.(st_next) c1 in
        let rest :=
          if autoFix then
            match b.(b_autoFixJobId) with
            | Some autoFixJobId => autoFix_branch s2 autoFixJobId nowIso
            | None => (500%Z, s2, None) (* not reached: [autoFix] is false *)
            end
          else regular_branch s2 b nowIso in
        match cachedJob with
        | Some cj =>
            if PromptCache.is_done cj && js_truthy (js_get cj "output")
            then cacheHit_branch s2 cj nowIso
            else rest
        | None => rest
        end
  end.

(** The background call, run to completion on the state it finds. *)
Definition run_task (generate : string -> string -> Validator.GenResult)
  (render : string -> jsval -> Renderer.ManimRenderResult)
  (generateFixed : jsval -> jsval -> Validator.GenResult)
  (db : store) (c : PromptCache.cache) (t : Task) (nowIso : string) (nowMs : Z)
  : store * PromptCache.cache * bool :=
  match t with
  | RunProcessJob jobId prompt stylePreset parentJobId =>
      processJob generate render db c jobId prompt stylePreset parentJobId nowIso nowMs
  | RunProcessAutoFixJob jobId failedCode errorLogs originalPrompt originalStylePreset =>
      processAutoFixJob render generateFixed db c jobId failedCode errorLogs
        originalPrompt originalStylePreset nowIso nowMs
  end.

End Route.

(* ================================================================== *)
(** ** The rest of [promptCache.ts]: [isCached], [clearCache],
    [clearPrompt] and [getStats] *)
(* ================================================================== *)

Module PromptCacheOps.
Import PromptCache.

(** [isCached(prompt, stylePreset)] at time [now]: the answer and the
    cache afterwards (an expired entry is deleted). *)
Definition isCached (c : cache) (prompt stylePreset : string) (now : Z) : bool * cache :=
  let h := generateHash prompt stylePreset in
  match assoc_get c h with
  | None => (false, c)
  | Some cached =>
      if Z.ltb CACHE_DURATION_MS (now - cached.(cachedAt)) then (false, assoc_delete c h)
      else (true, c)
  end.

(** [clearCache()]: [this.cache.clear()]. *)
Definition clearCache (c : cache) : cache := [].

(** [clearPrompt(prompt, stylePreset)]: [this.cache.delete(hash)]. *)
Definition clearPrompt (c : cache) (prompt stylePreset : string) : cache :=
  assoc_delete c (generateHash prompt stylePreset).

Record StatsEntry := mkStatsEntry {
  se_prompt : string; se_stylePreset : string; se_cachedAt : Z; se_hitCount : Z
}.

Record CacheStats := mkStats {
  size : nat; totalHits : Z; cacheEntries : list StatsEntry
}.

(** [getStats()]: one pass over [this.cache.values()] in insertion order. *)
Definition getStats (c : cache) : CacheStats :=
  let '(totalHits, cacheEntries) :=
    fold_left (fun acc kv =>
                 let entry := kv.2 in
                 ((acc.1 + entry.(hitCount))%Z,
                  (acc.2 ++ [mkStatsEntry entry.(cp_prompt) entry.(cp_stylePreset)
                               entry.(cachedAt) entry.(hitCount)])%list))
              c (0%Z, []) in
  mkStats (length c) totalHits cacheEntries.

End PromptCacheOps.

(* ================================================================== *)
(** ** The OpenRouter chat-completion call, as [fetch] answers it *)
(* ================================================================== *)

Module OpenRouter.
Import Repo.

(** [await response.json()]: the parsed body, or the message of the
    [SyntaxError] it throws.  A JSON array is read as the object of its
    indices ("0", "1", ...), which is how [arr[0]] reads it. *)
Inductive JsonBody := JsonParsed (v : jsval) | JsonInvalid (message : string).

(** [await fetch(...)]: rejected with an error message, or a response. *)
Inductive FetchOutcome :=
| FetchRejected (message : string)
| FetchResponse (status : Z) (body : JsonBody).

(** [response.ok] *)
Definition response_ok (status : Z) : bool := (200 <=? status)%Z && (status <=? 299)%Z.

(** [v.k] on a value that may be [undefined] or [null]: the [TypeError]. *)
Definition js_read (v : jsval) (k : string) : outcome jsval :=
  match v with
  | JUndefined => Throw ("Cannot read properties of undefined (reading '" ++ k ++ "')")
  | JNull => Throw ("Cannot read properties of null (reading '" ++ k ++ "')")
  | _ => Ok (js_get v k)
  end.

(** [v?.k] *)
Definition js_opt (v : jsval) (k : string) : jsval :=
  match v with
  | JUndefined | JNull => JUndefined
  | _ => js_get v k
  end.

(** A chat-completion body whose first choice carries [content]. *)
Definition chat_reply (content : jsval) : jsval :=
  JObj [("choices", JObj [("0", JObj [("message", JObj [("content", content)])])])].

End OpenRouter.

(* ================================================================== *)
(** ** [ManimCodeGeneratorService.generateCode] and its helpers *)
(* ================================================================== *)

Module Generator.
Import Repo OpenRouter Validator.

(** [ManimCodeGeneratorService.callOpenRouter]: the content of the reply,
    or the message of the error it throws. *)
Definition callOpenRouter (r : FetchOutcome) : outcome jsval :=
  match r with
  | FetchRejected m => Throw m
  | FetchResponse status body =>
      if negb (response_ok status) then
        (* [let errorData = {}; try { errorData = await response.json(); } catch {}] *)
        let errorData := match body with JsonParsed v => v | JsonInvalid _ => JObj [] end in
        if Z.eqb status 429 then
          Throw "RATE_LIMIT: OpenRouter rate limit exceeded. Please try again later."
        else if Z.eqb status 401 then
          Throw "API_ERROR: Invalid OpenRouter API key. Please check configuration."
        else
          match js_read errorData "error" with
          | Throw m => Throw m
          | Ok e =>
              let errorMessage := js_opt e "message" in
              let errorMessage :=
                if js_truthy errorMessage then js_template errorMessage
                else "HTTP " ++ Z_to_string status in
              Throw ("API_ERROR: OpenRouter API error: " ++ errorMessage)
          end
      else
        match body with
        | JsonInvalid m => Throw m
        | JsonParsed data =>
            match js_read data "choices" with
            | Throw m => Throw m
            | Ok choices =>
                let c := js_opt (js_opt (js_opt choices "0") "message") "content" in
                let content := if js_truthy c then c else JStr "" in
                if negb (js_truthy content) then
                  Throw "API_ERROR: Empty response from OpenRouter API"
                else Ok content
            end
        end
  end.

(** [s.indexOf(sub)], [None] for [-1]. *)
Definition indexOf (s sub : string) : option nat := String.index 0 sub s.

(** [s.substring(i)] *)
Definition substring_from (s : string) (i : nat) : string :=
  String.substring i (String.length s - i) s.

(** [ManimCodeGeneratorService.extractExplanationAndCode]: the explanation
    and the code. *)
Definition extractExplanationAndCode (rawResponse : string) : string * string :=
  let trimmed := PromptCache.trim rawResponse in
  match indexOf trimmed "from manim import *" with
  | None => ("", trimmed)
  | Some codeStartIndex =>
      (PromptCache.trim (String.substring 0 codeStartIndex trimmed),
       PromptCache.trim (substring_from trimmed codeStartIndex))
  end.

(** [s.replace(pattern, replacement)] with a string pattern: the first
    occurrence only. *)
Definition replace_first (s pattern replacement : string) : string :=
  match indexOf s pattern with
  | None => s
  | Some i => String.substring 0 i s ++ replacement ++ substring_from s (i + String.length pattern)
  end.

(** [ManimCodeGenerationResult]: the validator's result and the
    explanation attached to a success. *)
Record GenerationResult := mkGeneration { gen_result : GenResult; gen_explanation : option string }.

(** The [catch] block of [generateCode]. *)
Definition classify_error (errorMessage : string) : GenerationResult :=
  if String.prefix "RATE_LIMIT:" errorMessage then
    mkGeneration (GenErr (mkGenError "rate_limit" "Rate limit exceeded"
                            (replace_first errorMessage "RATE_LIMIT: " ""))) None
  else if String.prefix "API_ERROR:" errorMessage then
    mkGeneration (GenErr (mkGenError "api_error" "OpenRouter API error"
                            (replace_first errorMessage "API_ERROR: " ""))) None
  else
    mkGeneration (GenErr (mkGenError "network" "Network error while generating code"
                            errorMessage)) None.

(** [generateCode(request)] for the reply [r] of the API: the prompt only
    shapes the request, so the result depends on the reply alone. *)
Definition generateCode (r : FetchOutcome) : GenerationResult :=
  match callOpenRouter r with
  | Throw m => classify_error m
  | Ok (JStr rawResponse) =>
      let '(explanation, code) := extractExplanationAndCode rawResponse in
      let result := validateAndCleanCode code in
      match result with
      | GenOk _ =>
          if String.eqb explanation "" then mkGeneration result None
          else mkGeneration result (Some explanation)
      | GenErr _ => mkGeneration result None
      end
  | Ok _ =>
      (* [rawResponse.trim()] on a truthy non-string *)
      classify_error "rawResponse.trim is not a function"
  end.

End Generator.

(* ================================================================== *)
(** ** [AutoFixGeneratorService.generateFixedCode] and its helpers *)
(* ================================================================== *)

Module AutoFix.
Import Repo OpenRouter Regex Validator Generator.

(** [s.indexOf(sub)] as a number. *)
Definition indexOfZ (s sub : string) : Z :=
  match indexOf s sub with Some i => Z.of_nat i | None => (-1)%Z end.

Definition fenceRegex := rx "```(?:python)?\n?([\s\S]*?)\n?```" "".

(** [AutoFixGeneratorService.extractExplanationAndCode]; group 1 always
    takes part in a match of [fenceRegex]. *)
Definition extractExplanationAndCode (rawResponse : string) : string * string :=
  let trimmed := PromptCache.trim rawResponse in
  let codeStartIndex := Z.min (indexOfZ trimmed "from manim import *") (indexOfZ trimmed "class ") in
  match exec_from fenceRegex trimmed 0 with
  | Some markdownMatch =>
      let code := match group trimmed markdownMatch 1 with
                  | Some g => PromptCache.trim g
                  | None => ""
                  end in
      let beforeCode :=
        PromptCache.trim (String.substring 0 (Z.to_nat (indexOfZ trimmed "```")) trimmed) in
      (beforeCode, code)
  | None =>
      if Z.eqb codeStartIndex (-1) || Z.eqb codeStartIndex 2147483647 then ("", trimmed)
      else
        (PromptCache.trim (String.substring 0 (Z.to_nat codeStartIndex) trimmed),
         PromptCache.trim (substring_from trimmed (Z.to_nat codeStartIndex)))
  end.

Definition forbiddenPatterns : list RegExp :=
  [rx "\.camera\.frame" ""; rx "\.camera\.animate" ""; rx "camera\.add" "";
   rx "self\.camera\s*=" ""].

(** [AutoFixGeneratorService.validateCode] *)
Definition validateCode (code : string) : Validation :=
  if negb (test (rx "^\s*class\s+\w+\s*\(\s*Scene\s*\)" "m") code) then
    Invalid "Code must contain a Scene class definition"
  else if negb (test (rx "def\s+construct\s*\(\s*self\s*\)" "m") code) then
    Invalid "Scene class must have a construct method"
  else if existsb (fun p => test p code) forbiddenPatterns then
    Invalid "Code contains forbidden camera manipulation"
  else Valid.

(** [AutoFixResult]; the details of an API error are whatever
    [errorData.error?.message] holds. *)
Inductive AutoFixResult :=
| FixOk (code explanation : string)
| FixErr (type message : string) (details : jsval).

(** The [catch] block of [generateFixedCode]; every error thrown here is
    an [Error]. *)
Definition fix_catch (message : string) : AutoFixResult :=
  if includes message "fetch" then
    FixErr "network" "Network error. Please check your connection and try again." (JStr message)
  else FixErr "unknown" "An unexpected error occurred. Please try again." (JStr message).

(** [data.choices[0].message.content.trim()] *)
Definition read_content (data : jsval) : outcome string :=
  match js_read data "choices" with
  | Throw m => Throw m
  | Ok choices =>
      match js_read choices "0" with
      | Throw m => Throw m
      | Ok choice =>
          match js_read choice "message" with
          | Throw m => Throw m
          | Ok message =>
              match js_read message "content" with
              | Throw m => Throw m
              | Ok (JStr s) => Ok (PromptCache.trim s)
              | Ok JUndefined => Throw "Cannot read properties of undefined (reading 'trim')"
              | Ok JNull => Throw "Cannot read properties of null (reading 'trim')"
              | Ok _ => Throw "data.choices[0].message.content.trim is not a function"
              end
          end
      end
  end.

(** [generateFixedCode(request)] for the reply [r] of the API. *)
Definition generateFixedCode (r : FetchOutcome) : AutoFixResult :=
  match r with
  | FetchRejected m => fix_catch m
  | FetchResponse status body =>
      if negb (response_ok status) then
        match body with
        | JsonInvalid m => fix_catch m
        | JsonParsed errorData =>
            if Z.eqb status 429 then
              FixErr "rate_limit" "Rate limit exceeded. Please try again in a few moments."
                (JStr "OpenRouter API rate limit reached")
            else
              match js_read errorData "error" with
              | Throw m => fix_catch m
              | Ok e =>
                  let d := js_opt e "message" in
                  FixErr "api_error" "Service configuration error. Please try again."
                    (if js_truthy d then d else JStr "Unknown API error")
              end
        end
      else
        match body with
        | JsonInvalid m => fix_catch m
        | JsonParsed data =>
            match read_content data with
            | Throw m => fix_catch m
            | Ok rawResponse =>
                let '(explanation, code) := extractExplanationAndCode rawResponse in
                match validateCode code with
                | Invalid reason =>
                    FixErr "validation" reason (JStr "Generated code failed validation")
                | Valid => FixOk code explanation
                end
            end
        end
  end.

End AutoFix.

(* ================================================================== *)
(** ** Observations on states that the properties are stated with *)
(* ================================================================== *)

Module Observations.
Import Repo RateLimit Route.

(** The record [checkLimit] works on for [key] at time [now]. *)
Definition rec_of (m : gmap string RequestRecord) (key : string) (now : Z) : RequestRecord :=
  match m !! key with
  | Some r => if Z.leb r.(resetTime) now then mkRecord 0 (now + windowMs) else r
  | None => mkRecord 0 (now + windowMs)
  end.

(** What the pipelines leave behind for a stored job. *)
Definition failed_at_start (db db' : store) (jobId : string) (ps : list (string * jsval))
  (message : string) (now : string) : Prop :=
  exists ps',
    db' = <[objectId_hex jobId := JObj ps']> db
    /\ js_get (JObj ps') "status" = JStr "failed"
    /\ js_get (JObj ps') "error"
       = JObj [("message", JStr message);
               ("logs", JStr ("Invalid status transition from "
                              ++ js_template (js_get (JObj ps) "status")
                              ++ " to generating_code"));
               ("stage", JStr "code_generation");
               ("timestamp", JStr now)].

(** The job a dispatched task works on: stored under a valid id, queued. *)
Definition queued_for (s' : AppState) (t : Task) : Prop :=
  objectId_isValid (task_jobId t) = true
  /\ exists ps, s'.(st_db) !! objectId_hex (task_jobId t) = Some (JObj ps)
                /\ js_get (JObj ps) "status" = JStr "queued".

(** [p] is the directory [d] or lies under it. *)
Definition under (d p : string) : Prop := p = d \/ String.prefix (d ++ "/") p = true.

End Observations.

(* ================================================================== *)
(** ** Scenarios used by the properties *)
(* ================================================================== *)

Module RepoFixtures.
Import Repo.

Definition oid1 : string := "65a1f0c2e4b0a1b2c3d4e5f6".

(** A job document as the submission route stores it. *)
Definition stored_job (status : string) : jsval :=
  JObj [("status", JStr status); ("prompt", JStr "Show a circle");
        ("stylePreset", JStr "Classic");
        ("createdAt", JStr "2026-01-01T00:00:00.000Z");
        ("updatedAt", JStr "2026-01-01T00:00:00.000Z");
        ("queuedAt", JStr "2026-01-01T00:00:00.000Z");
        ("attemptNumber", JNum 1); ("maxAttempts", JNum 3);
        ("autoFixAttemptCount", JNum 2); ("progress", JNum 0)].

Definition db_with (status : string) : store := {[ oid1 := stored_job status ]}.

Definition now1 : string := "2026-01-01T00:05:00.000Z".

Definition stored_status (db : store) : option jsval :=
  option_map (fun d => js_get d "status") (db !! oid1).

Definition core_job_fields : list string :=
  ["id"; "status"; "prompt"; "stylePreset"; "createdAt"; "updatedAt";
   "output"; "error"; "progress"; "progressMessage"].

Definition dropped_job_fields : list string :=
  ["queuedAt"; "codeGenerationStartedAt"; "renderingStartedAt";
   "attemptNumber"; "maxAttempts"; "parentJobId"; "autoFixAttemptCount";
   "isAutoFixJob"; "originalFailedJobId"; "lastFailedCode"; "lastErrorLogs";
   "isCacheHit"; "cachedFromJobId"].

End RepoFixtures.

Module RateLimitFixtures.
Import RateLimit.

(** The store as [checkLimit] sees it after its periodic cleanup. *)
Definition after_cleanup (rl : RateLimiter) (now : Z) : RateLimiter :=
  if Z.ltb CLEANUP_INTERVAL_MS (now - rl.(lastCleanup)) then cleanup now rl else rl.

Fixpoint countdown (c R : Z) (n : nat) : list CheckResult :=
  match n with
  | O => []
  | S n' => mkCheck true (Z.max 0 (maxRequests - (c + 1))) R None :: countdown (c + 1) R n'
  end.

End RateLimitFixtures.

Module SubmitFixtures.
Import Repo RateLimit Submit.

(** An original failed job with its error and code, as stored. *)
Definition failed_original : jsval :=
  JObj [("status", JStr "failed"); ("prompt", JStr "Show a circle");
        ("stylePreset", JStr "Classic");
        ("attemptNumber", JNum 1); ("maxAttempts", JNum 3);
        ("autoFixAttemptCount", JNum 0);
        ("output", JObj [("code", JStr "from manim import *")]);
        ("error", JObj [("message", JStr "Manim encountered an error");
                        ("logs", JStr "NameError")])].

Definition server0 : Server :=
  mkServer {[ "65a1f0c2e4b0a1b2c3d4e5f6" := failed_original ]} (mkLimiter ∅ 0) 1.

End SubmitFixtures.

Module PromptCacheFixtures.
Import PromptCache.

Definition done_job (i : Z) : jsval :=
  JObj [("id", JStr (Z_to_string i)); ("status", JStr "done");
        ("output", JObj [("videoUrl", JStr "/videos/v.mp4"); ("code", JStr "x")])].

(** 1001 successful jobs for distinct prompts, cached within one
    millisecond. *)
Definition fill (n : nat) (t : Z) : cache :=
  fold_left (fun c i => setCachedJob c ("Animation " ++ Z_to_string (Z.of_nat i)) "Classic"
                          (done_job (Z.of_nat i)) t t) (seq 0 n) [].

End PromptCacheFixtures.

Module RenderFixtures.
Import Renderer.

Definition demo_config : ManimRenderConfig := mkConfig "manim-renderer:latest" 60000 "/tmp/mathmotion".
Definition demo_job : string := "65a1f0c2e4b0a1b2c3d4e5f6".

(** Every call succeeds and Docker exits with code 0, writing [outputs]. *)
Definition calm_world (outputs : list string) : World :=
  mkWorld "/app" None None (DockerClose (Some 0%Z) "Rendered" "") outputs None None.

Definition demo_scene_code : string :=
  "from manim import *
class Demo(Scene):
    def construct(self):
        self.play(Create(Circle()))".

Definition demo_success_run :=
  renderCode demo_config
    (calm_world ["media"; "media/videos"; "media/videos/480p15"; "media/videos/480p15/Demo.mp4"])
    ∅ (mkRequest demo_job demo_scene_code).

End RenderFixtures.

Module ValidatorFixtures.
Import Regex Validator.

(** No pattern of [ps] matches [code]. *)
Definition none_match (ps : list (RegExp * string)) (code : string) : bool :=
  forallb (fun p => negb (test p.1 code)) ps.

Definition code_import_missing : string :=
  "class Demo(Scene):
    def construct(self):
        self.play(Create(Circle()))".

Definition code_two_scenes : string :=
  "from manim import *
class First(Scene):
    def construct(self):
        self.play(Create(Circle()))
class Second(Scene):
    def construct(self):
        self.play(Create(Square()))".

Definition code_import_os : string :=
  "from manim import *
import os
class Demo(Scene):
    def construct(self):
        os.system('ls')".

Definition code_os_system : string :=
  "from manim import *
class Demo(Scene):
    def construct(self):
        os.system('ls')".

Definition code_run_time_6 : string :=
  "from manim import *
class Demo(Scene):
    def construct(self):
        self.play(Create(Circle()), run_time=6)".

Definition code_camera_none : string :=
  "from manim import *
class Demo(Scene):
    def construct(self):
        self.camera = None".

Definition os_system_details : string :=
  "Potentially unsafe pattern detected: Direct module method calls on restricted modules. Please revise your prompt.".

Definition camera_suffix : string := ". Do not use camera manipulation in your prompt.".

End ValidatorFixtures.

Module RouteFixtures.
Import Repo RateLimit Submit RepoFixtures Pipeline Route.

(** Headers of a request that came through a proxy chain. *)
Definition proxied_headers (h : string) : option string :=
  if String.eqb h "x-forwarded-for" then Some " 203.0.113.7, 10.0.0.1"
  else if String.eqb h "x-real-ip" then Some "10.0.0.1"
  else None.

(** A limiter that has already counted 3 requests of [10.0.0.1]. *)
Definition limiter3 : RateLimiter :=
  mkLimiter {[ limit_key "10.0.0.1" := mkRecord 3 400000 ]} 0.

Definition app0 : AppState := mkApp (db_with "failed") limiter3 1 [].

Definition regular_body : Body := mkBody (Some "Show a circle") (Some "Classic") None None.
Definition no_prompt_body : Body := mkBody None (Some "Classic") None None.
Definition retry_body : Body := mkBody (Some "Show a circle") (Some "Classic") (Some oid1) None.

Definition request (b : Body) : HttpRequest := mkHttpRequest proxied_headers (Some b).

(** A cache holding a finished job for the regular body's prompt. *)
Definition done_circle : jsval :=
  JObj [("id", JStr oid1); ("status", JStr "done"); ("prompt", JStr "Show a circle");
        ("stylePreset", JStr "Classic");
        ("output", JObj [("code", JStr "from manim import *");
                         ("videoUrl", JStr "/videos/circle.mp4")])].

Definition cache1 : PromptCache.cache :=
  PromptCache.setCachedJob [] "Show a circle" "Classic" done_circle 0 0.

(** The properties of [stored_job "queued"]. *)
Definition queued_props : list (string * jsval) :=
  match stored_job "queued" with JObj ps => ps | _ => [] end.

(** Services that would succeed. *)
Definition gen_ok (_ _ : string) : Validator.GenResult := Validator.GenOk "from manim import *".
Definition render_ok (jobId : string) (_ : jsval) : Renderer.ManimRenderResult :=
  Renderer.mkRenderResult true (Some ("/videos/" ++ jobId ++ ".mp4")) None None.
Definition fix_ok (_ _ : jsval) : Validator.GenResult := Validator.GenOk "from manim import *".

End RouteFixtures.

Module RenderOpsFixtures.
Import Renderer RenderFixtures.

(** Docker exits with code 1, the scene raised a Python error. *)
Definition failing_world : World :=
  mkWorld "/app" None None (DockerClose (Some 1%Z) "" "NameError: name 'Circl' is not defined")
    [] None None.

Definition demo_outputs : list string :=
  ["media"; "media/videos"; "media/videos/480p15"; "media/videos/480p15/Demo.mp4"].

End RenderOpsFixtures.

Module GeneratorFixtures.
Import Repo OpenRouter Renderer.

(** An error body of the kind OpenRouter sends with a 5xx status. *)
Definition upstream_error : jsval :=
  JObj [("error", JObj [("message", JStr "Upstream down")])].

(** The text of the [SyntaxError] of [response.json()] on an HTML page. *)
Definition html_parse_error : string := "Unexpected token < in JSON at position 0".

(** A fix that comes back as prose followed by code, with no import line. *)
Definition prose_reply : string :=
  "I renamed the variable." ++ nl ++ "class Demo(Scene):" ++ nl
  ++ "    def construct(self):" ++ nl ++ "        self.play(Create(Circle()))".

End GeneratorFixtures.

(* ================================================================== *)
(** * Properties *)
(* ================================================================== *)

Module RepoFacts.
Import Repo RepoFixtures.

Lemma isValidTransition_generating_code_source (t : string) :
  isValidTransition (JStr "generating_code") t = false.
Proof. reflexivity. Qed.

Lemma isValidTransition_to_generating_code (s : jsval) :
  isValidTransition s "generating_code" = false.
Proof.
  destruct s as [| | | | |s|]; try reflexivity.
  unfold isValidTransition.
  destruct (assoc_get validTransitions s) as [targets|] eqn:E; [|reflexivity].
  unfold validTransitions in E; simpl in E.
  repeat match type of E with
  | context [String.eqb s ?k] => destruct (String.eqb s k)
  end; inversion E; subst; reflexivity.
Qed.

(** A rejected request leaves the collection as it was. *)
Lemma updateJobStatus_invalid_unchanged (db : store) (jobId status : string)
  (p : option Z) (m : option string) (now : string) (j : jsval) :
  findJobById db jobId = Ok (Some j) ->
  isValidTransition (js_get j "status") status = false ->
  updateJobStatus db jobId status p m now
  = (Throw ("Invalid status transition from " ++ js_template (js_get j "status")
            ++ " to " ++ status), db).
Proof.
  intros Hf Hv. unfold updateJobStatus.
  destruct (objectId_isValid jobId) eqn:Hid.
  - simpl. rewrite Hf, Hv. reflexivity.
  - unfold findJobById in Hf. rewrite Hid in Hf. discriminate.
Qed.

(** C1 (code_bug): the transition table is keyed by ["generating"], so
    the status the submission pipeline writes, ["generating_code"], can
    neither be entered from ["queued"] nor left for ["rendering"]: both
    requests throw and leave the stored job as it was. *)
Theorem updateJobStatus_rejects_generating_code :
  updateJobStatus (db_with "queued") oid1 "generating_code" (Some 25%Z)
    (Some "Analyzing prompt and generating Manim code...") now1
  = (Throw "Invalid status transition from queued to generating_code",
     db_with "queued")
  /\ updateJobStatus (db_with "generating_code") oid1 "rendering" (Some 50%Z)
       (Some "Rendering 3D scene in sandbox...") now1
  = (Throw "Invalid status transition from generating_code to rendering",
     db_with "generating_code").
Proof. split; vm_compute; reflexivity. Qed.

(** C2 (code_bug): [failJob] has no error-type parameter; the type the
    job-status route passes on a timeout is dropped and the stored error
    object has no [type] property. *)
Theorem failJob_drops_error_type :
  match failJob_call (db_with "rendering") oid1
          (Some "Rendering took too long and was cancelled. Try simplifying your animation or reducing the duration.")
          (Some "Timeout detected") (Some "rendering") (Some "timeout") now1 with
  | (Ok (Some j), db') =>
      js_get j "status" = JStr "failed"
      /\ js_keys (js_get j "error") = ["message"; "logs"; "stage"; "timestamp"]
      /\ js_get (js_get j "error") "type" = JUndefined
      /\ option_map (fun d => js_get (js_get d "error") "type") (db' !! oid1)
         = Some JUndefined
  | _ => False
  end.
Proof. vm_compute. repeat split. Qed.

(** C4 (code_bug): [completeJobWithVideo] and [failJob] do not look at the
    stored status: a failed job is turned into a done one, and a done job
    into a failed one. *)
Theorem terminal_job_overwritten :
  stored_status (completeJobWithVideo (db_with "failed") oid1 "/videos/x.mp4" now1).2
  = Some (JStr "done")
  /\ stored_status (failJob (db_with "done") oid1 None None None now1).2
  = Some (JStr "failed").
Proof. vm_compute. repeat split. Qed.

(** C10: the job [findJobById] returns has exactly the ten properties of
    [documentToJob]; the phase timestamps and the retry and auto-fix
    bookkeeping read as [undefined], whatever the document holds. *)
Theorem findJobById_only_core_fields (db : store) (jobId : string) (j : jsval) :
  findJobById db jobId = Ok (Some j) ->
  js_keys j = core_job_fields
  /\ Forall (fun f => js_get j f = JUndefined) dropped_job_fields.
Proof.
  unfold findJobById.
  destruct (objectId_isValid jobId); simpl; [|discriminate].
  destruct (db !! objectId_hex jobId) as [doc|]; [|discriminate].
  intros H. inversion H; subst; clear H.
  split; [reflexivity|].
  repeat constructor.
Qed.

Lemma findJobById_only_core_fields_witness :
  findJobById (db_with "failed") oid1 = Ok (Some (documentToJob oid1 (stored_job "failed")))
  /\ js_keys (documentToJob oid1 (stored_job "failed")) = core_job_fields
  /\ Forall (fun f => js_get (documentToJob oid1 (stored_job "failed")) f = JUndefined)
       dropped_job_fields.
Proof.
  assert (H : findJobById (db_with "failed") oid1
              = Ok (Some (documentToJob oid1 (stored_job "failed"))))
    by (vm_compute; reflexivity).
  split; [exact H|].
  exact (findJobById_only_core_fields _ _ _ H).
Defined.

End RepoFacts.

Module RateLimitFacts.
Import RateLimit RateLimitFixtures.

Lemma after_cleanup_live (rl : RateLimiter) (k : string) (now : Z) (r : RequestRecord) :
  rl.(rl_store) !! k = Some r -> (now < r.(resetTime))%Z ->
  (after_cleanup rl now).(rl_store) !! k = Some r.
Proof.
  intros H Hlt. unfold after_cleanup.
  destruct (Z.ltb _ _); [|exact H].
  simpl. apply map_lookup_filter_Some_2; [exact H|exact Hlt].
Qed.

Lemma after_cleanup_sub (rl : RateLimiter) (k : string) (now : Z) (r : RequestRecord) :
  (after_cleanup rl now).(rl_store) !! k = Some r -> rl.(rl_store) !! k = Some r.
Proof.
  unfold after_cleanup. destruct (Z.ltb _ _); [|tauto].
  simpl. apply map_lookup_filter_Some_1_1.
Qed.

(** No live record: a fresh window is opened and the call is the first of it. *)
Lemma checkLimit_fresh (rl : RateLimiter) (ip : string) (t : Z) :
  (forall r, rl.(rl_store) !! limit_key ip = Some r -> (r.(resetTime) <= t)%Z) ->
  (checkLimit rl ip t).1 = mkCheck true 9 (t + windowMs) None
  /\ (checkLimit rl ip t).2.(rl_store) !! limit_key ip
     = Some (mkRecord 1 (t + windowMs)).
Proof.
  intros Hexp. unfold checkLimit.
  fold (after_cleanup rl t).
  assert (Hrec : match (after_cleanup rl t).(rl_store) !! limit_key ip with
                 | Some r => if Z.leb r.(resetTime) t then mkRecord 0 (t + windowMs) else r
                 | None => mkRecord 0 (t + windowMs)
                 end = mkRecord 0 (t + windowMs)).
  { destruct ((after_cleanup rl t).(rl_store) !! limit_key ip) as [r|] eqn:E; [|reflexivity].
    apply after_cleanup_sub in E. apply Hexp in E.
    apply Z.leb_le in E. rewrite E. reflexivity. }
  rewrite Hrec. simpl. split; [reflexivity|].
  rewrite lookup_insert_eq. reflexivity.
Qed.

(** A live record below the limit: the count goes up by one. *)
Lemma checkLimit_live (rl : RateLimiter) (ip : string) (t c R : Z) :
  rl.(rl_store) !! limit_key ip = Some (mkRecord c R) ->
  (t < R)%Z -> (c < maxRequests)%Z ->
  (checkLimit rl ip t).1 = mkCheck true (Z.max 0 (maxRequests - (c + 1))) R None
  /\ (checkLimit rl ip t).2.(rl_store) !! limit_key ip = Some (mkRecord (c + 1) R).
Proof.
  intros Hk Ht Hc. unfold checkLimit.
  fold (after_cleanup rl t).
  rewrite (after_cleanup_live rl _ t _ Hk Ht). simpl.
  assert (E1 : Z.leb R t = false) by (apply Z.leb_gt; lia).
  assert (E2 : Z.leb maxRequests c = false) by (apply Z.leb_gt; lia).
  rewrite E1. simpl. rewrite E2. simpl. split; [reflexivity|].
  rewrite lookup_insert_eq. reflexivity.
Qed.

(** A live record at the limit: refused, with the seconds to the reset. *)
Lemma checkLimit_full (rl : RateLimiter) (ip : string) (t c R : Z) :
  rl.(rl_store) !! limit_key ip = Some (mkRecord c R) ->
  (t < R)%Z -> (maxRequests <= c)%Z ->
  (checkLimit rl ip t).1 = mkCheck false 0 R (Some (ceil_div1000 (R - t)))
  /\ (checkLimit rl ip t).2.(rl_store) !! limit_key ip = Some (mkRecord c R).
Proof.
  intros Hk Ht Hc. unfold checkLimit.
  fold (after_cleanup rl t).
  rewrite (after_cleanup_live rl _ t _ Hk Ht). simpl.
  assert (E1 : Z.leb R t = false) by (apply Z.leb_gt; lia).
  assert (E2 : Z.leb maxRequests c = true) by (apply Z.leb_le; lia).
  rewrite E1. simpl. rewrite E2. simpl. split; [reflexivity|].
  rewrite lookup_insert_eq. reflexivity.
Qed.

Lemma run_calls_live (ip : string) (R : Z) (ts : list Z) :
  forall (rl : RateLimiter) (c : Z),
  rl.(rl_store) !! limit_key ip = Some (mkRecord c R) ->
  Forall (fun t => (t < R)%Z) ts ->
  (c + Z.of_nat (length ts) <= maxRequests)%Z ->
  (run_calls rl ip ts).1 = countdown c R (length ts)
  /\ (run_calls rl ip ts).2.(rl_store) !! limit_key ip
     = Some (mkRecord (c + Z.of_nat (length ts)) R).
Proof.
  induction ts as [|t ts IH]; intros rl c Hk Hts Hc.
  - simpl. rewrite Z.add_0_r. split; [reflexivity|exact Hk].
  - inversion Hts as [|? ? Ht Hts']; subst.
    simpl length in Hc. rewrite Nat2Z.inj_succ in Hc.
    destruct (checkLimit_live rl ip t c R Hk Ht ltac:(lia)) as [H1 H2].
    simpl. destruct (checkLimit rl ip t) as [r rl'] eqn:E. simpl in H1, H2.
    destruct (IH rl' (c + 1)%Z H2 Hts' ltac:(lia)) as [H3 H4].
    destruct (run_calls rl' ip ts) as [rs rl''] eqn:E'. simpl in H3, H4 |- *.
    subst r rs. split; [reflexivity|].
    rewrite H4. do 2 f_equal. lia.
Qed.

Lemma ceil_div1000_pos (d : Z) : (0 < d)%Z -> (0 < ceil_div1000 d)%Z.
Proof.
  intros Hd. unfold ceil_div1000.
  assert (((- d) / 1000 < 0)%Z) by (apply Z.div_lt_upper_bound; lia).
  lia.
Qed.

(** C7: within one window the first ten calls from an address are allowed
    with remaining quota 9, 8, ..., 0; the eleventh is refused with
    remaining 0 and a positive [retryAfter], the seconds to the window's
    reset rounded up; the first call after the window has elapsed is
    allowed with remaining 9. *)
Theorem checkLimit_fixed_window (rl : RateLimiter) (ip : string)
  (t0 t11 t12 : Z) (ts : list Z) :
  (forall r, rl.(rl_store) !! limit_key ip = Some r -> (r.(resetTime) <= t0)%Z) ->
  length ts = 9%nat ->
  Forall (fun t => (t < t0 + windowMs)%Z) ts ->
  (t11 < t0 + windowMs)%Z ->
  (t0 + windowMs <= t12)%Z ->
  let '(rs, rl10) := run_calls rl ip (t0 :: ts) in
  let '(r11, rl11) := checkLimit rl10 ip t11 in
  let '(r12, _) := checkLimit rl11 ip t12 in
  Forall (fun r => allowed r = true) rs
  /\ map remaining rs = [9; 8; 7; 6; 5; 4; 3; 2; 1; 0]%Z
  /\ allowed r11 = false /\ remaining r11 = 0%Z
  /\ retryAfter r11 = Some (ceil_div1000 (t0 + windowMs - t11))
  /\ (0 < ceil_div1000 (t0 + windowMs - t11))%Z
  /\ allowed r12 = true /\ remaining r12 = 9%Z.
Proof.
  intros Hfresh Hlen Hts H11 H12.
  destruct (checkLimit_fresh rl ip t0 Hfresh) as [Hr1 Hs1].
  simpl run_calls.
  destruct (checkLimit rl ip t0) as [r1 rl1] eqn:E1. simpl in Hr1, Hs1.
  destruct (run_calls_live ip (t0 + windowMs) ts rl1 1 Hs1 Hts
              ltac:(rewrite Hlen; reflexivity)) as [Hrs Hsl].
  destruct (run_calls rl1 ip ts) as [rs rl10] eqn:E2. simpl in Hrs, Hsl.
  rewrite Hlen in Hrs, Hsl. simpl in Hsl.
  destruct (checkLimit_full rl10 ip t11 10 (t0 + windowMs) Hsl H11
              ltac:(unfold maxRequests; lia)) as [Hr11 Hs11].
  destruct (checkLimit rl10 ip t11) as [r11 rl11] eqn:E3. simpl in Hr11, Hs11.
  destruct (checkLimit_fresh rl11 ip t12) as [Hr12 _].
  { intros r Hr. rewrite Hs11 in Hr. inversion Hr; subst. simpl. exact H12. }
  destruct (checkLimit rl11 ip t12) as [r12 rl12] eqn:E4. simpl in Hr12.
  subst r1 rs r11 r12.
  split; [repeat constructor|].
  split; [reflexivity|].
  repeat split; try reflexivity.
  apply ceil_div1000_pos. lia.
Qed.

Lemma checkLimit_fixed_window_witness :
  (forall r, (mkLimiter ∅ 0).(rl_store) !! limit_key "203.0.113.7" = Some r ->
             (r.(resetTime) <= 1000)%Z)
  /\ length [1001; 1002; 1003; 1004; 1005; 1006; 1007; 1008; 1009]%Z = 9%nat
  /\ Forall (fun t => (t < 1000 + windowMs)%Z) [1001; 1002; 1003; 1004; 1005; 1006; 1007; 1008; 1009]%Z
  /\ (1010 < 1000 + windowMs)%Z
  /\ (1000 + windowMs <= 1000 + windowMs)%Z
  /\ (let '(rs, rl10) := run_calls (mkLimiter ∅ 0) "203.0.113.7"
                           (1000 :: [1001; 1002; 1003; 1004; 1005; 1006; 1007; 1008; 1009])%Z in
      let '(r11, rl11) := checkLimit rl10 "203.0.113.7" 1010 in
      let '(r12, _) := checkLimit rl11 "203.0.113.7" (1000 + windowMs) in
      Forall (fun r => allowed r = true) rs
      /\ map remaining rs = [9; 8; 7; 6; 5; 4; 3; 2; 1; 0]%Z
      /\ allowed r11 = false /\ remaining r11 = 0%Z
      /\ retryAfter r11 = Some (ceil_div1000 (1000 + windowMs - 1010))
      /\ (0 < ceil_div1000 (1000 + windowMs - 1010))%Z
      /\ allowed r12 = true /\ remaining r12 = 9%Z).
Proof.
  assert (H1 : forall r, (mkLimiter ∅ 0).(rl_store) !! limit_key "203.0.113.7" = Some r ->
             (r.(resetTime) <= 1000)%Z)
    by (intros r Hr; cbn [rl_store] in Hr; rewrite lookup_empty in Hr; discriminate).
  assert (H3 : Forall (fun t => (t < 1000 + windowMs)%Z)
                 [1001; 1002; 1003; 1004; 1005; 1006; 1007; 1008; 1009]%Z)
    by (repeat constructor; unfold windowMs; lia).
  assert (H4 : (1010 < 1000 + windowMs)%Z) by (unfold windowMs; lia).
  assert (H5 : (1000 + windowMs <= 1000 + windowMs)%Z) by lia.
  split; [exact H1|]. split; [reflexivity|]. split; [exact H3|].
  split; [exact H4|]. split; [exact H5|].
  exact (checkLimit_fixed_window _ _ 1000 1010 (1000 + windowMs)
           [1001; 1002; 1003; 1004; 1005; 1006; 1007; 1008; 1009]%Z H1 eq_refl H3 H4 H5).
Defined.

End RateLimitFacts.

Module SubmitFacts.
Import Repo RateLimit Submit SubmitFixtures.

Lemma createJob_keeps (d : store) (newId : string) (data : list (string * jsval))
  (k : string) (v : jsval) :
  d !! k = Some v -> (createJob d newId data).2 !! k = Some v.
Proof.
  intros Hk. unfold createJob.
  destruct (d !! newId) eqn:E; simpl; [exact Hk|].
  rewrite lookup_insert_ne; [exact Hk|].
  intros ->. congruence.
Qed.

Lemma findJobById_some_lookup (d : store) (jobId : string) (j : jsval) :
  findJobById d jobId = Ok (Some j) ->
  exists doc, d !! objectId_hex jobId = Some doc.
Proof.
  unfold findJobById. destruct (objectId_isValid jobId); simpl; [|discriminate].
  destruct (d !! objectId_hex jobId) as [doc|]; [|discriminate].
  intros _. exists doc. reflexivity.
Qed.

Lemma findJobById_ext (d1 d2 : store) (jobId : string) :
  d1 !! objectId_hex jobId = d2 !! objectId_hex jobId ->
  findJobById d1 jobId = findJobById d2 jobId.
Proof. intros H. unfold findJobById. rewrite H. reflexivity. Qed.

(** An auto-fix submission never rewrites the document it references. *)
Lemma POST_autoFix_keeps_reference (s : Server) (ip : string) (now : Z)
  (nowIso afId : string) :
  (POST_autoFix s ip now nowIso afId).2.(db) !! objectId_hex afId
  = s.(db) !! objectId_hex afId.
Proof.
  unfold POST_autoFix.
  destruct (checkLimit (limiter s) ip now) as [lc rl'].
  destruct (negb (allowed lc)); [reflexivity|].
  destruct (String.eqb afId ""); [reflexivity|].
  simpl. destruct (findJobById (db s) afId) as [[orig|]|m] eqn:F; try reflexivity.
  destruct (findJobById_some_lookup _ _ _ F) as [doc Hdoc].
  destruct (js_ge _ 2); [reflexivity|].
  destruct (_ || _); [reflexivity|].
  pose proof (createJob_keeps (db s) (oid_of_nat (nextOid s))
    (map (fun kv => (kv.1, to_bson kv.2)) (autoFixJobData orig afId nowIso))
    _ _ Hdoc) as Hk.
  destruct (createJob _ _ _) as [[j|m] db'] eqn:C; simpl in Hk |- *;
    rewrite Hk, Hdoc; reflexivity.
Qed.

(** When the rate limiter lets it through, the response of an auto-fix
    submission is the one the branch's checks give on the referenced
    job, or the insert's outcome when they all pass. *)
Lemma POST_autoFix_status (s : Server) (ip : string) (now : Z)
  (nowIso afId : string) :
  afId <> "" ->
  (checkLimit s.(limiter) ip now).1.(allowed) = true ->
  match autoFix_gate (findJobById s.(db) afId) with
  | Some c => (POST_autoFix s ip now nowIso afId).1 = c
  | None => (POST_autoFix s ip now nowIso afId).1 = 201%Z
            \/ (POST_autoFix s ip now nowIso afId).1 = 500%Z
  end.
Proof.
  intros Hne Hal. unfold POST_autoFix.
  destruct (checkLimit (limiter s) ip now) as [lc rl']. simpl in Hal. rewrite Hal.
  assert (E : String.eqb afId "" = false) by (apply String.eqb_neq; exact Hne).
  simpl. rewrite E. simpl.
  unfold autoFix_gate.
  destruct (findJobById (db s) afId) as [[orig|]|m]; try reflexivity.
  destruct (js_ge _ 2); [reflexivity|].
  destruct (_ || _); [reflexivity|].
  destruct (createJob _ _ _) as [[j|m] db']; simpl; auto.
Qed.

(** C3 (as amended): auto-fix submissions leave the referenced job's
    stored record unchanged, so a third submission against the same
    original job, when the rate limiter lets it through, gets exactly
    the 404/400 (or 500) that the branch's checks give on that unchanged
    record, which are the checks the first submission faced; if they
    pass, it is accepted (201) or fails on the insert (500).  The two
    earlier submissions do not make it be rejected. *)
Theorem autoFix_resubmission_same_checks (s : Server) (ip : string)
  (t1 t2 t3 : Z) (i1 i2 i3 afId : string) :
  afId <> "" ->
  let '(c1, s1) := POST_autoFix s ip t1 i1 afId in
  let '(c2, s2) := POST_autoFix s1 ip t2 i2 afId in
  let '(c3, s3) := POST_autoFix s2 ip t3 i3 afId in
  s3.(db) !! objectId_hex afId = s.(db) !! objectId_hex afId
  /\ ((checkLimit s2.(limiter) ip t3).1.(allowed) = true ->
      match autoFix_gate (findJobById s.(db) afId) with
      | Some c => c3 = c
      | None => c3 = 201%Z \/ c3 = 500%Z
      end).
Proof.
  intros Hne.
  pose proof (POST_autoFix_keeps_reference s ip t1 i1 afId) as K1.
  destruct (POST_autoFix s ip t1 i1 afId) as [c1 s1] eqn:P1. simpl in K1.
  pose proof (POST_autoFix_keeps_reference s1 ip t2 i2 afId) as K2.
  destruct (POST_autoFix s1 ip t2 i2 afId) as [c2 s2] eqn:P2. simpl in K2.
  pose proof (POST_autoFix_keeps_reference s2 ip t3 i3 afId) as K3.
  pose proof (POST_autoFix_status s2 ip t3 i3 afId Hne) as S3.
  destruct (POST_autoFix s2 ip t3 i3 afId) as [c3 s3] eqn:P3. simpl in K3, S3.
  split; [congruence|].
  intros Hal. specialize (S3 Hal).
  rewrite (findJobById_ext (db s2) (db s) afId) in S3 by congruence.
  exact S3.
Qed.

Lemma autoFix_resubmission_same_checks_witness :
  "65a1f0c2e4b0a1b2c3d4e5f6" <> ""
  /\ (let '(c1, s1) := POST_autoFix server0 "203.0.113.7" 1000 "t1" "65a1f0c2e4b0a1b2c3d4e5f6" in
      let '(c2, s2) := POST_autoFix s1 "203.0.113.7" 2000 "t2" "65a1f0c2e4b0a1b2c3d4e5f6" in
      let '(c3, s3) := POST_autoFix s2 "203.0.113.7" 3000 "t3" "65a1f0c2e4b0a1b2c3d4e5f6" in
      s3.(db) !! objectId_hex "65a1f0c2e4b0a1b2c3d4e5f6"
      = server0.(db) !! objectId_hex "65a1f0c2e4b0a1b2c3d4e5f6"
      /\ ((checkLimit s2.(limiter) "203.0.113.7" 3000).1.(allowed) = true ->
          match autoFix_gate (findJobById server0.(db) "65a1f0c2e4b0a1b2c3d4e5f6") with
          | Some c => c3 = c
          | None => c3 = 201%Z \/ c3 = 500%Z
          end)).
Proof.
  assert (H : "65a1f0c2e4b0a1b2c3d4e5f6" <> "") by discriminate.
  split; [exact H|].
  exact (autoFix_resubmission_same_checks server0 "203.0.113.7" 1000 2000 3000
           "t1" "t2" "t3" _ H).
Defined.

(** The three submissions of the scenario are all accepted. *)
Lemma autoFix_three_submissions_accepted :
  let '(c1, s1) := POST_autoFix server0 "203.0.113.7" 1000 "t1" "65a1f0c2e4b0a1b2c3d4e5f6" in
  let '(c2, s2) := POST_autoFix s1 "203.0.113.7" 2000 "t2" "65a1f0c2e4b0a1b2c3d4e5f6" in
  let '(c3, s3) := POST_autoFix s2 "203.0.113.7" 3000 "t3" "65a1f0c2e4b0a1b2c3d4e5f6" in
  [c1; c2; c3] = [201; 201; 201]%Z.
Proof. vm_compute. reflexivity. Qed.

(** A referenced job stored with [autoFixAttemptCount: 2] is read back
    through [documentToJob], which drops that field: the [>= 2] check
    sees [undefined] and the submission is accepted. *)
Lemma autoFix_count_two_accepted :
  (POST_autoFix
     (mkServer {[ "65a1f0c2e4b0a1b2c3d4e5f6" :=
                   JObj [("status", JStr "failed"); ("autoFixAttemptCount", JNum 2);
                         ("output", JObj [("code", JStr "from manim import *")]);
                         ("error", JObj [("message", JStr "failed")])] ]}
               (mkLimiter ∅ 0) 1)
     "203.0.113.7" 1000 "t" "65a1f0c2e4b0a1b2c3d4e5f6").1 = 201%Z.
Proof. vm_compute. reflexivity. Qed.

End SubmitFacts.

Module ShaFacts.
Example sha_abc : Sha256.sha256_hex "abc" = "ba7816bf8f01cfea414140de5dae2223b00361a396177a9cb410ff61f20015ad".
Proof. vm_compute. reflexivity. Qed.
Example sha_empty : Sha256.sha256_hex "" = "e3b0c44298fc1c149afbf4c8996fb92427ae41e4649b934ca495991b7852b855".
Proof. vm_compute. reflexivity. Qed.
Example sha_key : Sha256.sha256_hex "Show a circle|Classic" = "26972ae605ac780f53f3cb16de04e7c0d9756afd35a2c0f28bd05f71de9e0ddc".
Proof. vm_compute. reflexivity. Qed.
End ShaFacts.

Module PromptCacheFacts.
Import PromptCache PromptCacheFixtures.

Section Assoc.
Context {A : Type}.

Lemma assoc_set_absent (c : list (string * A)) (h : string) (v : A) :
  assoc_get c h = None -> assoc_set c h v = (c ++ [(h, v)])%list.
Proof.
  induction c as [|[k x] c IH]; simpl; [reflexivity|].
  destruct (String.eqb h k); [discriminate|].
  intros H. rewrite IH by exact H. reflexivity.
Qed.

Lemma assoc_get_app_last (c : list (string * A)) (h k : string) (v : A) :
  assoc_get (c ++ [(h, v)])%list k
  = match assoc_get c k with
    | Some x => Some x
    | None => if String.eqb k h then Some v else None
    end.
Proof.
  induction c as [|[k' x] c IH]; simpl; [reflexivity|].
  destruct (String.eqb k k'); [reflexivity|exact IH].
Qed.

Lemma assoc_get_delete_absent (c : list (string * A)) (h k : string) :
  assoc_get c h = None -> assoc_get (assoc_delete c k) h = None.
Proof.
  induction c as [|[k' x] c IH]; simpl; [reflexivity|].
  destruct (String.eqb h k') eqn:E1; [discriminate|].
  intros H. destruct (String.eqb k k').
  - exact H.
  - simpl. rewrite E1. exact (IH H).
Qed.

Lemma assoc_delete_app_last (c : list (string * A)) (h : string) (v : A) :
  assoc_get c h = None -> assoc_delete (c ++ [(h, v)])%list h = c.
Proof.
  induction c as [|[k x] c IH]; simpl.
  - rewrite String.eqb_refl. reflexivity.
  - destruct (String.eqb h k); [discriminate|].
    intros H. rewrite IH by exact H. reflexivity.
Qed.

End Assoc.

(** A done job with an output is appended under its key; the entries
    kept from before are a part of the old cache. *)
Lemma setCachedJob_absent (c : cache) (P S : string) (job : jsval) (t0 t : Z) :
  is_done job = true -> js_truthy (js_get job "output") = true ->
  assoc_get c (generateHash P S) = None ->
  exists c1,
    setCachedJob c P S job t0 t
    = (c1 ++ [(generateHash P S,
               mkEntry (generateHash P S) (trim P) S (js_get job "id") job t 0)])%list
    /\ forall k, assoc_get c k = None -> assoc_get c1 k = None.
Proof.
  intros Hd Ho Ha. unfold setCachedJob. rewrite Hd, Ho. simpl. rewrite Ha.
  set (c1 := if Nat.leb MAX_CACHE_SIZE (length c) then
               match (scan_oldest c t0).1 with
               | Some oldestKey => assoc_delete c oldestKey
               | None => c
               end
             else c).
  assert (Hc1 : forall k, assoc_get c k = None -> assoc_get c1 k = None).
  { intros k Hk. unfold c1.
    destruct (Nat.leb _ _); [|exact Hk].
    destruct ((scan_oldest c t0).1); [|exact Hk].
    apply assoc_get_delete_absent. exact Hk. }
  exists c1. split; [|exact Hc1].
  apply assoc_set_absent. apply Hc1. exact Ha.
Qed.

(** C8 (as amended): for a done job with an output, cached under
    [k = sha256(trim(P) + "|" + S)] in a cache with no entry under [k],
    a lookup at most 30 days later returns the job for every (P', S')
    with the same digest (so also for a prompt that differs from P only
    by surrounding white space); a lookup whose digest differs returns
    nothing when the cache held no entry under it; more than 30 days
    later the lookup returns nothing and removes the entry. *)
Theorem promptCache_roundtrip (c : cache) (P S P' S' : string) (job : jsval)
  (t0 t t' : Z) :
  js_get job "status" = JStr "done" ->
  js_truthy (js_get job "output") = true ->
  assoc_get c (generateHash P S) = None ->
  let c1 := setCachedJob c P S job t0 t in
  (generateHash P' S' = generateHash P S -> (t' - t <= CACHE_DURATION_MS)%Z ->
   (getCachedJob c1 P' S' t').1 = Some job)
  /\ (generateHash P' S' <> generateHash P S -> assoc_get c (generateHash P' S') = None ->
      (getCachedJob c1 P' S' t').1 = None)
  /\ (generateHash P' S' = generateHash P S -> (CACHE_DURATION_MS < t' - t)%Z ->
      (getCachedJob c1 P' S' t').1 = None
      /\ assoc_get (getCachedJob c1 P' S' t').2 (generateHash P S) = None).
Proof.
  intros Hs Ho Ha.
  assert (Hd : is_done job = true) by (unfold is_done; rewrite Hs; reflexivity).
  destruct (setCachedJob_absent c P S job t0 t Hd Ho Ha) as [c1 [Hset Hc1]].
  cbv zeta. rewrite Hset. unfold getCachedJob.
  rewrite assoc_get_app_last.
  split; [|split].
  - intros Heq Ht. rewrite Heq, (Hc1 _ Ha), String.eqb_refl. simpl.
    assert (E : Z.ltb CACHE_DURATION_MS (t' - t) = false) by (apply Z.ltb_ge; lia).
    rewrite E. reflexivity.
  - intros Hne Ha'. rewrite (Hc1 _ Ha').
    apply String.eqb_neq in Hne. rewrite Hne. reflexivity.
  - intros Heq Ht. rewrite Heq, (Hc1 _ Ha), String.eqb_refl. simpl.
    assert (E : Z.ltb CACHE_DURATION_MS (t' - t) = true) by (apply Z.ltb_lt; lia).
    rewrite E. simpl. split; [reflexivity|].
    rewrite assoc_delete_app_last by exact (Hc1 _ Ha). exact (Hc1 _ Ha).
Qed.

Lemma promptCache_roundtrip_witness :
  js_get (done_job 1) "status" = JStr "done"
  /\ js_truthy (js_get (done_job 1) "output") = true
  /\ assoc_get ([] : cache) (generateHash "Show a circle" "Classic") = None
  /\ generateHash "Show a square" "Classic" <> generateHash "Show a circle" "Classic"
  /\ (let c1 := setCachedJob [] "Show a circle" "Classic" (done_job 1) 1000 1000 in
      (generateHash "Show a square" "Classic" = generateHash "Show a circle" "Classic" ->
       (2000 - 1000 <= CACHE_DURATION_MS)%Z ->
       (getCachedJob c1 "Show a square" "Classic" 2000).1 = Some (done_job 1))
      /\ (generateHash "Show a square" "Classic" <> generateHash "Show a circle" "Classic" ->
          assoc_get ([] : cache) (generateHash "Show a square" "Classic") = None ->
          (getCachedJob c1 "Show a square" "Classic" 2000).1 = None)
      /\ (generateHash "Show a square" "Classic" = generateHash "Show a circle" "Classic" ->
          (CACHE_DURATION_MS < 2000 - 1000)%Z ->
          (getCachedJob c1 "Show a square" "Classic" 2000).1 = None
          /\ assoc_get (getCachedJob c1 "Show a square" "Classic" 2000).2
               (generateHash "Show a circle" "Classic") = None)).
Proof.
  assert (H1 : js_get (done_job 1) "status" = JStr "done") by reflexivity.
  assert (H2 : js_truthy (js_get (done_job 1) "output") = true) by reflexivity.
  assert (H3 : assoc_get ([] : cache) (generateHash "Show a circle" "Classic") = None)
    by reflexivity.
  assert (H4 : generateHash "Show a square" "Classic" <> generateHash "Show a circle" "Classic")
    by (vm_compute; discriminate).
  split; [exact H1|]. split; [exact H2|]. split; [exact H3|]. split; [exact H4|].
  exact (promptCache_roundtrip [] "Show a circle" "Classic" "Show a square" "Classic"
           (done_job 1) 1000 1000 2000 H1 H2 H3).
Defined.

(** C8 refuted: a prompt that differs from the cached one by surrounding
    white space gets the cached job; and when the key is already cached,
    [setCachedJob(P,S,job)] followed by [getCachedJob(P,S)] returns the
    earlier job, not [job]. *)
Lemma promptCache_padded_prompt_hits :
  (getCachedJob (setCachedJob [] "Show a circle" "Classic" (done_job 1) 1000 1000)
     "  Show a circle  " "Classic" 2000).1 = Some (done_job 1) /\
  (getCachedJob
     (setCachedJob (setCachedJob [] "Show a circle" "Classic" (done_job 1) 1000 1000)
        "Show a circle" "Classic" (done_job 2) 1500 1500)
     "Show a circle" "Classic" 2000).1 = Some (done_job 1) /\
  done_job 1 <> done_job 2.
Proof. split; [vm_compute; reflexivity|]. split; [vm_compute; reflexivity|]. vm_compute. discriminate. Qed.

(** When no entry is strictly older than the clock reading of the scan,
    the scan finds no key and nothing is evicted. *)
Lemma scan_oldest_none (c : cache) (now : Z) :
  Forall (fun kv => (now <= (kv.2).(cachedAt))%Z) c ->
  scan_oldest c now = (None, now).
Proof.
  unfold scan_oldest. generalize (@None string) as o.
  induction c as [|[k e] c IH]; intros o Hall; simpl; [reflexivity|].
  inversion Hall as [|? ? He Hrest]; subst. simpl in He.
  assert (E : Z.ltb (cachedAt e) now = false) by (apply Z.ltb_ge; lia).
  simpl. rewrite E. apply IH. exact Hrest.
Qed.

(** C9 (code_bug): the eviction scan starts from [oldestTime = Date.now()]
    and keeps only strictly older entries, so when every entry was cached
    in the current millisecond nothing is evicted and the cache grows to
    1001 entries. *)
Theorem promptCache_exceeds_limit :
  length (fill 1001 5000) = 1001%nat.
Proof. vm_compute. reflexivity. Qed.

End PromptCacheFacts.

Module RegexFacts.
Import Regex.

(** Every pattern of the validator and the renderer is parsed in full. *)
Example patterns_parse :
  forallb parses
    ["^```(?:python)?\n?([\s\S]*?)\n?```$"; "from\s+manim\s+import\s+\*";
     "class\s+(\w+)\s*\(\s*Scene\s*\)\s*:"; "def\s+construct\s*\(\s*self\s*\)\s*:"; "\("; "\)";
     "^from\s+manim\s+import\s+\*"; "^import\s+manim"; "^from\s+manim\.\w+\s+import";
     "import\s+os\b"; "from\s+os\s+import"; "import\s+sys\b"; "from\s+sys\s+import";
     "import\s+subprocess\b"; "from\s+subprocess\s+import"; "import\s+socket\b";
     "from\s+socket\s+import"; "import\s+requests\b"; "import\s+urllib"; "import\s+pickle\b";
     "import\s+marshal\b"; "import\s+ctypes\b"; "import\s+__builtin"; "import\s+builtins\b";
     "^(?:from\s+[\w.]+\s+)?import\s+[\w.,\s*]+"; "manim";
     "\beval\s*\("; "\bexec\s*\("; "\bcompile\s*\("; "\b__import__\s*\("; "\bopen\s*\(";
     "\bfile\s*\("; "\binput\s*\("; "\braw_input\s*\("; "\bglobals\s*\("; "\blocals\s*\(";
     "\bvars\s*\("; "\bdir\s*\("; "\bgetattr\s*\("; "\bsetattr\s*\("; "\bdelattr\s*\(";
     "\b__dict__\b"; "\b__class__\b"; "\b__bases__\b";
     "(os|sys|subprocess)\.\w+"; "with\s+open\s*\("; "\bwith\s+file\s*\(";
     "lambda.*(?:eval|exec|__import__|compile)"; "\[.*for.*in.*\].*(?:eval|exec)";
     "\.camera\.frame"; "\.camera\.animate"; "camera\.add"; "self\.camera\s*=";
     "-qm"; "-qh"; "quality\s*=\s*\x22[^\x22]*[mh]"; "frame_rate\s*="; "pixel_height"; "pixel_width";
     "run_time\s*=\s*([0-9]+(?:\.[0-9]+)?)"; "class\s+(\w+)\s*\(\s*Scene\s*\)"] = true.
Proof. vm_compute. reflexivity. Qed.

(** JavaScript's [\s] takes the no-break space; [$] without the [m] flag
    does not match before a final newline. *)
Example regex_space_and_end :
  test (rx "a\sb" "") ("a" ++ String (ascii_of_nat 160) "b") = true /\
  test (rx "a$" "") ("a" ++ String (ascii_of_nat 10) "") = false /\
  test (rx "a$" "m") ("a" ++ String (ascii_of_nat 10) "") = true.
Proof. vm_compute. repeat split. Qed.

End RegexFacts.

Module RenderFacts.
Import Renderer RenderFixtures.

Lemma in_fs_of_bool (d : string) (fs : fs_state) : bool_decide (d ∈ fs) = true -> d ∈ fs.
Proof. apply bool_decide_eq_true_1. Qed.

(** On the success path the per-job directory is removed. *)
Lemma renderCode_success_removes_temp_dir :
  success demo_success_run.1.1 = true /\ (job_temp_dir demo_config demo_job ∉ demo_success_run.1.2)
  /\ demo_success_run.2 = [].
Proof.
  split; [vm_compute; reflexivity|]. split; [|vm_compute; reflexivity].
  intro Hin.
  assert (Hb : bool_decide (job_temp_dir demo_config demo_job ∈ demo_success_run.1.2) = true)
    by (apply bool_decide_eq_true_2; exact Hin).
  vm_compute in Hb. discriminate Hb.
Qed.

(** C5 (refuted): when no Scene class name can be extracted, and when
    Docker succeeds but leaves no MP4, [renderCode] returns its failure
    without calling [cleanup]: the per-job temporary directory (with
    [scene.py] in it) still exists afterwards. *)
Lemma renderCode_keeps_temp_dir :
  success (renderCode demo_config (calm_world []) ∅ (mkRequest demo_job "print('no scene here')")).1.1 = false
  /\ (job_temp_dir demo_config demo_job
        ∈ (renderCode demo_config (calm_world []) ∅ (mkRequest demo_job "print('no scene here')")).1.2)
  /\ success (renderCode demo_config (calm_world []) ∅ (mkRequest demo_job demo_scene_code)).1.1 = false
  /\ (job_temp_dir demo_config demo_job
        ∈ (renderCode demo_config (calm_world []) ∅ (mkRequest demo_job demo_scene_code)).1.2).
Proof.
  split; [vm_compute; reflexivity|]. split; [apply in_fs_of_bool; vm_compute; reflexivity|].
  split; [vm_compute; reflexivity|]. apply in_fs_of_bool; vm_compute; reflexivity.
Qed.

End RenderFacts.

Module ValidatorFacts.
Import Regex Validator ValidatorFixtures.

Lemma find_none_match (ps : list (RegExp * string)) (code : string) :
  none_match ps code = true -> find (fun p => test p.1 code) ps = None.
Proof.
  induction ps as [|[p m] ps IH]; simpl; [reflexivity|].
  intros H. apply andb_prop in H as [H1 H2].
  destruct (test p code); [discriminate H1|]. apply IH, H2.
Qed.

Lemma find_existsb {A} (f : A -> bool) (l : list A) :
  existsb f l = true -> exists x, find f l = Some x /\ f x = true.
Proof.
  induction l as [|a l IH]; simpl; [discriminate|].
  destruct (f a) eqn:E; simpl.
  - intros _. exists a. split; [reflexivity | exact E].
  - exact IH.
Qed.

(** The checks of steps 2 to 5 pass, so [validateAndCleanCode] goes on to
    the helper validators. *)
Lemma structure_ok_continue (rawCode : string) :
  structure_ok (clean_code rawCode) = true ->
  validateAndCleanCode rawCode =
  match validateImports (clean_code rawCode) with
  | Invalid reason => validation_error "Code contains forbidden imports" reason
  | Valid =>
  match validateForbiddenCalls (clean_code rawCode) with
  | Invalid reason => validation_error "Code contains forbidden operations" reason
  | Valid =>
  match validateDangerousPatterns (clean_code rawCode) with
  | Invalid reason => validation_error "Code contains potentially unsafe patterns" reason
  | Valid =>
  match validateOutputConstraints (clean_code rawCode) with
  | Invalid reason => validation_error "Code violates output constraints" reason
  | Valid => GenOk (clean_code rawCode)
  end end end end.
Proof.
  unfold structure_ok. intros H.
  apply andb_prop in H as [H Hp]. apply andb_prop in H as [H Hc].
  apply andb_prop in H as [Hi Hs].
  apply Nat.eqb_eq in Hs.
  unfold validateAndCleanCode. cbv zeta.
  rewrite Hi, Hs, Hc, Hp. reflexivity.
Qed.

(** C6 (refuted): code containing [os.system(...)] without an [import os]
    passes the import and call checks and is rejected by the
    dangerous-pattern check, whose details are generic and do not name the
    [os] module (they do not contain "os" at all). *)
Lemma validate_os_system_generic_details :
  validateAndCleanCode code_os_system =
    validation_error "Code contains potentially unsafe patterns" os_system_details
  /\ includes os_system_details "os" = false.
Proof. split; vm_compute; reflexivity. Qed.

(** [parseFloat] rounds to a double before the comparison with 5: a
    literal just above 5 may read as 5 and pass, and the reported value
    is the shortest decimal of the double. *)
Lemma parseFloat_rounds_before_gt5 :
  gt5 (parseFloat "5.00000000000000001") = false
  /\ gt5 (parseFloat "5.0000000000000009") = true
  /\ number_to_string (parseFloat "5.0000000000000009") = "5.000000000000001"
  /\ number_to_string (parseFloat "6.50") = "6.5".
Proof. vm_compute. repeat split. Qed.

(** C6, amended.  [validateAndCleanCode] returns the first failing check,
    always with type ["validation"]; with [c] the cleaned code:
    (a) without a match of [from\s+manim\s+import\s+\*] the message names
        the missing import [from manim import *];
    (b) with the import and two or more [class X(Scene):] matches the
        details are ["Found classes: "] followed by every matched name;
    when steps 2 to 5 pass:
    (c) if [import\s+os\b] matches, the details name the os module;
    (d) if the import and call checks pass and [(os|sys|subprocess)\.\w+]
        matches (as [os.system(...)] does), the details are the generic
        [os_system_details], which do not name [os];
    (e) if the import, call and pattern checks pass and no camera or
        quality pattern matches, a [run_time=v] whose [parseFloat] (the
        nearest double) is above 5 gives details citing the
        5-second-per-step limit;
    (f) if the import, call and pattern checks pass and
        [self\.camera\s*=] matches, the details forbid camera manipulation. *)
Theorem validateAndCleanCode_reports :
  (forall rawCode,
     test manimImportRegex (clean_code rawCode) = false ->
     validateAndCleanCode rawCode =
       validation_error ("Generated code missing required " ++ dq ++ "from manim import *" ++ dq ++ " import")
         "The LLM did not include the mandatory Manim import statement") /\
  (forall rawCode,
     let c := clean_code rawCode in
     test manimImportRegex c = true ->
     1 < length (all_matches sceneClassRegex c) ->
     validateAndCleanCode rawCode =
       validation_error
         ("Multiple Scene classes found (" ++ Z_to_string (Z.of_nat (length (all_matches sceneClassRegex c)))
          ++ "). Expected exactly one.")
         ("Found classes: " ++ join ", " (map (scene_class_name c) (all_matches sceneClassRegex c)))) /\
  (forall rawCode,
     let c := clean_code rawCode in
     structure_ok c = true ->
     test (rx "import\s+os\b" "") c = true ->
     validateAndCleanCode rawCode =
       validation_error "Code contains forbidden imports"
         "Forbidden import detected: os module (file system access). Only Manim imports are allowed.") /\
  (forall rawCode,
     let c := clean_code rawCode in
     structure_ok c = true ->
     validateImports c = Valid -> validateForbiddenCalls c = Valid ->
     test (rx "(os|sys|subprocess)\.\w+" "") c = true ->
     validateAndCleanCode rawCode =
       validation_error "Code contains potentially unsafe patterns" os_system_details) /\
  (forall rawCode,
     let c := clean_code rawCode in
     structure_ok c = true ->
     validateImports c = Valid -> validateForbiddenCalls c = Valid ->
     validateDangerousPatterns c = Valid ->
     none_match forbiddenCameraPatterns c = true ->
     none_match qualityOverridePatterns c = true ->
     existsb (fun m => gt5 (parseFloat (run_time_text c m))) (all_matches largeRunTimePattern c) = true ->
     exists runTime, gt5 runTime = true /\
       validateAndCleanCode rawCode =
         validation_error "Code violates output constraints"
           ("Animation step duration (" ++ number_to_string runTime
            ++ "s) exceeds maximum of 5 seconds per step. Keep animations short and keep total under 12 seconds.")) /\
  (forall rawCode,
     let c := clean_code rawCode in
     structure_ok c = true ->
     validateImports c = Valid -> validateForbiddenCalls c = Valid ->
     validateDangerousPatterns c = Valid ->
     test (rx "self\.camera\s*=" "") c = true ->
     exists message,
       validateAndCleanCode rawCode =
         validation_error "Code violates output constraints" (message ++ camera_suffix)).
Proof.
  split; [|split; [|split; [|split; [|split]]]].
  - intros rawCode H. unfold validateAndCleanCode. cbv zeta. rewrite H. reflexivity.
  - intros rawCode c Hi Hlen. unfold validateAndCleanCode. cbv zeta. fold c.
    rewrite Hi. cbn [negb].
    destruct (Nat.eqb_spec (length (all_matches sceneClassRegex c)) 0) as [E|_]; [lia|].
    apply Nat.ltb_lt in Hlen. rewrite Hlen. reflexivity.
  - intros rawCode c Hs Hos. rewrite structure_ok_continue by exact Hs. fold c.
    unfold validateImports. cbn [find forbiddenImports fst]. rewrite Hos. reflexivity.
  - intros rawCode c Hs Hi Hc Hos. rewrite structure_ok_continue by exact Hs. fold c.
    rewrite Hi, Hc. unfold validateDangerousPatterns. cbn [find dangerousPatterns fst].
    rewrite Hos. reflexivity.
  - intros rawCode c Hs Hi Hc Hd Hcam Hq Hrt. rewrite structure_ok_continue by exact Hs. fold c.
    rewrite Hi, Hc, Hd. unfold validateOutputConstraints.
    rewrite (find_none_match _ _ Hcam), (find_none_match _ _ Hq).
    destruct (find_existsb _ _ Hrt) as [m [Hm Hgt]]. rewrite Hm.
    exists (parseFloat (run_time_text c m)). split; [exact Hgt | reflexivity].
  - intros rawCode c Hs Hi Hc Hd Hcam. rewrite structure_ok_continue by exact Hs. fold c.
    rewrite Hi, Hc, Hd. unfold validateOutputConstraints.
    destruct (find (fun p => test p.1 c) forbiddenCameraPatterns) as [[p message]|] eqn:E.
    + exists message. reflexivity.
    + exfalso.
      assert (Hin : In (rx "self\.camera\s*=" "", "camera assignment not allowed") forbiddenCameraPatterns)
        by (unfold forbiddenCameraPatterns; cbn [In]; tauto).
      pose proof (find_none _ _ E _ Hin) as H0. cbn [fst] in H0. congruence.
Qed.

Lemma validateAndCleanCode_reports_witness :
  validateAndCleanCode code_import_missing =
    validation_error ("Generated code missing required " ++ dq ++ "from manim import *" ++ dq ++ " import")
      "The LLM did not include the mandatory Manim import statement" /\
  validateAndCleanCode code_two_scenes =
    validation_error "Multiple Scene classes found (2). Expected exactly one." "Found classes: First, Second" /\
  validateAndCleanCode code_import_os =
    validation_error "Code contains forbidden imports"
      "Forbidden import detected: os module (file system access). Only Manim imports are allowed." /\
  validateAndCleanCode code_os_system =
    validation_error "Code contains potentially unsafe patterns" os_system_details /\
  (exists runTime, gt5 runTime = true /\
     validateAndCleanCode code_run_time_6 =
       validation_error "Code violates output constraints"
         ("Animation step duration (" ++ number_to_string runTime
          ++ "s) exceeds maximum of 5 seconds per step. Keep animations short and keep total under 12 seconds.")) /\
  (exists message,
     validateAndCleanCode code_camera_none =
       validation_error "Code violates output constraints" (message ++ camera_suffix)).
Proof.
  destruct validateAndCleanCode_reports as [Ha [Hb [Hc [Hd [He Hf]]]]].
  split; [apply Ha; vm_compute; reflexivity|].
  split; [rewrite (Hb code_two_scenes); [vm_compute; reflexivity | vm_compute; reflexivity | vm_compute; lia]|].
  split; [apply Hc; vm_compute; reflexivity|].
  split; [apply Hd; vm_compute; reflexivity|].
  split; [apply He; vm_compute; reflexivity|].
  apply Hf; vm_compute; reflexivity.
Defined.

End ValidatorFacts.

Module StringFacts.

Lemma length_app (a b : string) : String.length (a ++ b) = (String.length a + String.length b)%nat.
Proof. induction a as [|c a IH]; simpl; [reflexivity|rewrite IH; reflexivity]. Qed.

Lemma app_inv_suffix (a b s : string) : a ++ s = b ++ s -> a = b.
Proof.
  revert b. induction a as [|c a IH]; intros b H; destruct b as [|d b]; simpl in H.
  - reflexivity.
  - apply (f_equal String.length) in H. rewrite !length_app in H. simpl in H. exfalso; lia.
  - apply (f_equal String.length) in H. rewrite !length_app in H. simpl in H. exfalso; lia.
  - injection H as -> H. f_equal. apply IH. exact H.
Qed.

Lemma list_ascii_app (a b : string) :
  list_ascii_of_string (a ++ b) = (list_ascii_of_string a ++ list_ascii_of_string b)%list.
Proof. induction a as [|c a IH]; simpl; [reflexivity|rewrite IH; reflexivity]. Qed.

Lemma app_empty_r (a : string) : (a ++ "")%string = a.
Proof. induction a as [|c a IH]; [reflexivity|exact (f_equal (String c) IH)]. Qed.

End StringFacts.

Module RateLimitOpsFacts.
Import RateLimit RateLimitFixtures RateLimitFacts RateLimitOps StringFacts Observations.

Lemma rec_of_after_cleanup (rl : RateLimiter) (key : string) (now : Z) :
  rec_of (after_cleanup rl now).(rl_store) key now = rec_of rl.(rl_store) key now.
Proof.
  unfold rec_of, after_cleanup. destruct (Z.ltb _ _); [|reflexivity].
  simpl. destruct (rl_store rl !! key) as [r|] eqn:E.
  - destruct (Z.leb (resetTime r) now) eqn:Hle.
    + destruct (filter _ _ !! key) as [r'|] eqn:E'; [|reflexivity].
      apply map_lookup_filter_Some in E' as [E' Hlt]. rewrite E in E'.
      injection E' as <-. simpl in Hlt. apply Z.leb_le in Hle. lia.
    + rewrite (map_lookup_filter_Some_2 _ _ _ _ E); [rewrite Hle; reflexivity|].
      simpl. apply Z.leb_gt in Hle. exact Hle.
  - rewrite map_lookup_filter_None_2; [reflexivity|left; exact E].
Qed.

Lemma rec_of_live (m : gmap string RequestRecord) (key : string) (now : Z) :
  (now < (rec_of m key now).(resetTime))%Z.
Proof.
  unfold rec_of. destruct (m !! key) as [r|]; [|simpl; unfold windowMs; lia].
  destruct (Z.leb (resetTime r) now) eqn:E; simpl; [unfold windowMs; lia|].
  apply Z.leb_gt in E. exact E.
Qed.

Lemma checkLimit_rec (rl : RateLimiter) (ip : string) (now : Z) :
  checkLimit rl ip now =
  (let R := rec_of rl.(rl_store) (limit_key ip) now in
   let rl1 := after_cleanup rl now in
   let st1 := <[limit_key ip := R]> rl1.(rl_store) in
   if Z.leb maxRequests R.(count) then
     (mkCheck false 0 R.(resetTime) (Some (ceil_div1000 (R.(resetTime) - now))),
      mkLimiter st1 rl1.(lastCleanup))
   else
     let R' := mkRecord (R.(count) + 1) R.(resetTime) in
     (mkCheck true (Z.max 0 (maxRequests - R'.(count))) R'.(resetTime) None,
      mkLimiter (<[limit_key ip := R']> st1) rl1.(lastCleanup))).
Proof.
  unfold checkLimit. fold (after_cleanup rl now).
  change (match (after_cleanup rl now).(rl_store) !! limit_key ip with
          | Some r => if Z.leb r.(resetTime) now then mkRecord 0 (now + windowMs) else r
          | None => mkRecord 0 (now + windowMs)
          end) with (rec_of (after_cleanup rl now).(rl_store) (limit_key ip) now).
  rewrite rec_of_after_cleanup. reflexivity.
Qed.

Lemma getStatus_rec (rl : RateLimiter) (ip : string) (now : Z) :
  getStatus rl ip now =
  mkStatus (rec_of rl.(rl_store) (limit_key ip) now).(count) maxRequests
           (rec_of rl.(rl_store) (limit_key ip) now).(resetTime).
Proof.
  unfold getStatus, rec_of. destruct (rl_store rl !! limit_key ip) as [r|]; [|reflexivity].
  destruct (Z.leb _ _); reflexivity.
Qed.

Lemma rec_of_insert_live (m : gmap string RequestRecord) (key : string) (now : Z)
  (r : RequestRecord) :
  (now < r.(resetTime))%Z -> rec_of (<[key := r]> m) key now = r.
Proof.
  intros Hlt. unfold rec_of. rewrite lookup_insert_eq.
  assert (E : Z.leb (resetTime r) now = false) by (apply Z.leb_gt; exact Hlt).
  rewrite E. reflexivity.
Qed.

Lemma checkLimit_getStatus (rl : RateLimiter) (ip : string) (now : Z) :
  let s := getStatus rl ip now in
  let '(r, rl') := checkLimit rl ip now in
  allowed r = Z.ltb s.(used) s.(limit)
  /\ cr_resetTime r = s.(st_resetTime)
  /\ (getStatus rl' ip now).(used) = (if allowed r then s.(used) + 1 else s.(used))%Z
  /\ (getStatus rl' ip now).(st_resetTime) = s.(st_resetTime).
Proof.
  cbv zeta. rewrite checkLimit_rec, getStatus_rec. cbv zeta.
  pose proof (rec_of_live (rl_store rl) (limit_key ip) now) as Hlive.
  destruct (rec_of (rl_store rl) (limit_key ip) now) as [c R] eqn:ER. simpl in Hlive |- *.
  destruct (Z.leb maxRequests c) eqn:Hc; simpl; rewrite getStatus_rec; simpl.
  - rewrite rec_of_insert_live by exact Hlive. simpl.
    apply Z.leb_le in Hc. rewrite (proj2 (Z.ltb_ge c maxRequests) Hc).
    repeat split; reflexivity.
  - rewrite rec_of_insert_live by exact Hlive. simpl.
    apply Z.leb_gt in Hc. rewrite (proj2 (Z.ltb_lt c maxRequests) Hc).
    repeat split; reflexivity.
Qed.

(** [getStatus] foretells [checkLimit]: a check at the same instant is
    allowed exactly when [used < limit], with the same [resetTime]; after
    it, [used] has grown by one if the check was allowed and is unchanged
    if it was refused. *)
Theorem getStatus_predicts_checkLimit (rl : RateLimiter) (ip : string) (now : Z) :
  let s := getStatus rl ip now in
  let '(r, rl') := checkLimit rl ip now in
  allowed r = Z.ltb s.(used) s.(limit)
  /\ cr_resetTime r = s.(st_resetTime)
  /\ (getStatus rl' ip now).(used) = (if allowed r then s.(used) + 1 else s.(used))%Z
  /\ (getStatus rl' ip now).(st_resetTime) = s.(st_resetTime).
Proof. exact (checkLimit_getStatus rl ip now). Qed.

Lemma limit_key_inj (ip ip' : string) : limit_key ip' = limit_key ip -> ip' = ip.
Proof. unfold limit_key. apply app_inv_suffix. Qed.

(** [resetLimit ip] gives [ip] a full quota again (its next check is
    allowed with 9 left in a new window) and leaves every other address's
    next check as it was. *)
Theorem resetLimit_restores_one_address (rl : RateLimiter) (ip : string) (now : Z) :
  (checkLimit (resetLimit rl ip) ip now).1 = mkCheck true 9 (now + windowMs) None
  /\ (forall ip', ip' <> ip ->
        (checkLimit (resetLimit rl ip) ip' now).1 = (checkLimit rl ip' now).1).
Proof.
  split.
  - apply (proj1 (checkLimit_fresh (resetLimit rl ip) ip now ltac:(
      intros r Hr; unfold resetLimit in Hr; simpl in Hr;
      rewrite lookup_delete_eq in Hr; discriminate))).
  - intros ip' Hne. rewrite !checkLimit_rec.
    assert (E : rec_of (resetLimit rl ip).(rl_store) (limit_key ip') now
                = rec_of rl.(rl_store) (limit_key ip') now).
    { unfold resetLimit, rec_of. simpl. rewrite lookup_delete_ne; [reflexivity|].
      intros Heq. apply Hne. apply limit_key_inj. symmetry. exact Heq. }
    rewrite E. cbv zeta.
    destruct (Z.leb maxRequests _); reflexivity.
Qed.

End RateLimitOpsFacts.

Module DetectorFacts.
Import Repo Detector StringFacts.

(** [checkForTimeout] reports a timeout exactly when the job is in one of
    the three running statuses, the start time of that status is set and
    denotes a valid date, and strictly more than the status's threshold
    (30 s, 180 s, 90 s) has elapsed since; the error then has type
    [timeout], and stage [rendering] exactly for a rendering job. *)
Theorem checkForTimeout_exact (date_of : jsval -> option Z) (job : jsval) (now : Z) :
  (checkForTimeout date_of job now <> None <->
   (js_get job "status" = JStr "queued" /\ js_truthy (js_get job "queuedAt") = true
    /\ exists t, date_of (js_get job "queuedAt") = Some t /\ (now - t > 30000)%Z)
   \/ (js_get job "status" = JStr "generating_code"
       /\ js_truthy (js_get job "codeGenerationStartedAt") = true
       /\ exists t, date_of (js_get job "codeGenerationStartedAt") = Some t
                    /\ (now - t > 180000)%Z)
   \/ (js_get job "status" = JStr "rendering"
       /\ js_truthy (js_get job "renderingStartedAt") = true
       /\ exists t, date_of (js_get job "renderingStartedAt") = Some t /\ (now - t > 90000)%Z))
  /\ (forall e, checkForTimeout date_of job now = Some e ->
        e.(ttype) = "timeout"
        /\ (e.(tstage) = "rendering" <-> js_get job "status" = JStr "rendering")).
Proof.
  assert (Hstage : forall now v thr k,
             check_stage date_of now v thr k <> None <->
             js_truthy v = true /\ exists t, date_of v = Some t /\ (now - t > thr)%Z).
  { intros n v thr k. unfold check_stage.
    destruct (js_truthy v); [|split; [congruence|intros [H _]; discriminate]].
    destruct (date_of v) as [t|]; [|split; [congruence|intros [_ [t' [H _]]]; discriminate]].
    destruct (Z.ltb thr (n - t)) eqn:E.
    - apply Z.ltb_lt in E. split; [intros _; split; [reflexivity|exists t; split; [reflexivity|lia]]|congruence].
    - apply Z.ltb_ge in E. split; [congruence|].
      intros [_ [t' [Ht' Hlt]]]. injection Ht' as <-. lia. }
  assert (Hk : forall now v thr k e, check_stage date_of now v thr k = Some e ->
                exists el, e = k el).
  { intros n v thr k e. unfold check_stage.
    destruct (js_truthy v); [|discriminate].
    destruct (date_of v); [|discriminate].
    destruct (Z.ltb _ _); [|discriminate]. intros H; injection H as <-. eexists; reflexivity. }
  unfold checkForTimeout.
  destruct (js_get job "status") as [| | | | |s|] eqn:Hs;
    try (split; [split; [congruence|intros [[H _]|[[H _]|[H _]]]; discriminate]|discriminate]).
  destruct (String.eqb_spec s "queued") as [->|Hq].
  { split.
    - rewrite Hstage. unfold JOB_TIMEOUT_MS_queued. simpl. split.
      + intros H. left. split; [reflexivity|exact H].
      + intros [[_ H]|[[H _]|[H _]]]; [exact H|discriminate|discriminate].
    - intros e He. apply Hk in He as [el ->]. simpl. split; [reflexivity|].
      split; discriminate. }
  destruct (String.eqb_spec s "generating_code") as [->|Hg].
  { split.
    - rewrite Hstage. unfold JOB_TIMEOUT_MS_generating_code. simpl. split.
      + intros H. right. left. split; [reflexivity|exact H].
      + intros [[H _]|[[_ H]|[H _]]]; [discriminate|exact H|discriminate].
    - intros e He. apply Hk in He as [el ->]. simpl. split; [reflexivity|].
      split; discriminate. }
  destruct (String.eqb_spec s "rendering") as [->|Hr].
  { split.
    - rewrite Hstage. unfold JOB_TIMEOUT_MS_rendering. simpl. split.
      + intros H. right. right. split; [reflexivity|exact H].
      + intros [[H _]|[[H _]|[_ H]]]; [discriminate|discriminate|exact H].
    - intros e He. apply Hk in He as [el ->]. simpl. split; [reflexivity|].
      split; reflexivity. }
  split; [|discriminate]. split; [congruence|].
  intros [[H _]|[[H _]|[H _]]]; injection H; congruence.
Qed.

(** A job as [findJobById] returns it never times out: [documentToJob]
    drops the start times [checkForTimeout] reads. *)
Lemma checkForTimeout_documentToJob (date_of : jsval -> option Z) (k : string)
  (d : jsval) (now : Z) :
  checkForTimeout date_of (documentToJob k d) now = None.
Proof.
  assert (E1 : js_get (documentToJob k d) "queuedAt" = JUndefined) by reflexivity.
  assert (E2 : js_get (documentToJob k d) "codeGenerationStartedAt" = JUndefined) by reflexivity.
  assert (E3 : js_get (documentToJob k d) "renderingStartedAt" = JUndefined) by reflexivity.
  unfold checkForTimeout. rewrite E1, E2, E3.
  destruct (js_get (documentToJob k d) "status"); try reflexivity.
  repeat match goal with |- context [if String.eqb ?a ?b then _ else _] => destruct (String.eqb a b) end;
    reflexivity.
Qed.

(** The job-status route never times a job out: whatever the stored jobs
    and the time, it leaves the collection unchanged and answers a found
    job with status 200 and that job as [findJobById] returned it. *)
Theorem GET_never_times_out (date_of : jsval -> option Z) (db : store)
  (jobId : string) (now : Z) (nowIso : string) :
  let '(code, body, db') := GET date_of db jobId now nowIso in
  db' = db
  /\ (forall job, findJobById db jobId = Ok (Some job) ->
        code = 200%Z /\ body = JObj [("job", job)]).
Proof.
  unfold GET.
  destruct (findJobById db jobId) as [[job|]|m] eqn:Hf.
  - assert (Hj : exists k d, job = documentToJob k d).
    { unfold findJobById in Hf. destruct (negb _); [discriminate|].
      destruct (db !! objectId_hex jobId) as [d|]; [|discriminate].
      injection Hf as <-. eexists; eexists; reflexivity. }
    destruct Hj as [k [d ->]].
    rewrite checkForTimeout_documentToJob.
    destruct (negb _); (split; [reflexivity|intros j Hj; injection Hj as <-; split; reflexivity]).
  - split; [reflexivity|intros j Hj; discriminate].
  - split; [reflexivity|intros j Hj; discriminate].
Qed.

Lemma drop_spaces_app_spaces (l1 l2 : list ascii) :
  forallb PromptCache.is_js_space l1 = true ->
  PromptCache.drop_spaces (l1 ++ l2)%list = PromptCache.drop_spaces l2.
Proof.
  induction l1 as [|c l1 IH]; simpl; intros H; [reflexivity|].
  apply andb_prop in H as [Hc H]. rewrite Hc. apply IH. exact H.
Qed.

Lemma drop_spaces_all (l : list ascii) :
  PromptCache.drop_spaces l = [] -> forallb PromptCache.is_js_space l = true.
Proof.
  induction l as [|c l IH]; simpl; [reflexivity|].
  destruct (PromptCache.is_js_space c); [simpl; exact IH|discriminate].
Qed.

Lemma drop_spaces_app_keep (l1 l2 : list ascii) :
  PromptCache.drop_spaces l1 <> [] ->
  PromptCache.drop_spaces (l1 ++ l2)%list = (PromptCache.drop_spaces l1 ++ l2)%list.
Proof.
  induction l1 as [|c l1 IH]; simpl; intros H; [congruence|].
  destruct (PromptCache.is_js_space c); [apply IH; exact H|reflexivity].
Qed.

Lemma forallb_rev_spaces (l : list ascii) :
  forallb PromptCache.is_js_space l = true -> forallb PromptCache.is_js_space (rev l) = true.
Proof. intros H. apply forallb_forall. intros x Hx. apply in_rev in Hx. eapply forallb_forall in H; eauto. Qed.

Lemma trim_list_pad (l1 p l3 : list ascii) :
  forallb PromptCache.is_js_space l1 = true -> forallb PromptCache.is_js_space l3 = true ->
  rev (PromptCache.drop_spaces (rev (PromptCache.drop_spaces (l1 ++ p ++ l3)%list)))
  = rev (PromptCache.drop_spaces (rev (PromptCache.drop_spaces p))).
Proof.
  intros H1 H3. rewrite drop_spaces_app_spaces by exact H1.
  destruct (PromptCache.drop_spaces p) as [|c r] eqn:Ep.
  - assert (Hp := drop_spaces_all p Ep).
    rewrite drop_spaces_app_spaces by exact Hp.
    assert (E3 : PromptCache.drop_spaces l3 = []).
    { rewrite <- (app_nil_r l3), drop_spaces_app_spaces by exact H3. reflexivity. }
    rewrite E3. reflexivity.
  - rewrite drop_spaces_app_keep by (rewrite Ep; discriminate). rewrite Ep.
    rewrite rev_app_distr. rewrite drop_spaces_app_spaces by (apply forallb_rev_spaces; exact H3).
    reflexivity.
Qed.

Lemma trim_pad (ws1 p ws2 : string) :
  forallb PromptCache.is_js_space (list_ascii_of_string ws1) = true ->
  forallb PromptCache.is_js_space (list_ascii_of_string ws2) = true ->
  PromptCache.trim (ws1 ++ p ++ ws2) = PromptCache.trim p.
Proof.
  intros H1 H2. unfold PromptCache.trim. rewrite !list_ascii_app.
  rewrite trim_list_pad by assumption. reflexivity.
Qed.

(** White space around a prompt never changes [validatePrompt]'s verdict,
    and a prompt made only of white space is refused with the message
    asking for a prompt. *)
Theorem validatePrompt_ignores_padding (ws1 p ws2 : string) :
  forallb PromptCache.is_js_space (list_ascii_of_string ws1) = true ->
  forallb PromptCache.is_js_space (list_ascii_of_string ws2) = true ->
  validatePrompt (ws1 ++ p ++ ws2) = validatePrompt p
  /\ validatePrompt ws1 = PromptInvalid "Please enter a prompt to generate an animation".
Proof.
  intros H1 H2. split.
  - unfold validatePrompt. rewrite trim_pad by assumption. reflexivity.
  - unfold validatePrompt.
    rewrite <- (app_empty_r ws1).
    change (ws1 ++ "")%string with (ws1 ++ "" ++ "")%string.
    rewrite trim_pad by (assumption || reflexivity). reflexivity.
Qed.

End DetectorFacts.

Module JsFacts.

Lemma assoc_get_set {A} (ps : list (string * A)) (k k' : string) (v : A) :
  assoc_get (assoc_set ps k v) k' = if String.eqb k' k then Some v else assoc_get ps k'.
Proof.
  induction ps as [|[k0 v0] ps IH]; simpl; [reflexivity|].
  destruct (String.eqb_spec k k0) as [->|Hne]; simpl.
  - destruct (String.eqb k' k0); reflexivity.
  - rewrite IH. destruct (String.eqb_spec k' k0) as [->|]; [|reflexivity].
    destruct (String.eqb_spec k0 k) as [->|]; [congruence|reflexivity].
Qed.

Lemma js_get_set (ps : list (string * jsval)) (k k' : string) (v : jsval) :
  js_get (JObj (assoc_set ps k v)) k' = if String.eqb k' k then v else js_get (JObj ps) k'.
Proof. simpl. rewrite assoc_get_set. destruct (String.eqb k' k); reflexivity. Qed.

Lemma or_default_cons (a : ascii) (s d : string) : or_default (Some (String a s)) d = String a s.
Proof. reflexivity. Qed.

End JsFacts.

Module PipelineFacts.
Import Repo RepoFacts JsFacts Pipeline Observations.

(** [failJob] on a stored object: the document is overwritten in place
    with status [failed] and the error object built from the arguments. *)
Lemma failJob_on_object (db : store) (jobId : string) (ps : list (string * jsval))
  (m l st : option string) (now : string) :
  objectId_isValid jobId = true ->
  db !! objectId_hex jobId = Some (JObj ps) ->
  exists ps',
    (failJob db jobId m l st now).2 = <[objectId_hex jobId := JObj ps']> db
    /\ (exists j, (failJob db jobId m l st now).1 = Ok (Some j))
    /\ js_get (JObj ps') "status" = JStr "failed"
    /\ js_get (JObj ps') "error"
       = JObj [("message", JStr (or_default m default_error_message));
               ("logs", JStr (or_default l default_error_logs));
               ("stage", JStr (or_default st "rendering"));
               ("timestamp", JStr now)].
Proof.
  intros Hid Hdb. unfold failJob. rewrite Hid. simpl.
  unfold findOneAndUpdate. rewrite Hdb.
  set (err := JObj [("message", JStr (or_default m default_error_message));
                    ("logs", JStr (or_default l default_error_logs));
                    ("stage", JStr (or_default st "rendering"));
                    ("timestamp", JStr now)]).
  set (ps' := assoc_set (assoc_set (assoc_set (assoc_set ps "status" (JStr "failed"))
                 "updatedAt" (JStr now)) "error" err) "progress" (JNum 0)).
  assert (Ha : apply_sets ps [("status", JStr "failed"); ("updatedAt", JStr now);
                              ("error", err); ("progress", JNum 0)] = Some ps')
    by reflexivity.
  rewrite Ha. exists ps'. split; [reflexivity|]. split; [eexists; reflexivity|].
  unfold ps'. split; cbn [js_get]; rewrite !assoc_get_set; reflexivity.
Qed.

Lemma findJobById_object (db : store) (jobId : string) (ps : list (string * jsval)) :
  objectId_isValid jobId = true ->
  db !! objectId_hex jobId = Some (JObj ps) ->
  findJobById db jobId = Ok (Some (documentToJob (objectId_hex jobId) (JObj ps))).
Proof. intros Hid Hdb. unfold findJobById. rewrite Hid. simpl. rewrite Hdb. reflexivity. Qed.

Lemma updateJobStatus_generating_code_throws (db : store) (jobId : string)
  (ps : list (string * jsval)) (p : option Z) (msg : option string) (now : string) :
  objectId_isValid jobId = true ->
  db !! objectId_hex jobId = Some (JObj ps) ->
  updateJobStatus db jobId "generating_code" p msg now
  = (Throw ("Invalid status transition from " ++ js_template (js_get (JObj ps) "status")
            ++ " to generating_code"), db).
Proof.
  intros Hid Hdb.
  apply (updateJobStatus_invalid_unchanged db jobId "generating_code" p msg now
           (documentToJob (objectId_hex jobId) (JObj ps))).
  - apply findJobById_object; assumption.
  - apply isValidTransition_to_generating_code.
Qed.

Lemma processJob_fails_at_start (generate : string -> string -> Validator.GenResult)
  (render : string -> jsval -> Renderer.ManimRenderResult)
  (db : store) (c : PromptCache.cache) (jobId prompt stylePreset : string)
  (parentJobId : option string) (nowIso : string) (nowMs : Z) (ps : list (string * jsval)) :
  objectId_isValid jobId = true ->
  db !! objectId_hex jobId = Some (JObj ps) ->
  let '(db', c', rejected) :=
    processJob generate render db c jobId prompt stylePreset parentJobId nowIso nowMs in
  c' = c /\ rejected = false
  /\ failed_at_start db db' jobId ps "An unexpected error occurred. Please try again." nowIso.
Proof.
  intros Hid Hdb. unfold processJob.
  rewrite (updateJobStatus_generating_code_throws db jobId ps _ _ _ Hid Hdb).
  unfold failJob_call.
  destruct (failJob_on_object db jobId ps
              (Some "An unexpected error occurred. Please try again.")
              (Some ("Invalid status transition from " ++ js_template (js_get (JObj ps) "status")
                     ++ " to generating_code"))
              (Some "code_generation") nowIso Hid Hdb)
    as (ps' & Hdb' & [j Hj] & Hst & Herr).
  destruct (failJob _ _ _ _ _ _) as [o db'] eqn:E. simpl in Hdb', Hj. subst o.
  split; [reflexivity|]. split; [reflexivity|].
  exists ps'. split; [exact Hdb'|]. split; [exact Hst|]. rewrite Herr. reflexivity.
Qed.

Lemma processAutoFixJob_fails_at_start
  (render : string -> jsval -> Renderer.ManimRenderResult)
  (generateFixed : jsval -> jsval -> Validator.GenResult)
  (db : store) (c : PromptCache.cache) (jobId : string)
  (failedCode errorLogs originalPrompt originalStylePreset : jsval)
  (nowIso : string) (nowMs : Z) (ps : list (string * jsval)) :
  objectId_isValid jobId = true ->
  db !! objectId_hex jobId = Some (JObj ps) ->
  let '(db', c', rejected) :=
    processAutoFixJob render generateFixed db c jobId failedCode errorLogs
      originalPrompt originalStylePreset nowIso nowMs in
  c' = c /\ rejected = false
  /\ failed_at_start db db' jobId ps
       "An unexpected error occurred during auto-fix. Please try regular retry." nowIso.
Proof.
  intros Hid Hdb. unfold processAutoFixJob.
  rewrite (updateJobStatus_generating_code_throws db jobId ps _ _ _ Hid Hdb).
  unfold failJob_call.
  destruct (failJob_on_object db jobId ps
              (Some "An unexpected error occurred during auto-fix. Please try regular retry.")
              (Some ("Invalid status transition from " ++ js_template (js_get (JObj ps) "status")
                     ++ " to generating_code"))
              (Some "code_generation") nowIso Hid Hdb)
    as (ps' & Hdb' & [j Hj] & Hst & Herr).
  destruct (failJob _ _ _ _ _ _) as [o db'] eqn:E. simpl in Hdb', Hj. subst o.
  split; [reflexivity|]. split; [reflexivity|].
  exists ps'. split; [exact Hdb'|]. split; [exact Hst|]. rewrite Herr. reflexivity.
Qed.

(** Both background pipelines fail any stored job at their first step,
    whatever the code generator, the renderer and the auto-fixer would
    return: the first [updateJobStatus] asks for [generating_code], which
    no transition allows, and the [catch] block records that error.  The
    job is left [failed] with the pipeline's generic message, the
    transition error as its logs and the stage [code_generation]; the
    cache is unchanged and the returned promise does not reject. *)
Theorem pipelines_fail_stored_jobs
  (generate : string -> string -> Validator.GenResult)
  (render : string -> jsval -> Renderer.ManimRenderResult)
  (generateFixed : jsval -> jsval -> Validator.GenResult)
  (db : store) (c : PromptCache.cache) (jobId : string) (ps : list (string * jsval))
  (prompt stylePreset : string) (parentJobId : option string)
  (failedCode errorLogs originalPrompt originalStylePreset : jsval)
  (nowIso : string) (nowMs : Z) :
  objectId_isValid jobId = true ->
  db !! objectId_hex jobId = Some (JObj ps) ->
  (let '(db', c', rejected) :=
     processJob generate render db c jobId prompt stylePreset parentJobId nowIso nowMs in
   c' = c /\ rejected = false
   /\ failed_at_start db db' jobId ps "An unexpected error occurred. Please try again." nowIso)
  /\ (let '(db', c', rejected) :=
        processAutoFixJob render generateFixed db c jobId failedCode errorLogs
          originalPrompt originalStylePreset nowIso nowMs in
      c' = c /\ rejected = false
      /\ failed_at_start db db' jobId ps
           "An unexpected error occurred during auto-fix. Please try regular retry." nowIso).
Proof.
  intros Hid Hdb. split.
  - exact (processJob_fails_at_start generate render db c jobId prompt stylePreset
             parentJobId nowIso nowMs ps Hid Hdb).
  - exact (processAutoFixJob_fails_at_start render generateFixed db c jobId failedCode
             errorLogs originalPrompt originalStylePreset nowIso nowMs ps Hid Hdb).
Qed.

End PipelineFacts.

Module RouteFacts.
Import Repo RateLimit Submit RateLimitFacts RateLimitOps Pipeline Route PipelineFacts Observations.

Lemma string_forall_app (p : ascii -> bool) (a b : string) :
  string_forall p (a ++ b) = string_forall p a && string_forall p b.
Proof.
  induction a as [|c a IH]; [reflexivity|].
  change (p c && string_forall p (a ++ b) = (p c && string_forall p a) && string_forall p b).
  rewrite IH, andb_assoc. reflexivity.
Qed.

Lemma string_map_app (f : ascii -> ascii) (a b : string) :
  string_map f (a ++ b) = string_map f a ++ string_map f b.
Proof.
  induction a as [|c a IH]; [reflexivity|].
  exact (f_equal (String (f c)) IH).
Qed.

Lemma hex_char_ok (d : nat) : d < 16 -> is_hex (hex_char d) = true /\ lower (hex_char d) = hex_char d.
Proof. intros H. do 16 (destruct d as [|d]; [split; reflexivity|]). exfalso; lia. Qed.

Lemma hex_pad_ok (k : nat) : forall n,
  String.length (hex_pad k n) = k
  /\ string_forall is_hex (hex_pad k n) = true
  /\ string_map lower (hex_pad k n) = hex_pad k n.
Proof.
  induction k as [|k IH]; intros n; [repeat split|].
  destruct (IH (Nat.div n 16)) as (Hl & Hh & Hm).
  destruct (hex_char_ok (Nat.modulo n 16) ltac:(apply Nat.mod_upper_bound; lia)) as [Hc1 Hc2].
  cbn [hex_pad]. rewrite StringFacts.length_app, string_forall_app, string_map_app, Hl, Hh, Hm.
  cbn [String.length string_forall string_map]. rewrite Hc1, Hc2. repeat split. lia.
Qed.

(** The ids the route assigns are valid ObjectIds in lower-case hex. *)
Lemma oid_of_nat_valid (n : nat) :
  objectId_isValid (oid_of_nat n) = true /\ objectId_hex (oid_of_nat n) = oid_of_nat n.
Proof.
  destruct (hex_pad_ok 24 n) as (Hl & Hh & Hm).
  unfold objectId_isValid, objectId_hex, oid_of_nat. rewrite Hl, Hh, Hm. split; reflexivity.
Qed.

Lemma createJob_inserted (db : store) (newId : string) (data : list (string * jsval))
  (j : jsval) (db' : store) :
  createJob db newId data = (Ok j, db') -> db' !! newId = Some (JObj data).
Proof.
  unfold createJob. destruct (db !! newId); intros H; inversion H; subst.
  apply lookup_insert_eq.
Qed.

Lemma created_queued (s : AppState) (data : list (string * jsval)) (j : jsval) (db' : store)
  (t : Task) :
  createJob s.(st_db) (oid_of_nat s.(st_next)) (bson_data data) = (Ok j, db') ->
  task_jobId t = oid_of_nat s.(st_next) ->
  js_get (JObj (bson_data data)) "status" = JStr "queued" ->
  queued_for (created s db') t.
Proof.
  intros Hc Ht Hs. destruct (oid_of_nat_valid (st_next s)) as [Hv Hh].
  unfold queued_for. rewrite Ht, Hh. split; [exact Hv|].
  exists (bson_data data). split; [|exact Hs].
  exact (createJob_inserted _ _ _ _ _ Hc).
Qed.

Lemma autoFix_branch_task (s : AppState) (afId nowIso : string) (code : Z)
  (s' : AppState) (t : Task) :
  autoFix_branch s afId nowIso = (code, s', Some t) -> queued_for s' t.
Proof.
  unfold autoFix_branch.
  destruct (findJobById (st_db s) afId) as [[orig|]|m]; try discriminate.
  destruct (js_ge _ 2); [discriminate|].
  destruct (_ || _); [discriminate|].
  destruct (createJob _ _ _) as [[j|m] db'] eqn:Ec; [|discriminate].
  intros H. inversion H; subst. eapply created_queued; [exact Ec|reflexivity|reflexivity].
Qed.

Lemma regular_branch_task (s : AppState) (b : Body) (nowIso : string) (code : Z)
  (s' : AppState) (t : Task) :
  regular_branch s b nowIso = (code, s', Some t) -> queued_for s' t.
Proof.
  unfold regular_branch.
  assert (Hcreate : forall code' s'' t',
    match b_prompt b, b_stylePreset b with
    | Some prompt, Some stylePreset =>
        match createJob (st_db s) (oid_of_nat (st_next s))
                (bson_data (regularJobData prompt stylePreset (b_parentJobId b) 1 nowIso)) with
        | (Throw _, db') => (500%Z, created s db', None)
        | (Ok _, db') =>
            (201%Z, created s db',
             Some (RunProcessJob (oid_of_nat (st_next s)) prompt stylePreset (b_parentJobId b)))
        end
    | _, _ => (400%Z, s, None)
    end = (code', s'', Some t') -> queued_for s'' t').
  { intros code' s'' t'.
    destruct (b_prompt b) as [p|]; [|discriminate].
    destruct (b_stylePreset b) as [st|]; [|discriminate].
    destruct (createJob _ _ _) as [[j|m] db'] eqn:Ec; [|discriminate].
    intros H. inversion H; subst. eapply created_queued; [exact Ec|reflexivity|reflexivity]. }
  destruct (b_parentJobId b) as [pid|].
  - destruct (truthy_opt (Some pid)).
    + destruct (findJobById _ _) as [[?|]|?]; discriminate.
    + apply Hcreate.
  - apply Hcreate.
Qed.

Lemma cacheHit_branch_no_task (s : AppState) (cj : jsval) (nowIso : string) :
  (cacheHit_branch s cj nowIso).2 = None.
Proof. unfold cacheHit_branch. destruct (createJob _ _ _) as [[]]; reflexivity. Qed.

(** Every background call [POST] starts works on a job it has just stored,
    under a valid id, with status [queued]. *)
Lemma POST_task_queued (s : AppState) (req : HttpRequest) (now : Z) (nowIso : string)
  (code : Z) (s' : AppState) (t : Task) :
  POST s req now nowIso = (code, s', Some t) -> queued_for s' t.
Proof.
  unfold POST.
  destruct (checkLimit _ _ _) as [lc rl'].
  destruct (negb (allowed lc)); [discriminate|].
  destruct (body req) as [b|]; [|discriminate].
  destruct (_ && _); [discriminate|].
  match goal with |- context [let '(_, _) := ?m in _] => destruct m as [cachedJob c1] end.
  set (s2 := mkApp (st_db s) rl' (st_next s) c1).
  assert (Hrest : (if truthy_opt (b_autoFixJobId b) then
                     match b_autoFixJobId b with
                     | Some autoFixJobId => autoFix_branch s2 autoFixJobId nowIso
                     | None => (500%Z, s2, None)
                     end
                   else regular_branch s2 b nowIso) = (code, s', Some t) -> queued_for s' t).
  { destruct (truthy_opt (b_autoFixJobId b)).
    - destruct (b_autoFixJobId b) as [af|]; [apply autoFix_branch_task|discriminate].
    - apply regular_branch_task. }
  destruct cachedJob as [cj|]; [|exact Hrest].
  destruct (_ && _); [|exact Hrest].
  intros H. pose proof (cacheHit_branch_no_task s2 cj nowIso) as Hn.
  rewrite H in Hn. discriminate.
Qed.

Lemma autoFix_branch_not_429 (s : AppState) (afId nowIso : string) :
  (autoFix_branch s afId nowIso).1.1 <> 429%Z.
Proof.
  unfold autoFix_branch.
  destruct (findJobById _ _) as [[orig|]|m]; simpl; try discriminate.
  destruct (js_ge _ 2); simpl; [discriminate|].
  destruct (_ || _); simpl; [discriminate|].
  destruct (createJob _ _ _) as [[]]; simpl; discriminate.
Qed.

Lemma regular_branch_not_429 (s : AppState) (b : Body) (nowIso : string) :
  (regular_branch s b nowIso).1.1 <> 429%Z.
Proof.
  unfold regular_branch.
  destruct (b_parentJobId b) as [pid|]; [destruct (truthy_opt (Some pid))|];
    [destruct (findJobById _ _) as [[?|]|?]; simpl; discriminate| |];
    (destruct (b_prompt b); [|simpl; discriminate]);
    (destruct (b_stylePreset b); [|simpl; discriminate]);
    destruct (createJob _ _ _) as [[]]; simpl; discriminate.
Qed.

Lemma cacheHit_branch_not_429 (s : AppState) (cj : jsval) (nowIso : string) :
  (cacheHit_branch s cj nowIso).1.1 <> 429%Z.
Proof. unfold cacheHit_branch. destruct (createJob _ _ _) as [[]]; simpl; discriminate. Qed.

(** [POST] answers 429 only when [checkLimit] refuses the client's key. *)
Lemma POST_429_refused (s : AppState) (req : HttpRequest) (now : Z) (nowIso : string) :
  (POST s req now nowIso).1.1 = 429%Z ->
  allowed (checkLimit s.(st_limiter) (getClientIP req.(headers)) now).1 = false.
Proof.
  unfold POST.
  destruct (checkLimit _ _ _) as [lc rl']. simpl.
  destruct (allowed lc); simpl; [|reflexivity].
  destruct (body req) as [b|]; simpl; [|discriminate].
  destruct (_ && _); simpl; [discriminate|].
  match goal with |- context [let '(_, _) := ?m in _] => destruct m as [cachedJob c1] end.
  set (s2 := mkApp (st_db s) rl' (st_next s) c1).
  assert (Hrest : (if truthy_opt (b_autoFixJobId b) then
                     match b_autoFixJobId b with
                     | Some autoFixJobId => autoFix_branch s2 autoFixJobId nowIso
                     | None => (500%Z, s2, None)
                     end
                   else regular_branch s2 b nowIso).1.1 <> 429%Z).
  { destruct (truthy_opt (b_autoFixJobId b)).
    - destruct (b_autoFixJobId b) as [af|]; [apply autoFix_branch_not_429|simpl; discriminate].
    - apply regular_branch_not_429. }
  intros H. exfalso.
  destruct cachedJob as [cj|]; [|exact (Hrest H)].
  destruct (_ && _); [|exact (Hrest H)].
  exact (cacheHit_branch_not_429 s2 cj nowIso H).
Qed.

Lemma getClientIP_forwarded (headers : string -> option string) (v : string) :
  headers "x-forwarded-for" = Some v -> v <> "" ->
  getClientIP headers = PromptCache.trim (first_field v).
Proof.
  intros Hh Hv. unfold getClientIP, truthy_header. rewrite Hh.
  destruct (String.eqb_spec v ""); [contradiction|reflexivity].
Qed.

(** [getStatus] before the check tells whether [POST] is let through. *)
Lemma allowed_of_used (rl : RateLimiter) (ip : string) (now : Z) :
  ((getStatus rl ip now).(used) < maxRequests)%Z ->
  allowed (checkLimit rl ip now).1 = true
  /\ (getStatus (checkLimit rl ip now).2 ip now).(used) = ((getStatus rl ip now).(used) + 1)%Z.
Proof.
  intros Hu. pose proof (RateLimitOpsFacts.checkLimit_getStatus rl ip now) as H.
  cbv zeta in H. destruct (checkLimit rl ip now) as [r rl'] eqn:E. simpl.
  destruct H as (Ha & _ & Hu' & _).
  assert (Hl : (getStatus rl ip now).(limit) = maxRequests)
    by (rewrite RateLimitOpsFacts.getStatus_rec; reflexivity).
  rewrite Hl in Ha. rewrite (proj2 (Z.ltb_lt _ _) Hu) in Ha.
  split; [exact Ha|]. rewrite Hu', Ha. reflexivity.
Qed.

(** The rate-limit key of [POST] is the first field of the
    [X-Forwarded-For] header when that header is non-empty, whatever the
    other headers say; a request naming a key with no live record is never
    answered 429, however many requests its sender made before. *)
Theorem forwarded_for_picks_quota (s : AppState) (req : HttpRequest) (now : Z)
  (nowIso v : string) :
  req.(headers) "x-forwarded-for" = Some v -> v <> "" ->
  (forall r, s.(st_limiter).(rl_store) !! limit_key (PromptCache.trim (first_field v)) = Some r
             -> (r.(resetTime) <= now)%Z) ->
  getClientIP req.(headers) = PromptCache.trim (first_field v)
  /\ (POST s req now nowIso).1.1 <> 429%Z.
Proof.
  intros Hh Hv Hfresh.
  pose proof (getClientIP_forwarded _ _ Hh Hv) as Hip.
  split; [exact Hip|].
  intros H429. apply POST_429_refused in H429.
  rewrite Hip, (proj1 (checkLimit_fresh _ _ _ Hfresh)) in H429. discriminate.
Qed.

(** A regular request without a prompt or without a style is answered 400
    after the rate-limit check has counted it: the client's [used] count
    grows by one, and nothing else changes. *)
Theorem missing_fields_counted (s : AppState) (req : HttpRequest) (now : Z)
  (nowIso : string) (b : Body) :
  req.(body) = Some b ->
  truthy_opt b.(b_autoFixJobId) = false ->
  truthy_opt b.(b_prompt) = false \/ truthy_opt b.(b_stylePreset) = false ->
  ((getStatus s.(st_limiter) (getClientIP req.(headers)) now).(used) < maxRequests)%Z ->
  let '(code, s', task) := POST s req now nowIso in
  code = 400%Z /\ task = None
  /\ s'.(st_db) = s.(st_db) /\ s'.(st_cache) = s.(st_cache) /\ s'.(st_next) = s.(st_next)
  /\ (getStatus s'.(st_limiter) (getClientIP req.(headers)) now).(used)
     = ((getStatus s.(st_limiter) (getClientIP req.(headers)) now).(used) + 1)%Z.
Proof.
  intros Hb Haf Hmiss Hu.
  destruct (allowed_of_used _ _ _ Hu) as [Ha Hu'].
  unfold POST.
  destruct (checkLimit _ _ _) as [lc rl'] eqn:E. simpl in Ha, Hu'.
  rewrite Ha. simpl. rewrite Hb, Haf. simpl.
  assert (Hm : negb (truthy_opt (b_prompt b)) || negb (truthy_opt (b_stylePreset b)) = true)
    by (destruct Hmiss as [H|H]; rewrite H; [reflexivity|apply orb_true_r]).
  rewrite Hm. simpl. repeat split; exact Hu'.
Qed.

(** A retry of an existing job ([parentJobId] names a stored job) is
    answered 500: the route calls [jobRepository.canRetry], which the
    repository does not define.  No job is created, no background call
    is started, and the cache is not consulted. *)
Theorem retry_of_existing_job_fails (s : AppState) (req : HttpRequest) (now : Z)
  (nowIso : string) (b : Body) (pid : string) (parent : jsval) :
  req.(body) = Some b ->
  truthy_opt b.(b_autoFixJobId) = false ->
  truthy_opt b.(b_prompt) = true -> truthy_opt b.(b_stylePreset) = true ->
  b.(b_parentJobId) = Some pid -> pid <> "" ->
  findJobById s.(st_db) pid = Ok (Some parent) ->
  ((getStatus s.(st_limiter) (getClientIP req.(headers)) now).(used) < maxRequests)%Z ->
  let '(code, s', task) := POST s req now nowIso in
  code = 500%Z /\ task = None
  /\ s'.(st_db) = s.(st_db) /\ s'.(st_cache) = s.(st_cache) /\ s'.(st_next) = s.(st_next).
Proof.
  intros Hb Haf Hp Hs Hpid Hne Hf Hu.
  destruct (allowed_of_used _ _ _ Hu) as [Ha _].
  unfold POST.
  destruct (checkLimit _ _ _) as [lc rl'] eqn:E. simpl in Ha.
  rewrite Ha. simpl. rewrite Hb, Haf, Hp, Hs. simpl.
  rewrite Hpid.
  assert (Ht : truthy_opt (Some pid) = true)
    by (simpl; destruct (String.eqb_spec pid ""); [contradiction|reflexivity]).
  rewrite Ht. simpl.
  destruct (b_prompt b), (b_stylePreset b); simpl;
    unfold regular_branch; rewrite Hpid, Ht; simpl; rewrite Hf; repeat split.
Qed.

(** A regular request whose prompt and style hit a cached [done] job with
    an output is answered 201 at once: a new [done] job is stored under
    the next id, marked [isCacheHit], with the cached job's output and id;
    the cache is left as [getCachedJob] left it and no background call is
    started. *)
Theorem cache_hit_stores_done_job (s : AppState) (req : HttpRequest) (now : Z)
  (nowIso : string) (b : Body) (p st : string) (cj : jsval) (c' : PromptCache.cache) :
  req.(body) = Some b ->
  truthy_opt b.(b_autoFixJobId) = false -> truthy_opt b.(b_parentJobId) = false ->
  b.(b_prompt) = Some p -> b.(b_stylePreset) = Some st -> p <> "" -> st <> "" ->
  ((getStatus s.(st_limiter) (getClientIP req.(headers)) now).(used) < maxRequests)%Z ->
  PromptCache.getCachedJob s.(st_cache) p st now = (Some cj, c') ->
  PromptCache.is_done cj = true -> js_truthy (js_get cj "output") = true ->
  s.(st_db) !! oid_of_nat s.(st_next) = None ->
  let '(code, s', task) := POST s req now nowIso in
  code = 201%Z /\ task = None /\ s'.(st_cache) = c'
  /\ exists ps, s'.(st_db) = <[oid_of_nat s.(st_next) := JObj ps]> s.(st_db)
     /\ js_get (JObj ps) "status" = JStr "done"
     /\ js_get (JObj ps) "isCacheHit" = JBool true
     /\ js_get (JObj ps) "cachedFromJobId" = to_bson (js_get cj "id")
     /\ js_get (JObj ps) "output" = to_bson (js_get cj "output").
Proof.
  intros Hb Haf Hpar Hp Hs Hpne Hsne Hu Hc Hd Ho Hfree.
  destruct (allowed_of_used _ _ _ Hu) as [Ha _].
  assert (Tp : truthy_opt (Some p) = true)
    by (simpl; destruct (String.eqb_spec p ""); [contradiction|reflexivity]).
  assert (Ts : truthy_opt (Some st) = true)
    by (simpl; destruct (String.eqb_spec st ""); [contradiction|reflexivity]).
  unfold POST.
  destruct (checkLimit _ _ _) as [lc rl'] eqn:E. simpl in Ha.
  rewrite Ha. simpl. rewrite Hb, Haf, Hpar, Hp, Hs, Tp, Ts. simpl.
  rewrite Hc, Hd, Ho. simpl.
  unfold cacheHit_branch, createJob. simpl. rewrite Hfree. simpl.
  split; [reflexivity|]. split; [reflexivity|]. split; [reflexivity|].
  eexists. split; [reflexivity|]. repeat split.
Qed.

(** Every job [POST] hands to the background, run to the end on the state
    the route leaves, ends failed at its first step, whatever the code
    generator, the renderer and the auto-fixer return: the pipeline asks
    for the status [generating_code], which no transition of the
    repository allows.  The stored error logs read "Invalid status
    transition from queued to generating_code"; the cache is unchanged
    and the background call does not reject. *)
Theorem submitted_jobs_always_fail
  (generate : string -> string -> Validator.GenResult)
  (render : string -> jsval -> Renderer.ManimRenderResult)
  (generateFixed : jsval -> jsval -> Validator.GenResult)
  (s : AppState) (req : HttpRequest) (now : Z) (nowIso : string)
  (code : Z) (s' : AppState) (t : Task) (nowIso' : string) (nowMs : Z) :
  POST s req now nowIso = (code, s', Some t) ->
  let '(db', c', rejected) :=
    run_task generate render generateFixed s'.(st_db) s'.(st_cache) t nowIso' nowMs in
  c' = s'.(st_cache) /\ rejected = false
  /\ exists ps, db' !! objectId_hex (task_jobId t) = Some (JObj ps)
     /\ js_get (JObj ps) "status" = JStr "failed"
     /\ js_get (js_get (JObj ps) "error") "logs"
        = JStr "Invalid status transition from queued to generating_code".
Proof.
  intros H. destruct (POST_task_queued _ _ _ _ _ _ _ H) as (Hv & ps & Hdb & Hst).
  destruct t as [jobId prompt stylePreset parentJobId|jobId fc el op os]; cbn [task_jobId run_task] in *.
  - pose proof (processJob_fails_at_start generate render (st_db s') (st_cache s') jobId
                  prompt stylePreset parentJobId nowIso' nowMs ps Hv Hdb) as Hp.
    destruct (processJob _ _ _ _ _ _ _ _ _ _) as [[db' c'] rj].
    destruct Hp as (Hc & Hr & ps' & Hdb' & Hst' & Herr).
    split; [exact Hc|]. split; [exact Hr|]. exists ps'.
    rewrite Hdb', lookup_insert_eq. split; [reflexivity|]. split; [exact Hst'|].
    rewrite Herr, Hst. reflexivity.
  - pose proof (processAutoFixJob_fails_at_start render generateFixed (st_db s') (st_cache s')
                  jobId fc el op os nowIso' nowMs ps Hv Hdb) as Hp.
    destruct (processAutoFixJob _ _ _ _ _ _ _ _ _ _ _) as [[db' c'] rj].
    destruct Hp as (Hc & Hr & ps' & Hdb' & Hst' & Herr).
    split; [exact Hc|]. split; [exact Hr|]. exists ps'.
    rewrite Hdb', lookup_insert_eq. split; [reflexivity|]. split; [exact Hst'|].
    rewrite Herr, Hst. reflexivity.
Qed.

End RouteFacts.

Module RenderOpsFacts.
Import Regex Validator Renderer RenderFacts StringFacts Observations.

Lemma prefix_length (a b : string) : String.prefix a b = true -> String.length a <= String.length b.
Proof.
  revert b. induction a as [|c a IH]; intros b H; simpl; [lia|].
  destruct b as [|c' b]; simpl in H; [discriminate|].
  destruct (ascii_dec c c'); [|discriminate]. apply IH in H. simpl. lia.
Qed.

Lemma remove_tree_spec (d p : string) (fs : fs_state) :
  p ∈ remove_tree d fs <-> p ∈ fs /\ ~ under d p.
Proof.
  unfold remove_tree, under. rewrite elem_of_filter.
  split.
  - intros [[Hne Hpre] Hin]. split; [exact Hin|]. intros [H|H]; [contradiction|congruence].
  - intros [Hin Hn]. split; [|exact Hin]. split.
    + intros ->. apply Hn. left. reflexivity.
    + destruct (String.prefix (d ++ "/") p) eqn:E; [|reflexivity].
      exfalso. apply Hn. right. reflexivity.
Qed.

Lemma cleanup_removes (w : World) (fs : fs_state) (d : string) :
  d ∈ fs -> rm_error w = None ->
  cleanup w fs d = (remove_tree d fs, []).
Proof.
  intros Hin Hrm. unfold cleanup.
  rewrite (bool_decide_eq_true_2 _ Hin), Hrm. reflexivity.
Qed.

Lemma cleanup_keeps (w : World) (fs : fs_state) (d p : string) :
  p ∈ fs -> ~ under d p -> p ∈ (cleanup w fs d).1.
Proof.
  intros Hin Hn. unfold cleanup.
  destruct (bool_decide (d ∈ fs)); [|exact Hin].
  destruct (rm_error w); [exact Hin|].
  apply remove_tree_spec. split; assumption.
Qed.

Lemma on_error_fs (cfg : ManimRenderConfig) (w : World) (fs : fs_state) (d : option string)
  (m : string) :
  (on_error cfg w fs d m).1.2 = match d with Some d' => (cleanup w fs d').1 | None => fs end.
Proof. unfold on_error. destruct d as [d'|]; [destruct (cleanup w fs d')|]; reflexivity. Qed.

Lemma base_not_under (base jobId : string) :
  ~ under (path_join base ("mathmotion-" ++ jobId)) base.
Proof.
  unfold under, path_join. intros [H|H].
  - apply (f_equal String.length) in H. rewrite !length_app in H. simpl in H. lia.
  - apply prefix_length in H. rewrite !length_app in H. simpl in H. lia.
Qed.

Lemma mkdirSync_done (w : World) (fs : fs_state) (d : string) (u : unit) (fs' : fs_state) :
  mkdirSync w fs d = Done u fs' -> fs' = {[d]} ∪ fs.
Proof. unfold mkdirSync. destruct (mkdir_error w); intros H; inversion H; reflexivity. Qed.

Lemma mkdirSync_thrown (w : World) (fs : fs_state) (d e : string) (fs' : fs_state) :
  mkdirSync w fs d = Thrown e fs' -> fs' = fs.
Proof. unfold mkdirSync. destruct (mkdir_error w); intros H; inversion H; reflexivity. Qed.

Lemma createTempDirectory_done (cfg : ManimRenderConfig) (w : World) (fs : fs_state)
  (jobId d : string) (fs1 : fs_state) :
  createTempDirectory cfg w fs jobId = Done d fs1 ->
  d = job_temp_dir cfg jobId /\ d ∈ fs1 /\ fs ⊆ fs1.
Proof.
  unfold createTempDirectory.
  destruct (bool_decide (tempDir cfg ∈ fs)) eqn:Eb;
    [|destruct (mkdirSync w fs (tempDir cfg)) as [u fsa|e fsa] eqn:Ea;
      [apply mkdirSync_done in Ea|intros H; discriminate H]];
    [set (fsa := fs)|];
    (destruct (bool_decide (path_join (tempDir cfg) ("mathmotion-" ++ jobId) ∈ fsa)) eqn:Ec;
     [apply bool_decide_eq_true_1 in Ec
     |destruct (mkdirSync w fsa _) as [u' fsb|e fsb] eqn:Eb2;
      [apply mkdirSync_done in Eb2|intros H; discriminate H]]);
    intros H; inversion H; subst; (split; [reflexivity|]); try set_solver.
Qed.

Lemma createTempDirectory_thrown (cfg : ManimRenderConfig) (w : World) (fs : fs_state)
  (jobId e : string) (fs1 : fs_state) :
  createTempDirectory cfg w fs jobId = Thrown e fs1 -> fs1 ⊆ {[tempDir cfg]} ∪ fs.
Proof.
  unfold createTempDirectory.
  destruct (bool_decide (tempDir cfg ∈ fs)) eqn:Eb;
    [|destruct (mkdirSync w fs (tempDir cfg)) as [u fsa|e' fsa] eqn:Ea;
      [apply mkdirSync_done in Ea|apply mkdirSync_thrown in Ea; intros H; inversion H; subst; set_solver]];
    [set (fsa := fs)|];
    (destruct (bool_decide (path_join (tempDir cfg) ("mathmotion-" ++ jobId) ∈ fsa)) eqn:Ec;
     [intros H; discriminate H
     |destruct (mkdirSync w fsa _) as [u' fsb|e' fsb] eqn:Eb2;
      [intros H; discriminate H|apply mkdirSync_thrown in Eb2]]);
    intros H; inversion H; subst; set_solver.
Qed.

Lemma writeCodeFile_grows (w : World) (fs : fs_state) (d : string) :
  match writeCodeFile w fs d with Done _ fs' | Thrown _ fs' => fs ⊆ fs' end.
Proof. unfold writeCodeFile. destruct (write_error w); set_solver. Qed.

Lemma executeDocker_grows (cfg : ManimRenderConfig) (w : World) (fs : fs_state) (d s : string) :
  match executeDocker cfg w fs d s with Done _ fs' | Thrown _ fs' => fs ⊆ fs' end.
Proof.
  unfold executeDocker.
  destruct (docker w) as [[[|p|p]|] out err|m|]; set_solver.
Qed.

Lemma copyVideoToPublic_grows (w : World) (fs : fs_state) (jobId : string) :
  match copyVideoToPublic w fs jobId with Done _ fs' | Thrown _ fs' => fs ⊆ fs' end.
Proof.
  unfold copyVideoToPublic.
  destruct (bool_decide _);
    [|destruct (mkdirSync w fs _) as [u fsa|e fsa] eqn:Ea;
      [apply mkdirSync_done in Ea|apply mkdirSync_thrown in Ea; subst; set_solver]];
    destruct (copy_error w); subst; set_solver.
Qed.

(** [renderCode] removes the per-job directory, with everything under it,
    on every path but two: when no Scene class name can be extracted,
    and when Docker succeeded without producing an MP4 file.  This holds
    when [rmSync] does not fail and nothing was under the directory
    before the call. *)
Theorem renderCode_cleanup_paths (cfg : ManimRenderConfig) (w : World) (fs : fs_state)
  (request : ManimRenderRequest) :
  rm_error w = None ->
  (forall p, p ∈ fs -> ~ under (job_temp_dir cfg request.(jobId)) p) ->
  let '(r, fs', _) := renderCode cfg w fs request in
  (exists p, p ∈ fs' /\ under (job_temp_dir cfg request.(jobId)) p) ->
  r.(error) = Some (mkRenderError "runtime_error" "Could not find Scene class in code"
                      "Scene class name extraction failed")
  \/ r.(error) = Some (mkRenderError "runtime_error" "Video file not found after rendering"
                         "Manim execution completed but no MP4 file was produced").
Proof.
  intros Hrm Hfresh.
  set (jtd := job_temp_dir cfg (jobId request)).
  assert (Hclean : forall fsx, jtd ∈ fsx ->
            ~ (exists p, p ∈ (cleanup w fsx jtd).1 /\ under jtd p)).
  { intros fsx Hin [p [Hp Hu]]. rewrite (cleanup_removes w fsx jtd Hin Hrm) in Hp.
    apply remove_tree_spec in Hp. tauto. }
  unfold renderCode.
  destruct (createTempDirectory cfg w fs (jobId request)) as [d fs1|e fs1] eqn:Ect.
  2:{ destruct (on_error _ _ _ _ _) as [[r fs'] lg] eqn:Eo.
      intros [p [Hp Hu]]. exfalso.
      apply createTempDirectory_thrown in Ect.
      (* [on_error] with no directory leaves the file system as it is *)
      pose proof (on_error_fs cfg w fs1 None e) as Hf. rewrite Eo in Hf. simpl in Hf. subst fs'.
      apply Ect in Hp. apply elem_of_union in Hp as [Hp|Hp].
      - apply elem_of_singleton in Hp. subst p.
        exact (base_not_under (tempDir cfg) (jobId request) Hu).
      - exact (Hfresh p Hp Hu). }
  destruct (createTempDirectory_done _ _ _ _ _ _ Ect) as (-> & Hin1 & _).
  fold jtd in Hin1 |- *. clearbody jtd.
  pose proof (writeCodeFile_grows w fs1 jtd) as Hw.
  destruct (writeCodeFile w fs1 jtd) as [cf fs2|e fs2].
  2:{ destruct (on_error cfg w fs2 (Some jtd) e) as [[r fs'] lg] eqn:Eo.
      pose proof (on_error_fs cfg w fs2 (Some jtd) e) as Hf. rewrite Eo in Hf. simpl in Hf.
      subst fs'. intros Hex; exfalso; eapply Hclean; [|exact Hex]; set_solver. }
  destruct (extractSceneName (code request)) as [[|c0 s0]|].
  1,3: intros _; left; reflexivity.
  pose proof (executeDocker_grows cfg w fs2 jtd (String c0 s0)) as Hx.
  destruct (executeDocker cfg w fs2 jtd (String c0 s0)) as [[out err] fs3|e fs3].
  2:{ destruct (on_error cfg w fs3 (Some jtd) e) as [[r fs'] lg] eqn:Eo.
      pose proof (on_error_fs cfg w fs3 (Some jtd) e) as Hf. rewrite Eo in Hf. simpl in Hf.
      subst fs'. intros Hex; exfalso; eapply Hclean; [|exact Hex]; set_solver. }
  destruct (findRenderedVideo w fs3 jtd) as [videoPath|].
  2:{ intros _. right. reflexivity. }
  pose proof (copyVideoToPublic_grows w fs3 (jobId request)) as Hc.
  destruct (copyVideoToPublic w fs3 (jobId request)) as [url fs4|e fs4].
  - destruct (cleanup w fs4 jtd) as [fs5 lg] eqn:Ecl.
    assert (H4 : jtd ∈ fs4) by set_solver.
    pose proof (Hclean fs4 H4) as Hn. rewrite Ecl in Hn. simpl in Hn.
    intros Hex. exfalso. exact (Hn Hex).
  - destruct (on_error cfg w fs4 (Some jtd) e) as [[r fs'] lg] eqn:Eo.
    pose proof (on_error_fs cfg w fs4 (Some jtd) e) as Hf. rewrite Eo in Hf. simpl in Hf.
    subst fs'. intros Hex; exfalso; eapply Hclean; [|exact Hex]; set_solver.
Qed.

Lemma on_error_fails (cfg : ManimRenderConfig) (w : World) (fs : fs_state) (d : option string)
  (m : string) :
  (on_error cfg w fs d m).1.1.(success) = false.
Proof.
  unfold on_error. destruct (match d with Some d' => cleanup w fs d' | None => (fs, []) end).
  simpl. destruct (includes m "timeout"); [reflexivity|].
  destruct (includes m "docker"); [reflexivity|].
  destruct (_ || _); reflexivity.
Qed.

Lemma executeDocker_done (cfg : ManimRenderConfig) (w : World) (fs : fs_state) (d s out err : string)
  (fs' : fs_state) :
  executeDocker cfg w fs d s = Done (out, err) fs' -> docker w = DockerClose (Some 0%Z) out err.
Proof.
  unfold executeDocker.
  destruct (docker w) as [[[|p|p]|] o e|m|]; intros H; inversion H; reflexivity.
Qed.

Lemma copyVideoToPublic_done (w : World) (fs : fs_state) (jobId url : string) (fs' : fs_state) :
  copyVideoToPublic w fs jobId = Done url fs' ->
  url = "/videos/" ++ jobId ++ ".mp4"
  /\ path_join (path_join (path_join (cwd w) "public") "videos") (jobId ++ ".mp4") ∈ fs'.
Proof.
  unfold copyVideoToPublic.
  destruct (bool_decide _);
    [|destruct (mkdirSync w fs _) as [u fsa|e fsa]; [|intros H; discriminate H]];
    (destruct (copy_error w); [intros H; discriminate H|]);
    intros H; inversion H; subst; split; [reflexivity|set_solver| reflexivity|set_solver].
Qed.

(** A successful render returns the public URL [/videos/<jobId>.mp4] and
    Docker's stdout as its logs, and happens only when the Docker process
    exited with code 0; the copied video is in the file system afterwards
    unless its path lies under the per-job directory. *)
Theorem renderCode_success_contract (cfg : ManimRenderConfig) (w : World) (fs : fs_state)
  (request : ManimRenderRequest) :
  let '(r, fs', _) := renderCode cfg w fs request in
  r.(success) = true ->
  r.(videoUrl) = Some ("/videos/" ++ request.(jobId) ++ ".mp4") /\ r.(error) = None
  /\ (exists stdout stderr, docker w = DockerClose (Some 0%Z) stdout stderr
                            /\ r.(logs) = Some stdout)
  /\ (~ under (job_temp_dir cfg request.(jobId))
          (path_join (path_join (path_join (cwd w) "public") "videos") (request.(jobId) ++ ".mp4"))
      -> path_join (path_join (path_join (cwd w) "public") "videos") (request.(jobId) ++ ".mp4")
         ∈ fs').
Proof.
  unfold renderCode.
  destruct (createTempDirectory cfg w fs (jobId request)) as [d fs1|e fs1] eqn:Ect.
  2:{ pose proof (on_error_fails cfg w fs1 None e) as Hf.
      destruct (on_error _ _ _ _ _) as [[r fs'] lg]. simpl in Hf. congruence. }
  destruct (writeCodeFile w fs1 d) as [cf fs2|e fs2].
  2:{ pose proof (on_error_fails cfg w fs2 (Some d) e) as Hf.
      destruct (on_error _ _ _ _ _) as [[r fs'] lg]. simpl in Hf. congruence. }
  destruct (extractSceneName (code request)) as [[|c0 s0]|]; [simpl; congruence| |simpl; congruence].
  destruct (executeDocker cfg w fs2 d (String c0 s0)) as [[out err] fs3|e fs3] eqn:Ex.
  2:{ pose proof (on_error_fails cfg w fs3 (Some d) e) as Hf.
      destruct (on_error _ _ _ _ _) as [[r fs'] lg]. simpl in Hf. congruence. }
  destruct (findRenderedVideo w fs3 d) as [videoPath|]; [|simpl; congruence].
  destruct (copyVideoToPublic w fs3 (jobId request)) as [url fs4|e fs4] eqn:Ec.
  2:{ pose proof (on_error_fails cfg w fs4 (Some d) e) as Hf.
      destruct (on_error _ _ _ _ _) as [[r fs'] lg]. simpl in Hf. congruence. }
  destruct (createTempDirectory_done _ _ _ _ _ _ Ect) as (-> & _ & _).
  apply copyVideoToPublic_done in Ec as [-> Hin].
  destruct (cleanup w fs4 (job_temp_dir cfg (jobId request))) as [fs5 lg] eqn:Ecl.
  intros _. split; [reflexivity|]. split; [reflexivity|]. split.
  - exists out, err. split; [exact (executeDocker_done _ _ _ _ _ _ _ _ Ex)|reflexivity].
  - intros Hn. pose proof (cleanup_keeps w fs4 _ _ Hin Hn) as Hk. rewrite Ecl in Hk. exact Hk.
Qed.

Lemma createTempDirectory_ok (cfg : ManimRenderConfig) (w : World) (fs : fs_state) (jobId : string) :
  mkdir_error w = None ->
  exists fs1, createTempDirectory cfg w fs jobId = Done (job_temp_dir cfg jobId) fs1.
Proof.
  intros Hm. unfold createTempDirectory, mkdirSync. rewrite Hm.
  destruct (bool_decide (tempDir cfg ∈ fs));
    destruct (bool_decide _); eexists; reflexivity.
Qed.

(** A Docker run that fails is reported as [docker_error] or [timeout],
    never as [runtime_error], whatever the scene printed: a non-zero exit
    code or a spawn failure gives a message that starts with "docker:",
    and a run stopped by the timer is a [timeout] whose details give the
    configured limit in seconds. *)
Theorem renderCode_docker_failures (cfg : ManimRenderConfig) (w : World) (fs : fs_state)
  (request : ManimRenderRequest) (sceneName : string) :
  mkdir_error w = None -> write_error w = None ->
  extractSceneName request.(code) = Some sceneName -> sceneName <> "" ->
  let r := (renderCode cfg w fs request).1.1 in
  (docker w = DockerTimeout ->
   r = failure "timeout" "Rendering took too long and was cancelled"
         ("Execution exceeded " ++ seconds_string (timeoutMs cfg) ++ "-second timeout limit") None)
  /\ ((exists c out err, docker w = DockerClose c out err /\ c <> Some 0%Z)
      \/ (exists m, docker w = DockerSpawnError m) ->
      r.(success) = false
      /\ exists e, r.(error) = Some e /\ (e.(rtype) = "docker_error" \/ e.(rtype) = "timeout")).
Proof.
  intros Hm Hw Hs Hne. cbv zeta.
  destruct (createTempDirectory_ok cfg w fs (jobId request) Hm) as [fs1 Ect].
  unfold renderCode. rewrite Ect.
  assert (Hwc : writeCodeFile w fs1 (job_temp_dir cfg (jobId request))
                = Done (path_join (job_temp_dir cfg (jobId request)) "scene.py")
                       ({[path_join (job_temp_dir cfg (jobId request)) "scene.py"]} ∪ fs1))
    by (unfold writeCodeFile; rewrite Hw; reflexivity).
  rewrite Hwc, Hs.
  destruct sceneName as [|c0 s0]; [congruence|].
  unfold executeDocker.
  set (fs3 := list_to_set _ ∪ _).
  assert (Hcls : forall msg, includes msg "docker" = true ->
            (on_error cfg w fs3 (Some (job_temp_dir cfg (jobId request))) msg).1.1.(success) = false
            /\ exists e, (on_error cfg w fs3 (Some (job_temp_dir cfg (jobId request))) msg).1.1.(error)
                         = Some e /\ (e.(rtype) = "docker_error" \/ e.(rtype) = "timeout")).
  { intros msg Hd. unfold on_error.
    destruct (cleanup w fs3 _). simpl.
    destruct (includes msg "timeout"); simpl.
    - split; [reflexivity|]. eexists; split; [reflexivity|]. right; reflexivity.
    - rewrite Hd. simpl. split; [reflexivity|]. eexists; split; [reflexivity|]. left; reflexivity. }
  split.
  - intros Hd. rewrite Hd. unfold on_error. destruct (cleanup w fs3 _). reflexivity.
  - intros [(c & out & err & Hd & Hc)|(m & Hd)]; rewrite Hd.
    + destruct c as [[|p|p]|]; [congruence|apply Hcls; reflexivity..].
    + apply Hcls. reflexivity.
Qed.

End RenderOpsFacts.

Module TextFacts.
Import PromptCache Generator StringFacts.

Lemma append_cons (c : ascii) (p x : string) : String c p ++ x = String c (p ++ x).
Proof. reflexivity. Qed.

Lemma prefix_app (p x : string) : String.prefix p (p ++ x) = true.
Proof.
  induction p as [|c p IH]; [destruct x; reflexivity|].
  rewrite append_cons. simpl. destruct (ascii_dec c c) as [_|n]; [exact IH|congruence].
Qed.

Lemma index_at_prefix (p s : string) :
  s <> "" -> String.prefix p s = true -> String.index 0 p s = Some 0.
Proof.
  intros Hs Hp. destruct s as [|c s]; [congruence|].
  cbn [String.index]. rewrite Hp. reflexivity.
Qed.

Lemma index_shift (c : ascii) (p s : string) (n : nat) :
  String.prefix p (String c s) = false -> String.index 0 p s = Some n ->
  String.index 0 p (String c s) = Some (S n).
Proof. intros H1 H2. cbn [String.index]. rewrite H1, H2. reflexivity. Qed.

Lemma substring_all (s : string) : String.substring 0 (String.length s) s = s.
Proof. induction s as [|c s IH]; simpl; [reflexivity|rewrite IH; reflexivity]. Qed.

Lemma substring_skip (p x : string) (n : nat) :
  String.substring (String.length p) n (p ++ x) = String.substring 0 n x.
Proof. induction p as [|c p IH]; [reflexivity|]. rewrite append_cons. simpl. exact IH. Qed.

Lemma substring_from_app (p x : string) : substring_from (p ++ x) (String.length p) = x.
Proof.
  unfold substring_from. rewrite length_app.
  replace (String.length p + String.length x - String.length p)%nat with (String.length x) by lia.
  rewrite substring_skip. apply substring_all.
Qed.

(** [s.replace(p, '')] on a string that starts with [p] drops that prefix. *)
Lemma replace_first_prefix (p x : string) : p <> "" -> replace_first (p ++ x) p "" = x.
Proof.
  intros Hp. unfold replace_first, indexOf.
  rewrite index_at_prefix by first [apply prefix_app | destruct p; [congruence|discriminate]].
  assert (H0 : String.substring 0 0 (p ++ x) = "") by (destruct (p ++ x); reflexivity).
  rewrite H0. simpl (0 + _)%nat.
  change (substring_from (p ++ x) (String.length p) = x).
  apply substring_from_app.
Qed.

Lemma drop_spaces_head (l : list ascii) :
  match l with c :: _ => is_js_space c = false | [] => True end -> drop_spaces l = l.
Proof. destruct l as [|c l]; simpl; [reflexivity|intros H; rewrite H; reflexivity]. Qed.

(** A text that starts and ends with a non-space code unit is its own trim. *)
Lemma trim_fixed (s : string) :
  match list_ascii_of_string s with c :: _ => is_js_space c = false | [] => True end ->
  match rev (list_ascii_of_string s) with c :: _ => is_js_space c = false | [] => True end ->
  trim s = s.
Proof.
  intros H1 H2. unfold trim.
  rewrite (drop_spaces_head _ H1), (drop_spaces_head _ H2), rev_involutive.
  apply string_of_list_ascii_of_string.
Qed.

Lemma drop_spaces_result (l : list ascii) :
  match drop_spaces l with c :: _ => is_js_space c = false | [] => True end.
Proof.
  induction l as [|c l IH]; simpl; [exact I|].
  destruct (is_js_space c) eqn:E; [exact IH|exact E].
Qed.

Lemma drop_spaces_suffix (l : list ascii) : exists pre, l = (pre ++ drop_spaces l)%list.
Proof.
  induction l as [|c l [pre IH]]; simpl; [exists []; reflexivity|].
  destruct (is_js_space c); [exists (c :: pre); simpl; rewrite <- IH; reflexivity|exists []; reflexivity].
Qed.

Lemma trim_idem (s : string) : trim (trim s) = trim s.
Proof.
  apply trim_fixed; unfold trim; rewrite list_ascii_of_string_of_list_ascii.
  - set (d := drop_spaces (list_ascii_of_string s)).
    pose proof (drop_spaces_result (list_ascii_of_string s)) as Hd. fold d in Hd.
    destruct (drop_spaces_suffix (rev d)) as [pre Hpre].
    assert (Hd' : d = (rev (drop_spaces (rev d)) ++ rev pre)%list).
    { rewrite <- rev_app_distr, <- Hpre, rev_involutive. reflexivity. }
    destruct (rev (drop_spaces (rev d))) as [|c r]; [exact I|].
    rewrite Hd' in Hd. exact Hd.
  - rewrite rev_involutive. apply drop_spaces_result.
Qed.

Lemma string_forall_list (p : ascii -> bool) (s : string) :
  Repo.string_forall p s = forallb p (list_ascii_of_string s).
Proof. induction s as [|c s IH]; simpl; [reflexivity|rewrite IH; reflexivity]. Qed.

End TextFacts.

Module PromptCacheOpsFacts.
Import PromptCache PromptCacheOps.

Section Assoc.
Context {A : Type}.

Lemma assoc_get_in (c : list (string * A)) (h : string) (x : A) :
  assoc_get c h = Some x -> In h (map fst c).
Proof.
  induction c as [|[k y] c IH]; simpl; [discriminate|].
  destruct (String.eqb h k) eqn:E; intros H.
  - left. symmetry. apply String.eqb_eq. exact E.
  - right. exact (IH H).
Qed.

(** With distinct keys, a deleted key is gone. *)
Lemma assoc_get_delete_nodup (c : list (string * A)) (h : string) :
  NoDup (map fst c) -> assoc_get (assoc_delete c h) h = None.
Proof.
  induction c as [|[k y] c IH]; simpl; [reflexivity|].
  intros Hnd. inversion Hnd as [|k' l' Hk Hnd' Heq]; subst.
  destruct (String.eqb h k) eqn:E.
  - apply String.eqb_eq in E. subst k.
    destruct (assoc_get c h) as [x|] eqn:Eg; [|reflexivity].
    exfalso. apply Hk. apply list_elem_of_In. exact (assoc_get_in c h x Eg).
  - simpl. rewrite E. exact (IH Hnd').
Qed.

Lemma assoc_set_length (c : list (string * A)) (h : string) (x v : A) :
  assoc_get c h = Some x -> length (assoc_set c h v) = length c.
Proof.
  induction c as [|[k y] c IH]; simpl; [discriminate|].
  destruct (String.eqb h k); intros H; simpl; [reflexivity|rewrite (IH H); reflexivity].
Qed.

Lemma assoc_set_sum (f : A -> Z) (c : list (string * A)) (h : string) (x v : A) :
  assoc_get c h = Some x ->
  fold_right (fun kv acc => (f kv.2 + acc)%Z) 0%Z (assoc_set c h v)
  = (fold_right (fun kv acc => (f kv.2 + acc)%Z) 0%Z c - f x + f v)%Z.
Proof.
  induction c as [|[k y] c IH]; simpl; [discriminate|].
  destruct (String.eqb h k); intros H; simpl.
  - injection H as <-. lia.
  - rewrite (IH H). lia.
Qed.

End Assoc.

Lemma getStats_size (c : cache) : size (getStats c) = length c.
Proof. unfold getStats. destruct (fold_left _ c _). reflexivity. Qed.

Lemma getStats_totalHits (c : cache) :
  totalHits (getStats c) = fold_right (fun kv acc => (hitCount kv.2 + acc)%Z) 0%Z c.
Proof.
  unfold getStats.
  match goal with |- context [fold_left ?F c _] =>
    assert (H : forall c' a l, (fold_left F c' (a, l)).1
                               = (a + fold_right (fun kv acc => (hitCount kv.2 + acc)%Z) 0%Z c')%Z)
  end.
  { induction c' as [|kv c' IH]; intros a l; simpl; [lia|]. rewrite IH. lia. }
  specialize (H c 0%Z []).
  destruct (fold_left _ c _) as [t e]. simpl in *. lia.
Qed.

(** [isCached] answers [true] exactly when [getCachedJob] would return a
    job: both look up the same hash and drop an expired entry alike.  The
    caches they leave differ only by the hit [getCachedJob] counts: the
    [size] reported by [getStats] is the same, and [totalHits] is one
    higher after a hit. *)
Theorem isCached_matches_getCachedJob (c : cache) (prompt stylePreset : string) (now : Z) :
  let '(cached, c1) := isCached c prompt stylePreset now in
  let '(job, c2) := getCachedJob c prompt stylePreset now in
  cached = match job with Some _ => true | None => false end
  /\ size (getStats c2) = size (getStats c1)
  /\ totalHits (getStats c2) = (totalHits (getStats c1) + (if cached then 1 else 0))%Z.
Proof.
  unfold isCached, getCachedJob.
  destruct (assoc_get c (generateHash prompt stylePreset)) as [x|] eqn:E.
  2:{ split; [reflexivity|]. split; [reflexivity|]. lia. }
  destruct (Z.ltb CACHE_DURATION_MS (now - cachedAt x)).
  { split; [reflexivity|]. split; [reflexivity|]. lia. }
  split; [reflexivity|].
  rewrite !getStats_size, !getStats_totalHits.
  split; [exact (assoc_set_length c _ x _ E)|].
  rewrite (assoc_set_sum hitCount c _ x _ E). simpl. lia.
Qed.

(** After [clearPrompt(prompt, stylePreset)], a lookup of any prompt that
    trims to the same text misses, through [getCachedJob] as through
    [isCached], provided the cache holds each hash once (a [Map]). *)
Theorem clearPrompt_forgets (c : cache) (prompt prompt' stylePreset : string) (now : Z) :
  NoDup (map fst c) -> trim prompt' = trim prompt ->
  (getCachedJob (clearPrompt c prompt stylePreset) prompt' stylePreset now).1 = None
  /\ (isCached (clearPrompt c prompt stylePreset) prompt' stylePreset now).1 = false.
Proof.
  intros Hnd Ht.
  assert (Hh : generateHash prompt' stylePreset = generateHash prompt stylePreset)
    by (unfold generateHash; rewrite Ht; reflexivity).
  unfold getCachedJob, isCached, clearPrompt. rewrite Hh.
  rewrite (assoc_get_delete_nodup c _ Hnd). split; reflexivity.
Qed.

End PromptCacheOpsFacts.

Module GeneratorFacts.
Import Repo Regex Validator OpenRouter Generator AutoFix TextFacts StringFacts.

(** A pattern that starts with a character class matches only where a
    code unit of that class stands. *)
Lemma search_set_head (fuel : nat) (ml : bool) (p : ascii -> bool) (r : regex) (i : nat)
  (l : list ascii) (pv : option ascii) :
  forallb (fun c => negb (p c)) l = true -> search fuel ml (RSeq (RSet p) r) i l pv = None.
Proof.
  revert i pv. induction l as [|c l IH]; intros i pv H.
  - destruct fuel as [|[|f]]; reflexivity.
  - simpl in H. apply andb_prop in H as [Hc H].
    assert (Hm : mt fuel ml (RSeq (RSet p) r) (mkM i (c :: l) pv []) Some = None).
    { destruct fuel as [|[|f]]; simpl; [reflexivity|reflexivity|].
      destruct (p c); [discriminate Hc|reflexivity]. }
    change (search fuel ml (RSeq (RSet p) r) i (c :: l) pv)
      with (match mt fuel ml (RSeq (RSet p) r) (mkM i (c :: l) pv []) Some with
            | Some st => Some (mkMatch i (pos st) (caps st))
            | None => search fuel ml (RSeq (RSet p) r) (S i) l (Some c)
            end).
    rewrite Hm. apply IH. exact H.
Qed.

(** A pattern anchored by [^] without the [m] flag, followed by a
    character class, matches only at the start and only when the first
    code unit is in the class. *)
Lemma search_bol_set_head (fuel : nat) (p : ascii -> bool) (r : regex) (i : nat)
  (l : list ascii) (pv : option ascii) :
  (pv = None -> match l with c :: _ => p c = false | [] => True end) ->
  search fuel false (RSeq RBol (RSeq (RSet p) r)) i l pv = None.
Proof.
  revert i pv. induction l as [|c l IH]; intros i pv H.
  - destruct fuel as [|[|[|f]]]; simpl; try reflexivity; destruct pv; reflexivity.
  - assert (Hm : mt fuel false (RSeq RBol (RSeq (RSet p) r)) (mkM i (c :: l) pv []) Some = None).
    { destruct fuel as [|[|[|f]]]; simpl; try reflexivity; destruct pv as [c0|]; try reflexivity.
      rewrite (H eq_refl). reflexivity. }
    change (search fuel false (RSeq RBol (RSeq (RSet p) r)) i (c :: l) pv)
      with (match mt fuel false (RSeq RBol (RSeq (RSet p) r)) (mkM i (c :: l) pv []) Some with
            | Some st => Some (mkMatch i (pos st) (caps st))
            | None => search fuel false (RSeq RBol (RSeq (RSet p) r)) (S i) l (Some c)
            end).
    rewrite Hm. apply IH. discriminate.
Qed.

Lemma fence_shape :
  exists r, pattern fenceRegex = RSeq (RSet (lit false "`")) r.
Proof.
  exists (match pattern fenceRegex with RSeq _ r => r | _ => REps end).
  vm_compute. reflexivity.
Qed.

Lemma markdown_shape :
  exists r, pattern markdownRegex = RSeq RBol (RSeq (RSet (lit false "`")) r)
            /\ multiline markdownRegex = false.
Proof.
  exists (match pattern markdownRegex with RSeq _ (RSeq _ r) => r | _ => REps end).
  split; vm_compute; reflexivity.
Qed.

(** [fenceRegex] finds nothing in a text without a backtick. *)
Lemma fence_absent (t : string) :
  string_forall (fun c => negb (Ascii.eqb c "`")) t = true -> exec_from fenceRegex t 0 = None.
Proof.
  intros H. destruct fence_shape as [r Hr]. unfold exec_from. rewrite Hr.
  apply search_set_head. simpl skipn. rewrite string_forall_list in H. exact H.
Qed.

(** [clean_code] keeps a text that does not start with a backtick and
    is its own trim. *)
Lemma clean_code_plain (t : string) (c : ascii) (rest : string) :
  t = String c rest -> Ascii.eqb c "`" = false -> PromptCache.trim t = t -> clean_code t = t.
Proof.
  intros -> Hc Ht. unfold clean_code. rewrite Ht.
  destruct markdown_shape as [r [Hr Hm]]. unfold exec_from. rewrite Hr, Hm.
  rewrite search_bol_set_head; [reflexivity|].
  intros _. simpl. exact Hc.
Qed.

(** Every failure of [validateAndCleanCode] is a [validation] error, and
    a success returns the cleaned code. *)
Lemma validateAndCleanCode_shape (code : string) :
  match validateAndCleanCode code with
  | GenOk c => c = clean_code code
  | GenErr e => etype e = "validation"
  end.
Proof.
  unfold validateAndCleanCode, validation_error.
  repeat match goal with
         | |- context [if ?b then _ else _] => destruct b
         | |- context [match ?x with Valid => _ | Invalid _ => _ end] => destruct x
         end; reflexivity.
Qed.

Lemma indexOfZ_ge (s sub : string) : (-1 <= indexOfZ s sub)%Z.
Proof. unfold indexOfZ. destruct (indexOf s sub); lia. Qed.

Local Arguments String.append : simpl nomatch.

Lemma classify_api (d : string) :
  classify_error ("API_ERROR: OpenRouter API error: " ++ d)
  = mkGeneration (GenErr (mkGenError "api_error" "OpenRouter API error"
                            ("OpenRouter API error: " ++ d))) None.
Proof.
  unfold classify_error. simpl String.prefix.
  change ("API_ERROR: OpenRouter API error: " ++ d)
    with ("API_ERROR: " ++ ("OpenRouter API error: " ++ d)).
  rewrite replace_first_prefix by discriminate. reflexivity.
Qed.

(** A reply fenced as a [python] markdown block is not unwrapped by
    [generateCode]: the opening fence line becomes the explanation, and a
    success returns code that still ends with the closing fence.  Every
    failure on such a reply is a validation error. *)
Theorem generateCode_keeps_closing_fence (body : string) :
  let reply := "```python" ++ Renderer.nl ++ "from manim import *" ++ body ++ Renderer.nl ++ "```" in
  match generateCode (FetchResponse 200 (JsonParsed (chat_reply (JStr reply)))) with
  | mkGeneration (GenOk code) explanation =>
      code = "from manim import *" ++ body ++ Renderer.nl ++ "```" /\ explanation = Some "```python"
  | mkGeneration (GenErr e) _ => etype e = "validation"
  end.
Proof.
  intros reply.
  set (X := "from manim import *" ++ body ++ Renderer.nl ++ "```").
  assert (HX : PromptCache.trim X = X).
  { apply trim_fixed; unfold X; rewrite !list_ascii_app; [reflexivity|].
    rewrite !rev_app_distr. reflexivity. }
  assert (Hr : PromptCache.trim reply = reply).
  { apply trim_fixed; unfold reply; rewrite !list_ascii_app; [reflexivity|].
    rewrite !rev_app_distr. reflexivity. }
  assert (Hext : Generator.extractExplanationAndCode reply = ("```python", X)).
  { unfold Generator.extractExplanationAndCode. cbv zeta. rewrite Hr.
    assert (Hi : indexOf reply "from manim import *" = Some 10).
    { unfold indexOf. do 10 (apply index_shift; [reflexivity|]).
      apply index_at_prefix; [discriminate|apply prefix_app]. }
    rewrite Hi.
    assert (Hs : substring_from reply 10 = X)
      by exact (substring_from_app ("```python" ++ Renderer.nl) X).
    rewrite Hs, HX. reflexivity. }
  unfold generateCode.
  assert (Hcall : callOpenRouter (FetchResponse 200 (JsonParsed (chat_reply (JStr reply))))
                  = Ok (JStr reply)) by reflexivity.
  rewrite Hcall, Hext.
  pose proof (validateAndCleanCode_shape X) as Hv.
  destruct (validateAndCleanCode X) as [c|e].
  - rewrite Hv. split; [|reflexivity].
    apply (clean_code_plain X "f" ("rom manim import *" ++ body ++ Renderer.nl ++ "```"));
      [reflexivity|reflexivity|exact HX].
  - exact Hv.
Qed.

(** [generateCode] on an error reply whose body is JSON: 429 is a
    [rate_limit] and 401 an [api_error] about the key, whatever the body;
    any other status is an [api_error] carrying [error.message] or
    ["HTTP <status>"], except for a [null] body, which is read as
    [null.error] and reported as a [network] error. *)
Theorem generateCode_rejected_reply (status : Z) (v : jsval) :
  response_ok status = false -> v <> JUndefined ->
  let r := gen_result (generateCode (FetchResponse status (JsonParsed v))) in
  (status = 429%Z ->
     r = GenErr (mkGenError "rate_limit" "Rate limit exceeded"
                   "OpenRouter rate limit exceeded. Please try again later."))
  /\ (status = 401%Z ->
      r = GenErr (mkGenError "api_error" "OpenRouter API error"
                    "Invalid OpenRouter API key. Please check configuration."))
  /\ (status <> 429%Z -> status <> 401%Z -> v = JNull ->
      r = GenErr (mkGenError "network" "Network error while generating code"
                    "Cannot read properties of null (reading 'error')"))
  /\ (status <> 429%Z -> status <> 401%Z -> v <> JNull ->
      r = GenErr (mkGenError "api_error" "OpenRouter API error"
                    ("OpenRouter API error: "
                     ++ (let m := js_opt (js_get v "error") "message" in
                         if js_truthy m then js_template m else "HTTP " ++ Z_to_string status)))).
Proof.
  intros Hok Hu. cbv zeta. unfold generateCode, callOpenRouter. rewrite Hok. simpl negb.
  split; [intros ->; reflexivity|].
  split; [intros ->; reflexivity|].
  split.
  - intros H1 H2 ->.
    apply Z.eqb_neq in H1, H2. rewrite H1, H2. reflexivity.
  - intros H1 H2 Hn.
    apply Z.eqb_neq in H1, H2. rewrite H1, H2.
    assert (Hread : js_read v "error" = Ok (js_get v "error"))
      by (destruct v; [congruence|congruence|reflexivity..]).
    rewrite Hread. cbv iota beta. rewrite classify_api. reflexivity.
Qed.

(** A non-OK reply whose body is not JSON: [generateCode] ignores the
    parse error and classifies the status, while [generateFixedCode]
    does not catch it and reports an [unknown] error with the parser's
    message, even for a 429. *)
Theorem non_json_error_reply (status : Z) (m : string) :
  response_ok status = false -> includes m "fetch" = false ->
  generateFixedCode (FetchResponse status (JsonInvalid m))
  = FixErr "unknown" "An unexpected error occurred. Please try again." (JStr m)
  /\ gen_result (generateCode (FetchResponse status (JsonInvalid m)))
     = GenErr (if Z.eqb status 429 then
                 mkGenError "rate_limit" "Rate limit exceeded"
                   "OpenRouter rate limit exceeded. Please try again later."
               else if Z.eqb status 401 then
                 mkGenError "api_error" "OpenRouter API error"
                   "Invalid OpenRouter API key. Please check configuration."
               else
                 mkGenError "api_error" "OpenRouter API error"
                   ("OpenRouter API error: HTTP " ++ Z_to_string status)).
Proof.
  intros Hok Hf. split.
  - unfold generateFixedCode. rewrite Hok. simpl negb. unfold fix_catch. rewrite Hf. reflexivity.
  - unfold generateCode, callOpenRouter. rewrite Hok. simpl negb.
    destruct (Z.eqb status 429); [reflexivity|].
    destruct (Z.eqb status 401); [reflexivity|].
    cbv iota beta. simpl js_read. cbv iota beta.
    replace (js_truthy (js_opt JUndefined "message")) with false by reflexivity.
    rewrite (classify_api ("HTTP " ++ Z_to_string status)). reflexivity.
Qed.

(** [generateFixedCode] takes [Math.min] of two [indexOf] results, so
    when the reply lacks ["from manim import *"] (or lacks ["class "]) and
    has no markdown fence, the minimum is -1 and the whole trimmed reply
    is the code: any prose before the class stays in it, and the
    explanation is empty. *)
Theorem generateFixedCode_keeps_prose (status : Z) (content : string) :
  response_ok status = true ->
  string_forall (fun c => negb (Ascii.eqb c "`")) (PromptCache.trim content) = true ->
  indexOf (PromptCache.trim content) "from manim import *" = None
  \/ indexOf (PromptCache.trim content) "class " = None ->
  generateFixedCode (FetchResponse status (JsonParsed (chat_reply (JStr content))))
  = match validateCode (PromptCache.trim content) with
    | Invalid reason => FixErr "validation" reason (JStr "Generated code failed validation")
    | Valid => FixOk (PromptCache.trim content) ""
    end.
Proof.
  intros Hok Hb Hi. unfold generateFixedCode. rewrite Hok. simpl negb.
  assert (Hc : read_content (chat_reply (JStr content)) = Ok (PromptCache.trim content))
    by reflexivity.
  rewrite Hc.
  assert (He : AutoFix.extractExplanationAndCode (PromptCache.trim content)
               = ("", PromptCache.trim content)).
  { unfold AutoFix.extractExplanationAndCode. rewrite trim_idem.
    rewrite (fence_absent _ Hb).
    assert (Hmin : Z.min (indexOfZ (PromptCache.trim content) "from manim import *")
                         (indexOfZ (PromptCache.trim content) "class ") = (-1)%Z).
    { pose proof (indexOfZ_ge (PromptCache.trim content) "from manim import *").
      pose proof (indexOfZ_ge (PromptCache.trim content) "class ").
      unfold indexOfZ in *.
      destruct Hi as [Hi|Hi]; rewrite Hi in *; lia. }
    rewrite Hmin. reflexivity. }
  rewrite He. reflexivity.
Qed.

End GeneratorFacts.

Module RouteWitnesses.
Import Observations Repo RateLimit Submit RateLimitOps RepoFixtures Pipeline Route RouteFixtures
  PipelineFacts RouteFacts Detector DetectorFacts.

Lemma validatePrompt_ignores_padding_witness :
  validatePrompt (" " ++ "Show a circle" ++ nl) = validatePrompt "Show a circle"
  /\ validatePrompt " " = PromptInvalid "Please enter a prompt to generate an animation".
Proof. apply validatePrompt_ignores_padding; reflexivity. Defined.

Lemma pipelines_fail_stored_jobs_witness :
  (let '(db', c', rejected) :=
     processJob gen_ok render_ok (db_with "queued") cache1 oid1 "Show a circle" "Classic"
       None now1 0 in
   c' = cache1 /\ rejected = false
   /\ failed_at_start (db_with "queued") db' oid1 queued_props
        "An unexpected error occurred. Please try again." now1)
  /\ (let '(db', c', rejected) :=
        processAutoFixJob render_ok fix_ok (db_with "queued") cache1 oid1
          (JStr "from manim import *") (JStr "NameError") (JStr "Show a circle")
          (JStr "Classic") now1 0 in
      c' = cache1 /\ rejected = false
      /\ failed_at_start (db_with "queued") db' oid1 queued_props
           "An unexpected error occurred during auto-fix. Please try regular retry." now1).
Proof. apply pipelines_fail_stored_jobs; reflexivity. Defined.

Lemma forwarded_for_picks_quota_witness :
  getClientIP proxied_headers = "203.0.113.7"
  /\ (POST app0 (request regular_body) 1000 now1).1.1 <> 429%Z.
Proof.
  refine (forwarded_for_picks_quota app0 (request regular_body) 1000 now1
            " 203.0.113.7, 10.0.0.1" eq_refl _ _).
  - discriminate.
  - intros r Hr. vm_compute in Hr. discriminate Hr.
Defined.

Lemma missing_fields_counted_witness :
  let '(code, s', task) := POST app0 (request no_prompt_body) 1000 now1 in
  code = 400%Z /\ task = None
  /\ s'.(st_db) = app0.(st_db) /\ s'.(st_cache) = app0.(st_cache) /\ s'.(st_next) = app0.(st_next)
  /\ (getStatus s'.(st_limiter) (getClientIP proxied_headers) 1000).(used)
     = ((getStatus app0.(st_limiter) (getClientIP proxied_headers) 1000).(used) + 1)%Z.
Proof.
  apply (missing_fields_counted app0 (request no_prompt_body) 1000 now1 no_prompt_body);
    [reflexivity|reflexivity|left; reflexivity|vm_compute; reflexivity].
Defined.

Lemma retry_of_existing_job_fails_witness :
  let '(code, s', task) := POST app0 (request retry_body) 1000 now1 in
  code = 500%Z /\ task = None
  /\ s'.(st_db) = app0.(st_db) /\ s'.(st_cache) = app0.(st_cache) /\ s'.(st_next) = app0.(st_next).
Proof.
  apply (retry_of_existing_job_fails app0 (request retry_body) 1000 now1 retry_body oid1
           (documentToJob oid1 (stored_job "failed")));
    try reflexivity; try discriminate; vm_compute; reflexivity.
Defined.

Lemma cache_hit_stores_done_job_witness :
  let s := mkApp (db_with "failed") limiter3 1 cache1 in
  let '(code, s', task) := POST s (request regular_body) 1000 now1 in
  code = 201%Z /\ task = None
  /\ s'.(st_cache) = (PromptCache.getCachedJob cache1 "Show a circle" "Classic" 1000).2
  /\ exists ps, s'.(st_db) = <[oid_of_nat 1 := JObj ps]> (db_with "failed")
     /\ js_get (JObj ps) "status" = JStr "done"
     /\ js_get (JObj ps) "isCacheHit" = JBool true
     /\ js_get (JObj ps) "cachedFromJobId" = to_bson (js_get done_circle "id")
     /\ js_get (JObj ps) "output" = to_bson (js_get done_circle "output").
Proof.
  apply (cache_hit_stores_done_job (mkApp (db_with "failed") limiter3 1 cache1)
           (request regular_body) 1000 now1 regular_body "Show a circle" "Classic" done_circle);
    try reflexivity; try discriminate; vm_compute; reflexivity.
Defined.

Lemma submitted_jobs_always_fail_witness :
  match POST app0 (request regular_body) 1000 now1 with
  | (code, s', Some t) =>
      let '(db', c', rejected) :=
        run_task gen_ok render_ok fix_ok s'.(st_db) s'.(st_cache) t now1 2000 in
      c' = s'.(st_cache) /\ rejected = false
      /\ exists ps, db' !! objectId_hex (task_jobId t) = Some (JObj ps)
         /\ js_get (JObj ps) "status" = JStr "failed"
         /\ js_get (js_get (JObj ps) "error") "logs"
            = JStr "Invalid status transition from queued to generating_code"
  | _ => False
  end.
Proof.
  destruct (POST app0 (request regular_body) 1000 now1) as [[code s'] [t|]] eqn:E.
  - exact (submitted_jobs_always_fail gen_ok render_ok fix_ok app0 (request regular_body)
             1000 now1 code s' t now1 2000 E).
  - vm_compute in E. discriminate E.
Defined.

End RouteWitnesses.

Module RenderOpsWitnesses.
Import Observations Renderer RenderFixtures RenderOpsFixtures RenderOpsFacts.

Lemma renderCode_cleanup_paths_witness :
  rm_error (calm_world demo_outputs) = None
  /\ (forall p, p ∈ (∅ : fs_state) -> ~ under (job_temp_dir demo_config demo_job) p)
  /\ let '(r, fs', _) := renderCode demo_config (calm_world demo_outputs) ∅
                            (mkRequest demo_job demo_scene_code) in
     (exists p, p ∈ fs' /\ under (job_temp_dir demo_config demo_job) p) ->
     r.(error) = Some (mkRenderError "runtime_error" "Could not find Scene class in code"
                         "Scene class name extraction failed")
     \/ r.(error) = Some (mkRenderError "runtime_error" "Video file not found after rendering"
                            "Manim execution completed but no MP4 file was produced").
Proof.
  assert (Hf : forall p, p ∈ (∅ : fs_state) -> ~ under (job_temp_dir demo_config demo_job) p)
    by (intros p Hp; apply not_elem_of_empty in Hp; contradiction).
  split; [reflexivity|]. split; [exact Hf|].
  exact (renderCode_cleanup_paths demo_config (calm_world demo_outputs) ∅
           (mkRequest demo_job demo_scene_code) eq_refl Hf).
Defined.

Lemma renderCode_success_contract_witness :
  ((renderCode demo_config (calm_world demo_outputs) ∅ (mkRequest demo_job demo_scene_code)).1.1).(success) = true
  /\ let '(r, fs', _) := renderCode demo_config (calm_world demo_outputs) ∅
                            (mkRequest demo_job demo_scene_code) in
     r.(success) = true ->
     r.(videoUrl) = Some ("/videos/" ++ (mkRequest demo_job demo_scene_code).(jobId) ++ ".mp4")
     /\ r.(error) = None
     /\ (exists stdout stderr, docker (calm_world demo_outputs) = DockerClose (Some 0%Z) stdout stderr
                               /\ r.(logs) = Some stdout)
     /\ (~ under (job_temp_dir demo_config (mkRequest demo_job demo_scene_code).(jobId))
             (path_join (path_join (path_join (cwd (calm_world demo_outputs)) "public") "videos")
                ((mkRequest demo_job demo_scene_code).(jobId) ++ ".mp4"))
         -> path_join (path_join (path_join (cwd (calm_world demo_outputs)) "public") "videos")
              ((mkRequest demo_job demo_scene_code).(jobId) ++ ".mp4") ∈ fs').
Proof.
  split; [vm_compute; reflexivity|].
  pose proof (renderCode_success_contract demo_config (calm_world demo_outputs) ∅
           (mkRequest demo_job demo_scene_code)) as H.
  exact H.
Defined.

Lemma renderCode_docker_failures_witness :
  let r := (renderCode demo_config failing_world ∅ (mkRequest demo_job demo_scene_code)).1.1 in
  extractSceneName demo_scene_code = Some "Demo"
  /\ r.(success) = false
  /\ exists e, r.(error) = Some e /\ (e.(rtype) = "docker_error" \/ e.(rtype) = "timeout").
Proof.
  cbv zeta.
  assert (Hs : extractSceneName demo_scene_code = Some "Demo") by (vm_compute; reflexivity).
  split; [exact Hs|].
  pose proof (renderCode_docker_failures demo_config failing_world ∅
                (mkRequest demo_job demo_scene_code) "Demo" eq_refl eq_refl Hs
                ltac:(discriminate)) as H.
  cbv zeta in H. apply (proj2 H).
  left. exists (Some 1%Z), "", "NameError: name 'Circl' is not defined".
  split; [reflexivity|discriminate].
Defined.

End RenderOpsWitnesses.

Module GeneratorWitnesses.
Import PromptCache PromptCacheOps RouteFixtures Repo Validator OpenRouter Generator AutoFix
  GeneratorFixtures.

Lemma clearPrompt_forgets_witness :
  NoDup (map fst cache1) /\ trim "  Show a circle " = trim "Show a circle" /\
  (getCachedJob (clearPrompt cache1 "Show a circle" "Classic") "  Show a circle " "Classic" 5).1 = None
  /\ (isCached (clearPrompt cache1 "Show a circle" "Classic") "  Show a circle " "Classic" 5).1 = false.
Proof.
  assert (Hn : NoDup (map fst cache1)) by (vm_compute; apply NoDup_singleton).
  assert (Ht : trim "  Show a circle " = trim "Show a circle") by (vm_compute; reflexivity).
  split; [exact Hn|]. split; [exact Ht|].
  exact (PromptCacheOpsFacts.clearPrompt_forgets cache1 "Show a circle" "  Show a circle " "Classic" 5 Hn Ht).
Defined.

Lemma generateCode_rejected_reply_witness :
  response_ok 500 = false /\ upstream_error <> JUndefined /\
  gen_result (generateCode (FetchResponse 500 (JsonParsed upstream_error)))
  = GenErr (mkGenError "api_error" "OpenRouter API error"
              "OpenRouter API error: Upstream down").
Proof.
  assert (H1 : response_ok 500 = false) by reflexivity.
  assert (H2 : upstream_error <> JUndefined) by discriminate.
  split; [exact H1|]. split; [exact H2|].
  pose proof (GeneratorFacts.generateCode_rejected_reply 500 upstream_error H1 H2) as H.
  cbv zeta in H. destruct H as (_ & _ & _ & H).
  rewrite (H ltac:(discriminate) ltac:(discriminate) ltac:(discriminate)). reflexivity.
Defined.

Lemma non_json_error_reply_witness :
  response_ok 429 = false /\ includes html_parse_error "fetch" = false /\
  generateFixedCode (FetchResponse 429 (JsonInvalid html_parse_error))
  = FixErr "unknown" "An unexpected error occurred. Please try again." (JStr html_parse_error)
  /\ gen_result (generateCode (FetchResponse 429 (JsonInvalid html_parse_error)))
     = GenErr (mkGenError "rate_limit" "Rate limit exceeded"
                 "OpenRouter rate limit exceeded. Please try again later.").
Proof.
  assert (H1 : response_ok 429 = false) by reflexivity.
  assert (H2 : includes html_parse_error "fetch" = false) by (vm_compute; reflexivity).
  split; [exact H1|]. split; [exact H2|].
  pose proof (GeneratorFacts.non_json_error_reply 429 html_parse_error H1 H2) as H.
  exact H.
Defined.

Lemma generateFixedCode_keeps_prose_witness :
  response_ok 200 = true /\
  string_forall (fun c => negb (Ascii.eqb c "`")) (trim prose_reply) = true /\
  (indexOf (trim prose_reply) "from manim import *" = None
   \/ indexOf (trim prose_reply) "class " = None) /\
  generateFixedCode (FetchResponse 200 (JsonParsed (chat_reply (JStr prose_reply))))
  = FixOk (trim prose_reply) "".
Proof.
  assert (H1 : response_ok 200 = true) by reflexivity.
  assert (H2 : string_forall (fun c => negb (Ascii.eqb c "`")) (trim prose_reply) = true)
    by (vm_compute; reflexivity).
  assert (H3 : indexOf (trim prose_reply) "from manim import *" = None
               \/ indexOf (trim prose_reply) "class " = None) by (left; vm_compute; reflexivity).
  split; [exact H1|]. split; [exact H2|]. split; [exact H3|].
  pose proof (GeneratorFacts.generateFixedCode_keeps_prose 200 prose_reply H1 H2 H3) as H.
  rewrite H. vm_compute. reflexivity.
Defined.

End GeneratorWitnesses.
